(** * Everdice: the reconnecting WebSocket helper of the client

    A shallow embedding of [client/src/lib/websocket.ts].  The module keeps
    four variables ([socket], [reconnectAttempts], [reconnectTimer],
    [isReconnecting]) and talks to the browser through [WebSocket],
    [setTimeout]/[clearTimeout], [console], [JSON], [Math.random] and
    [window.dispatchEvent].  The module variables and the part of the browser
    the module can observe form one [world]; every function of the source is
    a computation in a state-and-exception monad over that world, and the
    browser's event loop is a step function over [event]s. *)

From Stdlib Require Import QArith Qminmax Qround Qpower Lqa.
From stdpp Require Import list strings pretty.

Set Warnings "-register-all".
Local Open Scope string_scope.

(** ** JavaScript values carried by messages

    The payloads ([payload: any], the result of [JSON.parse]).  Numbers are
    never inspected by the module; the integer-valued ones are enough to
    write down messages.  [JBigInt] is the primitive that [JSON.stringify]
    cannot serialise. *)
Inductive jsval : Type :=
  | JUndefined
  | JNull
  | JBool (b : bool)
  | JNum (z : Z)
  | JBigInt (z : Z)
  | JStr (s : string)
  | JArr (items : list jsval)
  | JObj (props : list (string * jsval)).

Inductive exn : Type :=
  | TypeError
  | SyntaxError
  | InvalidStateError.

(** ** The platform

    What the browser decides and the module only calls.  [None] from
    [JSON_parse] is a thrown [SyntaxError], [None] from [JSON_stringify] a
    thrown [TypeError]; [WebSocket_accepts url = false] is a constructor that
    throws [SyntaxError] on [url]; [Math_random k] is the value of the k-th
    call of [Math.random()]. *)
Record platform : Type := {
  JSON_parse : string -> option jsval;
  JSON_stringify : jsval -> option string;
  WebSocket_accepts : string -> bool;
  Math_random : nat -> Q;
  location_protocol : string;
  location_host : string
}.

(** [Math.random()] returns a number in [0, 1). *)
Definition random_in_range (P : platform) : Prop :=
  forall k, (0 <= Math_random P k /\ Math_random P k < 1)%Q.

(** ** Browser objects *)

Inductive readyState : Type := CONNECTING | OPEN | CLOSING | CLOSED.

Definition readyState_eqb (a b : readyState) : bool :=
  match a, b with
  | CONNECTING, CONNECTING | OPEN, OPEN | CLOSING, CLOSING | CLOSED, CLOSED => true
  | _, _ => false
  end.

(** The two closures the module hands to [setTimeout]. *)
Inductive callback : Type :=
  | CbConnectionTimeout   (* the arrow function of lines 42-52 *)
  | CbReconnect.          (* the arrow function of lines 131-134 *)

Record timer : Type := {
  timer_id : nat;
  timer_delay : Q;
  timer_cb : callback
}.

(** A socket object.  The four handlers of one socket are assigned together
    and share one captured constant, [connectionTimeout]; [ws_handlers] is
    [Some t] once they are assigned, [t] being that timer id. *)
Record WebSocket : Type := {
  ws_url : string;
  ws_readyState : readyState;
  ws_handlers : option nat;
  ws_sent : list string
}.

Inductive level : Type := LOG | WARN | ERROR.

(** What the module passes to [console]: strings, numbers, caught
    exceptions, and the event object of an error event. *)
Inductive log_arg : Type :=
  | LStr (s : string)
  | LNum (z : Z)
  | LExn (e : exn)
  | LEvent.

(** ** The world: module variables and browser state *)
Record world : Type := {
  (* let socket: WebSocket | null *)
  socket : option nat;
  (* let reconnectAttempts = 0 *)
  reconnectAttempts : nat;
  (* let reconnectTimer: number | null *)
  reconnectTimer : option nat;
  (* let isReconnecting = false *)
  isReconnecting : bool;
  (* every socket object ever constructed, by handle *)
  sockets : list WebSocket;
  (* the timers that are armed and have neither fired nor been cleared *)
  timers : list timer;
  next_timer : nat;
  console : list (level * list log_arg);
  (* the CustomEvents dispatched on window: name and detail *)
  dispatched : list (string * jsval);
  random_calls : nat
}.

Definition maxReconnectAttempts : nat := 10.

Definition initial : world :=
  {| socket := None; reconnectAttempts := 0; reconnectTimer := None;
     isReconnecting := false; sockets := []; timers := []; next_timer := 0;
     console := []; dispatched := []; random_calls := 0 |}.

Definition set_socket (v : option nat) (w : world) : world :=
  {| socket := v; reconnectAttempts := reconnectAttempts w;
     reconnectTimer := reconnectTimer w; isReconnecting := isReconnecting w;
     sockets := sockets w; timers := timers w; next_timer := next_timer w;
     console := console w; dispatched := dispatched w;
     random_calls := random_calls w |}.

Definition set_reconnectAttempts (v : nat) (w : world) : world :=
  {| socket := socket w; reconnectAttempts := v;
     reconnectTimer := reconnectTimer w; isReconnecting := isReconnecting w;
     sockets := sockets w; timers := timers w; next_timer := next_timer w;
     console := console w; dispatched := dispatched w;
     random_calls := random_calls w |}.

Definition set_reconnectTimer (v : option nat) (w : world) : world :=
  {| socket := socket w; reconnectAttempts := reconnectAttempts w;
     reconnectTimer := v; isReconnecting := isReconnecting w;
     sockets := sockets w; timers := timers w; next_timer := next_timer w;
     console := console w; dispatched := dispatched w;
     random_calls := random_calls w |}.

Definition set_isReconnecting (v : bool) (w : world) : world :=
  {| socket := socket w; reconnectAttempts := reconnectAttempts w;
     reconnectTimer := reconnectTimer w; isReconnecting := v;
     sockets := sockets w; timers := timers w; next_timer := next_timer w;
     console := console w; dispatched := dispatched w;
     random_calls := random_calls w |}.

Definition set_sockets (v : list WebSocket) (w : world) : world :=
  {| socket := socket w; reconnectAttempts := reconnectAttempts w;
     reconnectTimer := reconnectTimer w; isReconnecting := isReconnecting w;
     sockets := v; timers := timers w; next_timer := next_timer w;
     console := console w; dispatched := dispatched w;
     random_calls := random_calls w |}.

Definition set_timers (v : list timer) (w : world) : world :=
  {| socket := socket w; reconnectAttempts := reconnectAttempts w;
     reconnectTimer := reconnectTimer w; isReconnecting := isReconnecting w;
     sockets := sockets w; timers := v; next_timer := next_timer w;
     console := console w; dispatched := dispatched w;
     random_calls := random_calls w |}.

Definition set_next_timer (v : nat) (w : world) : world :=
  {| socket := socket w; reconnectAttempts := reconnectAttempts w;
     reconnectTimer := reconnectTimer w; isReconnecting := isReconnecting w;
     sockets := sockets w; timers := timers w; next_timer := v;
     console := console w; dispatched := dispatched w;
     random_calls := random_calls w |}.

Definition set_console (v : list (level * list log_arg)) (w : world) : world :=
  {| socket := socket w; reconnectAttempts := reconnectAttempts w;
     reconnectTimer := reconnectTimer w; isReconnecting := isReconnecting w;
     sockets := sockets w; timers := timers w; next_timer := next_timer w;
     console := v; dispatched := dispatched w;
     random_calls := random_calls w |}.

Definition set_dispatched (v : list (string * jsval)) (w : world) : world :=
  {| socket := socket w; reconnectAttempts := reconnectAttempts w;
     reconnectTimer := reconnectTimer w; isReconnecting := isReconnecting w;
     sockets := sockets w; timers := timers w; next_timer := next_timer w;
     console := console w; dispatched := v;
     random_calls := random_calls w |}.

Definition set_random_calls (v : nat) (w : world) : world :=
  {| socket := socket w; reconnectAttempts := reconnectAttempts w;
     reconnectTimer := reconnectTimer w; isReconnecting := isReconnecting w;
     sockets := sockets w; timers := timers w; next_timer := next_timer w;
     console := console w; dispatched := dispatched w;
     random_calls := v |}.

(** ** The monad: state over [world], with JavaScript exceptions *)

Inductive completion (A : Type) : Type :=
  | Normal (a : A) (w : world)
  | Throw (e : exn) (w : world).
Arguments Normal {A} a w.
Arguments Throw {A} e w.

Definition M (A : Type) : Type := world -> completion A.

Definition ret {A} (a : A) : M A := fun w => Normal a w.

Definition bind {A B} (m : M A) (k : A -> M B) : M B :=
  fun w => match m w with
           | Normal a w' => k a w'
           | Throw e w' => Throw e w'
           end.

Definition throw {A} (e : exn) : M A := fun w => Throw e w.

(** [try { body } catch (err) { handler }] *)
Definition try_catch {A} (body : M A) (handler : exn -> M A) : M A :=
  fun w => match body w with
           | Normal a w' => Normal a w'
           | Throw e w' => handler e w'
           end.

Definition get {A} (f : world -> A) : M A := fun w => Normal (f w) w.
Definition modify (f : world -> world) : M unit := fun w => Normal tt (f w).

Notation "x <- m ;; k" := (bind m (fun x => k))
  (at level 90, m at level 80, right associativity, only parsing).
Notation "m ;;; k" := (bind m (fun _ => k))
  (at level 90, right associativity, only parsing).

(** The world a completion leaves behind, thrown or not. *)
Definition world_of {A} (c : completion A) : world :=
  match c with Normal _ w => w | Throw _ w => w end.

Definition threw {A} (c : completion A) : bool :=
  match c with Normal _ _ => false | Throw _ _ => true end.

(** ** Browser primitives *)

Definition set_ws_readyState (r : readyState) (s : WebSocket) : WebSocket :=
  {| ws_url := ws_url s; ws_readyState := r; ws_handlers := ws_handlers s;
     ws_sent := ws_sent s |}.

Definition set_ws_handlers (h : option nat) (s : WebSocket) : WebSocket :=
  {| ws_url := ws_url s; ws_readyState := ws_readyState s; ws_handlers := h;
     ws_sent := ws_sent s |}.

Definition set_ws_sent (l : list string) (s : WebSocket) : WebSocket :=
  {| ws_url := ws_url s; ws_readyState := ws_readyState s;
     ws_handlers := ws_handlers s; ws_sent := l |}.

(** [sock.readyState]; a handle that names no socket reads as [CLOSED]
    (handles are only ever made by [new_WebSocket]). *)
Definition readyState_of (w : world) (sid : nat) : readyState :=
  match sockets w !! sid with
  | Some s => ws_readyState s
  | None => CLOSED
  end.

Definition update_socket (sid : nat) (f : WebSocket -> WebSocket) (w : world) : world :=
  match sockets w !! sid with
  | Some s => set_sockets (<[sid := f s]> (sockets w)) w
  | None => w
  end.

(** [sock.close()] without arguments: starts the closing handshake of a
    socket that is connecting or open, does nothing otherwise, never throws.
    The close event comes later, from the event loop. *)
Definition ws_close (sid : nat) : M unit :=
  modify (fun w =>
    match readyState_of w sid with
    | CONNECTING | OPEN => update_socket sid (set_ws_readyState CLOSING) w
    | CLOSING | CLOSED => w
    end).

(** [sock.send(data)]: throws on a connecting socket, transmits on an open
    one, discards on a closing or closed one. *)
Definition ws_send (sid : nat) (data : string) : M unit :=
  fun w =>
    match readyState_of w sid with
    | CONNECTING => Throw InvalidStateError w
    | OPEN => Normal tt (update_socket sid (fun s => set_ws_sent (ws_sent s ++ [data]) s) w)
    | CLOSING | CLOSED => Normal tt w
    end.

Definition setTimeout (cb : callback) (delay : Q) : M nat :=
  fun w =>
    let id := next_timer w in
    Normal id
      (set_next_timer (S id)
         (set_timers (timers w ++ [{| timer_id := id; timer_delay := delay; timer_cb := cb |}]) w)).

Definition timer_is (id : nat) (t : timer) : bool := Nat.eqb (timer_id t) id.

(** [clearTimeout(id)]: disarms the timer if it is still armed. *)
Definition clearTimeout (id : nat) : M unit :=
  modify (fun w => set_timers (List.filter (fun t => negb (timer_is id t)) (timers w)) w).

Definition console_write (l : level) (args : list log_arg) : M unit :=
  modify (fun w => set_console (console w ++ [(l, args)]) w).

(** [window.dispatchEvent(new CustomEvent(name, { detail }))] *)
Definition dispatchEvent (name : string) (detail : jsval) : M unit :=
  modify (fun w => set_dispatched (dispatched w ++ [(name, detail)]) w).

(** [v.key] for the two keys the module reads, [type] and [payload], which
    no prototype defines: reading them off [null] or [undefined] throws, off
    another primitive or an array gives [undefined], off an object gives the
    own property.  The keys of an object are distinct. *)
Fixpoint own_property (props : list (string * jsval)) (key : string) : jsval :=
  match props with
  | [] => JUndefined
  | (k, v) :: rest => if String.eqb k key then v else own_property rest key
  end.

Definition get_property (v : jsval) (key : string) : M jsval :=
  match v with
  | JUndefined | JNull => throw TypeError
  | JObj props => ret (own_property props key)
  | _ => ret JUndefined
  end.

(** [v === 'literal'] *)
Definition strict_eq_string (v : jsval) (lit : string) : bool :=
  match v with
  | JStr s => String.eqb s lit
  | _ => false
  end.

(** [Math.min(1000 * Math.pow(1.5, n) + r * 1000, 30000)], line 126, with
    [r] the value of [Math.random()]. *)
Definition reconnectDelay (n : nat) (r : Q) : Q :=
  Qmin (1000 * (3 # 2) ^ Z.of_nat n + r * 1000) 30000.

(** [Math.round(x)] *)
Definition Math_round (x : Q) : Z := Qfloor (x + (1 # 2)).

Section Client.

Variable P : platform.

Definition Math_random_call : M Q :=
  fun w => Normal (Math_random P (random_calls w)) (set_random_calls (S (random_calls w)) w).

(** [new WebSocket(url)]: a fresh connecting socket, or a thrown
    [SyntaxError] when the platform rejects the URL. *)
Definition new_WebSocket (url : string) : M nat :=
  fun w =>
    if WebSocket_accepts P url then
      Normal (length (sockets w))
        (set_sockets (sockets w ++ [{| ws_url := url; ws_readyState := CONNECTING;
                                       ws_handlers := None; ws_sent := [] |}]) w)
    else Throw SyntaxError w.

(** ** The module's functions *)

(** [function scheduleReconnect()], lines 112-135. *)
Definition scheduleReconnect : M unit :=
  n <- get reconnectAttempts ;;
  if (maxReconnectAttempts <=? n)%nat then
    console_write ERROR
      [LStr ("Maximum reconnection attempts (" +:+ pretty maxReconnectAttempts
             +:+ ") reached. Giving up.")] ;;;
    modify (set_isReconnecting false)
  else
    rt <- get reconnectTimer ;;
    match rt with
    | Some t => clearTimeout t
    | None => ret tt
    end ;;;
    r <- Math_random_call ;;
    let delay := reconnectDelay n r in
    modify (set_reconnectAttempts (S n)) ;;;
    n' <- get reconnectAttempts ;;
    console_write LOG
      [LStr ("Scheduling WebSocket reconnect attempt " +:+ pretty n' +:+ "/"
             +:+ pretty maxReconnectAttempts +:+ " in "
             +:+ pretty (Math_round delay) +:+ "ms")] ;;;
    t <- setTimeout CbReconnect delay ;;
    modify (set_reconnectTimer (Some t)).

Definition is_open_or_connecting (w : world) : bool :=
  match socket w with
  | Some sid =>
      match readyState_of w sid with
      | OPEN | CONNECTING => true
      | CLOSING | CLOSED => false
      end
  | None => false
  end.

(** The URL of lines 35-37. *)
Definition wsUrl : string :=
  let protocol := if String.eqb (location_protocol P) "https:" then "wss:" else "ws:" in
  protocol +:+ "//" +:+ location_host P +:+ "/ws".

(** [export function createWSConnection(force = false)], lines 10-110. *)
Definition createWSConnection (force : bool) : M unit :=
  fun w =>
  if isReconnecting w && negb force then Normal tt w
  else if is_open_or_connecting w && negb force then Normal tt w
  else
    try_catch
      (s <- get socket ;;
       match s with
       | Some sid =>
           try_catch
             (rs <- get (fun w => readyState_of w sid) ;;
              if negb (readyState_eqb rs CLOSED) && negb (readyState_eqb rs CLOSING)
              then ws_close sid else ret tt)
             (fun err => console_write ERROR [LStr "Error closing existing socket:"; LExn err])
       | None => ret tt
       end ;;;
       modify (set_isReconnecting true) ;;;
       sid <- new_WebSocket wsUrl ;;
       modify (set_socket (Some sid)) ;;;
       connectionTimeout <- setTimeout CbConnectionTimeout 10000 ;;
       modify (update_socket sid (set_ws_handlers (Some connectionTimeout))))
      (fun error =>
         console_write ERROR [LStr "Failed to create WebSocket connection:"; LExn error] ;;;
         scheduleReconnect)
      w.

(** The arrow function handed to [setTimeout] at lines 42-52.  It reads the
    module variable [socket] when it runs. *)
Definition connectionTimeout_callback : M unit :=
  s <- get socket ;;
  match s with
  | Some sid =>
      rs <- get (fun w => readyState_of w sid) ;;
      if negb (readyState_eqb rs OPEN) then
        console_write WARN [LStr "WebSocket connection timeout - forcing close and reconnect"] ;;;
        try_catch (ws_close sid)
          (fun err => console_write ERROR [LStr "Error closing socket on timeout:"; LExn err]) ;;;
        scheduleReconnect
      else ret tt
  | None => ret tt
  end.

(** The arrow function handed to [setTimeout] at lines 131-134. *)
Definition reconnect_callback : M unit :=
  console_write LOG [LStr "Attempting to reconnect WebSocket..."] ;;;
  createWSConnection true.

(** [socket.onopen], lines 54-65. *)
Definition onopen (connectionTimeout : nat) : M unit :=
  console_write LOG [LStr "WebSocket connection established"] ;;;
  clearTimeout connectionTimeout ;;;
  modify (set_reconnectAttempts 0) ;;;
  modify (set_isReconnecting false) ;;;
  rt <- get reconnectTimer ;;
  match rt with
  | Some t => clearTimeout t ;;; modify (set_reconnectTimer None)
  | None => ret tt
  end.

(** [socket.onmessage], lines 67-87; [event_data] is [event.data]. *)
Definition onmessage (event_data : string) : M unit :=
  try_catch
    (data <- match JSON_parse P event_data with
             | Some v => ret v
             | None => throw SyntaxError
             end ;;
     ty <- get_property data "type" ;;
     if strict_eq_string ty "dice_roll" then
       payload <- get_property data "payload" ;;
       dispatchEvent "dice_roll_result" payload
     else if strict_eq_string ty "campaign_update" then
       payload <- get_property data "payload" ;;
       dispatchEvent "campaign_update" payload
     else ret tt)
    (fun error => console_write ERROR [LStr "Error parsing WebSocket message:"; LExn error]).

(** [socket.onclose], lines 89-100. *)
Definition onclose (connectionTimeout : nat) (code : Z) (reason : string) : M unit :=
  clearTimeout connectionTimeout ;;;
  console_write LOG [LStr "WebSocket connection closed"; LNum code; LStr reason] ;;;
  if negb (Z.eqb code 1000) then scheduleReconnect
  else
    modify (set_isReconnecting false) ;;;
    modify (set_reconnectAttempts 0).

(** [socket.onerror], lines 102-105. *)
Definition onerror : M unit :=
  console_write ERROR [LStr "WebSocket error:"; LEvent].

(** [export function sendWSMessage(type, payload)], lines 137-143. *)
Definition sendWSMessage (type : string) (payload : jsval) : M unit :=
  s <- get socket ;;
  match s with
  | Some sid =>
      rs <- get (fun w => readyState_of w sid) ;;
      if readyState_eqb rs OPEN then
        text <- match JSON_stringify P (JObj [("type", JStr type); ("payload", payload)]) with
                | Some t => ret t
                | None => throw TypeError
                end ;;
        ws_send sid text
      else console_write WARN [LStr "WebSocket not connected, cannot send message"]
  | None => console_write WARN [LStr "WebSocket not connected, cannot send message"]
  end.

(** The [beforeunload] listener, lines 146-150. *)
Definition beforeunload : M unit :=
  s <- get socket ;;
  match s with
  | Some sid => ws_close sid
  | None => ret tt
  end.

(** ** The event loop

    What can happen to the module: a caller invokes one of the two exported
    functions, the browser delivers an event to a socket, an armed timer
    fires, or the page is about to unload. *)
Inductive event : Type :=
  | CallConnect (force : bool)
  | CallSend (type : string) (payload : jsval)
  | SockOpen (sid : nat)
  | SockMessage (sid : nat) (data : string)
  | SockError (sid : nat)
  | SockClose (sid : nat) (code : Z) (reason : string)
  | TimerFire (tid : nat)
  | BeforeUnload.

Definition timer_pending (w : world) (tid : nat) : bool :=
  existsb (timer_is tid) (timers w).

(** The browser opens only a connecting socket, delivers messages only to an
    open one, closes a socket once, and fires only armed timers. *)
Definition enabled (e : event) (w : world) : bool :=
  match e with
  | CallConnect _ | CallSend _ _ | BeforeUnload => true
  | SockOpen sid =>
      match sockets w !! sid with
      | Some s => readyState_eqb (ws_readyState s) CONNECTING
      | None => false
      end
  | SockMessage sid _ =>
      match sockets w !! sid with
      | Some s => readyState_eqb (ws_readyState s) OPEN
      | None => false
      end
  | SockError sid | SockClose sid _ _ =>
      match sockets w !! sid with
      | Some s => negb (readyState_eqb (ws_readyState s) CLOSED)
      | None => false
      end
  | TimerFire tid => timer_pending w tid
  end.

(** Runs the handler a socket carries, with the [connectionTimeout] its
    closures captured. *)
Definition with_handlers (sid : nat) (h : nat -> M unit) : M unit :=
  fun w =>
    match sockets w !! sid with
    | Some s =>
        match ws_handlers s with
        | Some connectionTimeout => h connectionTimeout w
        | None => Normal tt w
        end
    | None => Normal tt w
    end.

Definition run_callback (cb : callback) : M unit :=
  match cb with
  | CbConnectionTimeout => connectionTimeout_callback
  | CbReconnect => reconnect_callback
  end.

Definition step (e : event) : M unit :=
  match e with
  | CallConnect force => createWSConnection force
  | CallSend type payload => sendWSMessage type payload
  | SockOpen sid =>
      modify (update_socket sid (set_ws_readyState OPEN)) ;;;
      with_handlers sid onopen
  | SockMessage sid data => with_handlers sid (fun _ => onmessage data)
  | SockError sid => with_handlers sid (fun _ => onerror)
  | SockClose sid code reason =>
      modify (update_socket sid (set_ws_readyState CLOSED)) ;;;
      with_handlers sid (fun t => onclose t code reason)
  | TimerFire tid =>
      fun w =>
        match List.find (timer_is tid) (timers w) with
        | Some t =>
            run_callback (timer_cb t)
              (set_timers (List.filter (fun t => negb (timer_is tid t)) (timers w)) w)
        | None => Normal tt w
        end
  | BeforeUnload => beforeunload
  end.

(** An exception that escapes a handler is reported by the browser and the
    loop goes on from the world the handler left. *)
Definition next (e : event) (w : world) : world := world_of (step e w).

Fixpoint run (es : list event) (w : world) : option world :=
  match es with
  | [] => Some w
  | e :: es' => if enabled e w then run es' (next e w) else None
  end.

Inductive reachable : world -> Prop :=
  | reachable_initial : reachable initial
  | reachable_next w e : reachable w -> enabled e w = true -> reachable (next e w).

End Client.

(** The world a list of events leads to, enabled or not. *)
Definition play (P : platform) (es : list event) (w : world) : world :=
  fold_left (fun w e => next P e w) es w.

Lemma run_play (P : platform) (es : list event) (w w' : world) :
  run P es w = Some w' -> w' = play P es w.
Proof.
  revert w. induction es as [|e es IH]; intros w H; cbn in *.
  - now injection H as <-.
  - destruct (enabled e w); [now apply IH | discriminate].
Qed.

Lemma run_reachable (P : platform) (es : list event) (w w' : world) :
  reachable P w -> run P es w = Some w' -> reachable P w'.
Proof.
  revert w. induction es as [|e es IH]; intros w Hw H; cbn in *.
  - now injection H as <-.
  - destruct (enabled e w) eqn:He; [|discriminate].
    apply (IH (next P e w)); [|exact H]. now apply reachable_next.
Qed.

(** ** A reference platform

    An https page served from [everdice.example] whose browser accepts the
    socket URL.  [JSON.stringify] throws on a [BigInt] and otherwise renders
    the value; [JSON.parse] knows the texts of [sample_messages] and rejects
    every other text. *)

Definition dquote : string := String (Ascii.ascii_of_nat 34) EmptyString.

Fixpoint has_bigint (v : jsval) : bool :=
  match v with
  | JBigInt _ => true
  | JArr items => existsb has_bigint items
  | JObj props => existsb (fun kv => let '(_, x) := kv in has_bigint x) props
  | _ => false
  end.

Definition is_undefined (v : jsval) : bool :=
  match v with JUndefined => true | _ => false end.

Fixpoint join (sep : string) (l : list string) : string :=
  match l with
  | [] => EmptyString
  | [x] => x
  | x :: rest => x +:+ sep +:+ join sep rest
  end.

(** Strings free of quotes, backslashes and control characters need no
    escapes. *)
Definition quoted (s : string) : string := dquote +:+ s +:+ dquote.

Fixpoint render (v : jsval) : string :=
  match v with
  | JUndefined | JNull | JBigInt _ => "null"
  | JBool true => "true"
  | JBool false => "false"
  | JNum z => pretty z
  | JStr s => quoted s
  | JArr items => "[" +:+ join "," (List.map render items) +:+ "]"
  | JObj props =>
      "{" +:+ join ","
        ((fix members (ps : list (string * jsval)) : list string :=
            match ps with
            | [] => []
            | (k, x) :: rest =>
                if is_undefined x then members rest
                else (quoted k +:+ ":" +:+ render x) :: members rest
            end) props) +:+ "}"
  end.

Definition sample_messages : list jsval :=
  [ JObj [("type", JStr "dice_roll"); ("payload", JObj [("value", JNum 7)])];
    JObj [("type", JStr "campaign_update"); ("payload", JObj [("name", JStr "Everdice")])];
    JObj [("type", JStr "chat"); ("payload", JStr "hello")];
    JNull;
    JNum 42 ].

Definition reference : platform :=
  {| JSON_parse := fun text => List.find (fun v => String.eqb (render v) text) sample_messages;
     JSON_stringify := fun v => if has_bigint v then None else Some (render v);
     WebSocket_accepts := fun _ => true;
     Math_random := fun _ => 1 # 2;
     location_protocol := "https:";
     location_host := "everdice.example" |}.

(** A page opened from a file has an empty host, and the constructor rejects
    the URL built from it. *)
Definition file_page : platform :=
  {| JSON_parse := JSON_parse reference;
     JSON_stringify := JSON_stringify reference;
     WebSocket_accepts := fun _ => false;
     Math_random := Math_random reference;
     location_protocol := "file:";
     location_host := EmptyString |}.


(** * Properties *)

(** ** Backoff delay *)

Definition backoff_base (n : nat) : Q := 1000 * (3 # 2) ^ Z.of_nat n.

Lemma reconnectDelay_min (n : nat) (r : Q) :
  reconnectDelay n r = Qmin (backoff_base n + r * 1000) 30000.
Proof. reflexivity. Qed.

Lemma reconnectDelay_le_cap (n : nat) (r : Q) : (reconnectDelay n r <= 30000)%Q.
Proof. unfold reconnectDelay. apply Q.le_min_r. Qed.

Lemma backoff_base_le_9 (n : nat) :
  (n <= 8)%nat -> (1000 <= backoff_base n /\ backoff_base n <= 25629)%Q.
Proof.
  intros Hn.
  do 9 (destruct n as [|n]; [vm_compute; split; discriminate|]).
  lia.
Qed.

Lemma reconnectDelay_uncapped (n : nat) (r : Q) :
  (n <= 8)%nat -> (0 <= r)%Q -> (r < 1)%Q ->
  (reconnectDelay n r == backoff_base n + r * 1000)%Q.
Proof.
  intros Hn H0 H1. rewrite reconnectDelay_min.
  destruct (backoff_base_le_9 n Hn) as [_ Hb].
  apply Q.min_l. lra.
Qed.

Lemma reconnectDelay_at_9 (r : Q) :
  (0 <= r)%Q -> (reconnectDelay 9 r == 30000)%Q.
Proof.
  intros H0. rewrite reconnectDelay_min.
  apply Q.min_r.
  assert (Hb : (backoff_base 9 == 19683000 # 512)%Q) by reflexivity.
  rewrite Hb. lra.
Qed.

(** Unfolds the field updates of a world and reads the fields back. *)
Ltac simpl_world :=
  cbv [set_socket set_reconnectAttempts set_reconnectTimer set_isReconnecting
       set_sockets set_timers set_next_timer set_console set_dispatched
       set_random_calls];
  cbn [socket reconnectAttempts reconnectTimer isReconnecting sockets timers
       next_timer console dispatched random_calls].

Ltac simpl_world_in H :=
  cbv [set_socket set_reconnectAttempts set_reconnectTimer set_isReconnecting
       set_sockets set_timers set_next_timer set_console set_dispatched
       set_random_calls] in H;
  cbn [socket reconnectAttempts reconnectTimer isReconnecting sockets timers
       next_timer console dispatched random_calls] in H.

(** Splits a conjunction of closed facts and evaluates each of them. *)
Ltac evaluate :=
  repeat match goal with |- _ /\ _ => split end;
  vm_compute; try reflexivity.

(** ** What one call of [scheduleReconnect] does *)

Definition give_up_message : level * list log_arg :=
  (ERROR, [LStr ("Maximum reconnection attempts (" +:+ pretty maxReconnectAttempts
                 +:+ ") reached. Giving up.")]).

Definition schedule_message (n : nat) (delay : Q) : level * list log_arg :=
  (LOG, [LStr ("Scheduling WebSocket reconnect attempt " +:+ pretty n +:+ "/"
               +:+ pretty maxReconnectAttempts +:+ " in "
               +:+ pretty (Math_round delay) +:+ "ms")]).

(** The timers left armed once [clearTimeout] has run on [rt], when [rt] is
    not [null]. *)
Definition without_timer (rt : option nat) (ts : list timer) : list timer :=
  match rt with
  | Some id => List.filter (fun t => negb (timer_is id t)) ts
  | None => ts
  end.

Section ScheduleReconnect.

Variable P : platform.

Definition gave_up (w : world) : world :=
  set_isReconnecting false (set_console (console w ++ [give_up_message]) w).

Definition next_delay (w : world) : Q :=
  reconnectDelay (reconnectAttempts w) (Math_random P (random_calls w)).

Definition reconnect_timer_of (w : world) : timer :=
  {| timer_id := next_timer w; timer_delay := next_delay w; timer_cb := CbReconnect |}.

Definition rescheduled (w : world) : world :=
  {| socket := socket w;
     reconnectAttempts := S (reconnectAttempts w);
     reconnectTimer := Some (next_timer w);
     isReconnecting := isReconnecting w;
     sockets := sockets w;
     timers := without_timer (reconnectTimer w) (timers w) ++ [reconnect_timer_of w];
     next_timer := S (next_timer w);
     console := console w ++ [schedule_message (S (reconnectAttempts w)) (next_delay w)];
     dispatched := dispatched w;
     random_calls := S (random_calls w) |}.

Lemma scheduleReconnect_exhausted (w : world) :
  (maxReconnectAttempts <= reconnectAttempts w)%nat ->
  scheduleReconnect P w = Normal tt (gave_up w).
Proof.
  intros Hn. unfold scheduleReconnect, bind, get.
  destruct (Nat.leb_spec maxReconnectAttempts (reconnectAttempts w)); [reflexivity | lia].
Qed.

Lemma scheduleReconnect_budget (w : world) :
  (reconnectAttempts w < maxReconnectAttempts)%nat ->
  scheduleReconnect P w = Normal tt (rescheduled w).
Proof.
  intros Hn. unfold scheduleReconnect, bind, get.
  destruct (Nat.leb_spec maxReconnectAttempts (reconnectAttempts w)); [lia |].
  unfold rescheduled, reconnect_timer_of, next_delay, without_timer.
  destruct (reconnectTimer w); reflexivity.
Qed.

Lemma scheduleReconnect_normal (w : world) :
  scheduleReconnect P w = Normal tt (world_of (scheduleReconnect P w)).
Proof.
  destruct (Nat.le_gt_cases maxReconnectAttempts (reconnectAttempts w)) as [H | H].
  - now rewrite scheduleReconnect_exhausted.
  - now rewrite scheduleReconnect_budget.
Qed.

End ScheduleReconnect.

(** C1.  With a reconnect counter [n < 10], [scheduleReconnect] arms a
    reconnect timer whose delay is [min(x, 30000)] for some [x] in
    [1000 * 1.5^n, 1000 * 1.5^n + 1000]: the delay never exceeds 30000 ms,
    it is that [x] itself while the cap is out of reach ([n <= 8]), it lies
    in [1000, 2000] for [n = 0], and it is exactly 30000 ms for [n = 9]. *)
Theorem scheduleReconnect_delay (P : platform) (w : world) (n : nat) :
  random_in_range P ->
  reconnectAttempts w = n ->
  (n < 10)%nat ->
  exists (t : timer) (w' : world),
    scheduleReconnect P w = Normal tt w' /\
    t ∈ timers w' /\
    reconnectTimer w' = Some (timer_id t) /\
    timer_cb t = CbReconnect /\
    timer_delay t = reconnectDelay n (Math_random P (random_calls w)) /\
    (exists x : Q,
        (backoff_base n <= x)%Q /\ (x <= backoff_base n + 1000)%Q /\
        timer_delay t = Qmin x 30000) /\
    (timer_delay t <= 30000)%Q /\
    ((n <= 8)%nat ->
       (backoff_base n <= timer_delay t)%Q /\
       (timer_delay t <= backoff_base n + 1000)%Q) /\
    (n = 0%nat -> (1000 <= timer_delay t)%Q /\ (timer_delay t <= 2000)%Q) /\
    (n = 9%nat -> (timer_delay t == 30000)%Q).
Proof.
  intros Hr Hn Hlt.
  destruct (Hr (random_calls w)) as [H0 H1].
  exists (reconnect_timer_of P w), (rescheduled P w).
  split. { apply scheduleReconnect_budget. unfold maxReconnectAttempts. lia. }
  split. { cbn. apply elem_of_app. right. apply list_elem_of_singleton. reflexivity. }
  split; [reflexivity|]. split; [reflexivity|].
  cbn [timer_delay reconnect_timer_of]. unfold next_delay. rewrite Hn.
  set (r := Math_random P (random_calls w)) in *.
  split; [reflexivity|].
  split.
  { exists (backoff_base n + r * 1000)%Q. repeat split; [lra | lra]. }
  split; [apply reconnectDelay_le_cap|].
  split.
  { intros H8. rewrite (reconnectDelay_uncapped n r H8 H0 H1). split; lra. }
  split.
  { intros ->. rewrite (reconnectDelay_uncapped 0 r ltac:(lia) H0 H1).
    assert (Hb : (backoff_base 0 == 1000)%Q) by reflexivity.
    rewrite Hb. split; lra. }
  intros ->. apply reconnectDelay_at_9. exact H0.
Qed.

(** At counter 0 with [Math.random()] giving 1/2 the delay is 1500 ms. *)
Lemma scheduleReconnect_delay_witness :
  exists (t : timer) (w' : world),
    scheduleReconnect reference initial = Normal tt w' /\
    t ∈ timers w' /\
    reconnectTimer w' = Some (timer_id t) /\
    timer_cb t = CbReconnect /\
    timer_delay t = reconnectDelay 0 (Math_random reference (random_calls initial)) /\
    (exists x : Q,
        (backoff_base 0 <= x)%Q /\ (x <= backoff_base 0 + 1000)%Q /\
        timer_delay t = Qmin x 30000) /\
    (timer_delay t <= 30000)%Q /\
    ((0 <= 8)%nat ->
       (backoff_base 0 <= timer_delay t)%Q /\
       (timer_delay t <= backoff_base 0 + 1000)%Q) /\
    (0%nat = 0%nat -> (1000 <= timer_delay t)%Q /\ (timer_delay t <= 2000)%Q) /\
    (0%nat = 9%nat -> (timer_delay t == 30000)%Q).
Proof.
  apply (scheduleReconnect_delay reference initial 0).
  - intros k. cbn. split; [discriminate | reflexivity].
  - reflexivity.
  - lia.
Defined.

(** ** Field-wise facts about the socket primitives *)

(** The world after [sock.close()] on the socket [sid]. *)
Definition closing (sid : nat) (w : world) : world :=
  match readyState_of w sid with
  | CONNECTING | OPEN => update_socket sid (set_ws_readyState CLOSING) w
  | CLOSING | CLOSED => w
  end.

Lemma ws_close_closing (sid : nat) (w : world) :
  ws_close sid w = Normal tt (closing sid w).
Proof. reflexivity. Qed.

(** Everything in a world but its sockets. *)
Definition same_module_state (w w' : world) : Prop :=
  socket w' = socket w /\
  reconnectAttempts w' = reconnectAttempts w /\
  reconnectTimer w' = reconnectTimer w /\
  isReconnecting w' = isReconnecting w /\
  timers w' = timers w /\
  next_timer w' = next_timer w /\
  console w' = console w /\
  dispatched w' = dispatched w /\
  random_calls w' = random_calls w /\
  length (sockets w') = length (sockets w).

Lemma update_socket_fields (sid : nat) (f : WebSocket -> WebSocket) (w : world) :
  same_module_state w (update_socket sid f w).
Proof.
  unfold same_module_state, update_socket.
  destruct (sockets w !! sid) as [s|]; [|repeat split; reflexivity].
  simpl_world. repeat split; solve [reflexivity | apply length_insert].
Qed.

Lemma closing_fields (sid : nat) (w : world) :
  same_module_state w (closing sid w).
Proof.
  unfold closing.
  destruct (readyState_of w sid);
    solve [apply update_socket_fields | repeat split; reflexivity].
Qed.

Lemma update_socket_lookup (sid : nat) (f : WebSocket -> WebSocket) (w : world) (i : nat) :
  sockets (update_socket sid f w) !! i =
  if Nat.eqb i sid then f <$> (sockets w !! i) else sockets w !! i.
Proof.
  unfold update_socket.
  destruct (Nat.eqb_spec i sid) as [-> | Hne].
  - destruct (sockets w !! sid) as [s|] eqn:Hs.
    + simpl_world. rewrite list_lookup_insert_eq; [reflexivity|].
      apply lookup_lt_Some in Hs. exact Hs.
    + rewrite Hs. reflexivity.
  - destruct (sockets w !! sid) as [s|] eqn:Hs; [|reflexivity].
    simpl_world. apply list_lookup_insert_ne. congruence.
Qed.

Lemma closing_readyState (sid : nat) (w : world) (i : nat) :
  readyState_of (closing sid w) i =
  if Nat.eqb i sid then
    match readyState_of w sid with
    | CONNECTING | OPEN => CLOSING
    | r => r
    end
  else readyState_of w i.
Proof.
  unfold closing.
  destruct (Nat.eqb_spec i sid) as [-> | Hne].
  - destruct (readyState_of w sid) eqn:Hr; try exact Hr;
      unfold readyState_of in *; rewrite update_socket_lookup, Nat.eqb_refl;
      destruct (sockets w !! sid); try discriminate; reflexivity.
  - destruct (readyState_of w sid) eqn:Hr; try reflexivity;
      unfold readyState_of; rewrite update_socket_lookup;
      destruct (Nat.eqb_spec i sid); try contradiction; reflexivity.
Qed.

(** ** What one call of [createWSConnection] does *)

Section CreateWSConnection.

Variable P : platform.

(** The two early returns of lines 12 and 15-17. *)
Definition connect_skipped (force : bool) (w : world) : bool :=
  (isReconnecting w && negb force) || (is_open_or_connecting w && negb force).

(** Lines 21-30: the socket the module holds is told to close when it is
    connecting or open. *)
Definition closing_current (w : world) : world :=
  match socket w with
  | Some sid => closing sid w
  | None => w
  end.

Definition connection_timer_of (w : world) : timer :=
  {| timer_id := next_timer w; timer_delay := 10000; timer_cb := CbConnectionTimeout |}.

Definition fresh_socket (w : world) : WebSocket :=
  {| ws_url := wsUrl P; ws_readyState := CONNECTING;
     ws_handlers := Some (next_timer w); ws_sent := [] |}.

(** The world after the [try] block ran to its end. *)
Definition connecting (w : world) : world :=
  {| socket := Some (length (sockets w));
     reconnectAttempts := reconnectAttempts w;
     reconnectTimer := reconnectTimer w;
     isReconnecting := true;
     sockets := sockets (closing_current w) ++ [fresh_socket w];
     timers := timers w ++ [connection_timer_of w];
     next_timer := S (next_timer w);
     console := console w;
     dispatched := dispatched w;
     random_calls := random_calls w |}.

(** The world in which the [catch] block calls [scheduleReconnect]. *)
Definition connect_failed (w : world) : world :=
  set_console
    (console w ++ [(ERROR, [LStr "Failed to create WebSocket connection:"; LExn SyntaxError])])
    (set_isReconnecting true (closing_current w)).

Lemma closing_current_fields (w : world) :
  same_module_state w (closing_current w).
Proof.
  unfold closing_current.
  destruct (socket w) as [sid|]; [apply closing_fields | repeat split; reflexivity].
Qed.

Lemma close_existing (w : world) (sid : nat) :
  socket w = Some sid ->
  try_catch
    (rs <- get (fun w => readyState_of w sid) ;;
     if negb (readyState_eqb rs CLOSED) && negb (readyState_eqb rs CLOSING)
     then ws_close sid else ret tt)
    (fun err => console_write ERROR [LStr "Error closing existing socket:"; LExn err]) w
  = Normal tt (closing_current w).
Proof.
  intros Hs. unfold closing_current, closing, try_catch, bind, get, ws_close, modify, ret.
  rewrite Hs. destruct (readyState_of w sid) eqn:Hr; cbn; rewrite ?Hr; reflexivity.
Qed.

Lemma createWSConnection_skipped (force : bool) (w : world) :
  connect_skipped force w = true ->
  createWSConnection P force w = Normal tt w.
Proof.
  unfold connect_skipped, createWSConnection. intros H.
  destruct (isReconnecting w && negb force); [reflexivity|].
  cbn in H. rewrite H. reflexivity.
Qed.

Lemma insert_fresh_handlers (l : list WebSocket) (s s' : WebSocket) :
  <[length l := s']> (l ++ [s])%list = (l ++ [s'])%list.
Proof.
  rewrite insert_app_r_alt by lia. rewrite Nat.sub_diag. reflexivity.
Qed.

Lemma createWSConnection_accepted (force : bool) (w : world) :
  connect_skipped force w = false ->
  WebSocket_accepts P (wsUrl P) = true ->
  createWSConnection P force w = Normal tt (connecting w).
Proof.
  unfold connect_skipped, createWSConnection. intros H Hok.
  apply orb_false_iff in H as [H1 H2]. rewrite H1, H2.
  destruct (closing_current_fields w)
    as (Hso & Hra & Hrt & Hir & Hti & Hnt & Hco & Hdi & Hrc & Hlen).
  unfold try_catch at 1. unfold bind at 1. unfold get at 1.
  destruct (socket w) as [sid|] eqn:Hs.
  - unfold bind at 1. rewrite (close_existing w sid Hs).
    unfold bind, modify, new_WebSocket, setTimeout. cbn. rewrite Hok. cbn.
    unfold update_socket. cbn.
    rewrite Hlen, lookup_app_r by lia. rewrite Hlen, Nat.sub_diag. cbn.
    rewrite <- Hlen at 1. rewrite insert_fresh_handlers.
    unfold connecting, fresh_socket, connection_timer_of, set_ws_handlers.
    simpl_world. rewrite Hra, Hrt, Hti, Hnt, Hco, Hdi, Hrc. reflexivity.
  - assert (Hc : closing_current w = w) by (unfold closing_current; now rewrite Hs).
    unfold bind, modify, new_WebSocket, setTimeout, ret. cbn. rewrite Hok. cbn.
    unfold update_socket. cbn.
    rewrite lookup_app_r by lia. rewrite Nat.sub_diag. cbn.
    rewrite insert_fresh_handlers.
    unfold connecting, fresh_socket, connection_timer_of, set_ws_handlers. cbn.
    rewrite Hc. reflexivity.
Qed.

Lemma createWSConnection_rejected (force : bool) (w : world) :
  connect_skipped force w = false ->
  WebSocket_accepts P (wsUrl P) = false ->
  createWSConnection P force w = scheduleReconnect P (connect_failed w).
Proof.
  unfold connect_skipped, createWSConnection. intros H Hok.
  apply orb_false_iff in H as [H1 H2]. rewrite H1, H2.
  unfold try_catch at 1. unfold bind at 1. unfold get at 1.
  destruct (socket w) as [sid|] eqn:Hs.
  - unfold bind at 1. rewrite (close_existing w sid Hs).
    cbv [bind modify new_WebSocket]. rewrite Hok.
    cbv [console_write modify connect_failed]. simpl_world.
    destruct (closing_current_fields w) as (_ & _ & _ & _ & _ & _ & Hco & _).
    rewrite Hco. reflexivity.
  - assert (Hc : closing_current w = w) by (unfold closing_current; now rewrite Hs).
    cbv [bind modify new_WebSocket ret]. rewrite Hok.
    cbv [console_write modify connect_failed]. rewrite Hc. reflexivity.
Qed.

Lemma connecting_new_socket (w : world) :
  sockets (connecting w) !! length (sockets w) = Some (fresh_socket w).
Proof.
  destruct (closing_current_fields w) as (_ & _ & _ & _ & _ & _ & _ & _ & _ & Hlen).
  cbn [connecting sockets].
  rewrite lookup_app_r by (rewrite Hlen; lia).
  rewrite Hlen, Nat.sub_diag. reflexivity.
Qed.

End CreateWSConnection.

(** ** Sending *)

Definition not_connected_warning : level * list log_arg :=
  (WARN, [LStr "WebSocket not connected, cannot send message"]).

(** [socket && socket.readyState === WebSocket.OPEN] *)
Definition socket_is_open (w : world) : bool :=
  match socket w with
  | Some sid => readyState_eqb (readyState_of w sid) OPEN
  | None => false
  end.

(** The object literal [{ type, payload }] of line 139. *)
Definition envelope (type : string) (payload : jsval) : jsval :=
  JObj [("type", JStr type); ("payload", payload)].

Lemma sendWSMessage_closed (P : platform) (type : string) (payload : jsval) (w : world) :
  socket_is_open w = false ->
  sendWSMessage P type payload w =
  Normal tt (set_console (console w ++ [not_connected_warning]) w).
Proof.
  unfold socket_is_open, sendWSMessage, bind, get. intros H.
  destruct (socket w) as [sid|]; [|reflexivity].
  rewrite H. reflexivity.
Qed.

Lemma sendWSMessage_open (P : platform) (type : string) (payload : jsval) (w : world) :
  socket_is_open w = true ->
  sendWSMessage P type payload w =
  match JSON_stringify P (envelope type payload), socket w with
  | Some text, Some sid =>
      Normal tt (update_socket sid (fun s => set_ws_sent (ws_sent s ++ [text]) s) w)
  | _, _ => Throw TypeError w
  end.
Proof.
  unfold socket_is_open, sendWSMessage, bind, get, envelope. intros H.
  destruct (socket w) as [sid|]; [|discriminate].
  rewrite H.
  destruct (JSON_stringify P _); [|reflexivity].
  unfold ret, ws_send. destruct (readyState_of w sid); try discriminate. reflexivity.
Qed.

(** C4.  When the module holds no socket, or a socket whose [readyState] is
    not [OPEN], [sendWSMessage] returns normally for every type and payload;
    the world it leaves differs from the one it found by one warning on the
    console: nothing is transmitted or queued on any socket, and [socket],
    [reconnectAttempts], [reconnectTimer], [isReconnecting] and the armed
    timers are the same. *)
Theorem sendWSMessage_not_open (P : platform) (type : string) (payload : jsval) (w : world) :
  (socket w = None \/
   exists sid, socket w = Some sid /\ readyState_of w sid <> OPEN) ->
  exists w',
    sendWSMessage P type payload w = Normal tt w' /\
    console w' = (console w ++ [not_connected_warning])%list /\
    sockets w' = sockets w /\
    socket w' = socket w /\
    reconnectAttempts w' = reconnectAttempts w /\
    reconnectTimer w' = reconnectTimer w /\
    isReconnecting w' = isReconnecting w /\
    timers w' = timers w /\
    next_timer w' = next_timer w /\
    dispatched w' = dispatched w.
Proof.
  intros H.
  assert (Hc : socket_is_open w = false).
  { unfold socket_is_open. destruct H as [-> | (sid & -> & Hr)]; [reflexivity|].
    destruct (readyState_of w sid); try reflexivity. contradiction. }
  exists (set_console (console w ++ [not_connected_warning]) w).
  split; [apply sendWSMessage_closed; exact Hc|].
  repeat split; reflexivity.
Qed.

(** Before any connection is made the module holds no socket. *)
Lemma sendWSMessage_not_open_witness :
  exists w',
    sendWSMessage reference "roll" (JNum 20) initial = Normal tt w' /\
    console w' = (console initial ++ [not_connected_warning])%list /\
    sockets w' = sockets initial /\
    socket w' = socket initial /\
    reconnectAttempts w' = reconnectAttempts initial /\
    reconnectTimer w' = reconnectTimer initial /\
    isReconnecting w' = isReconnecting initial /\
    timers w' = timers initial /\
    next_timer w' = next_timer initial /\
    dispatched w' = dispatched initial.
Proof.
  apply (sendWSMessage_not_open reference "roll" (JNum 20) initial).
  left. reflexivity.
Defined.

(** ** Receiving *)



Definition parse_error_entry (e : exn) : level * list log_arg :=
  (ERROR, [LStr "Error parsing WebSocket message:"; LExn e]).









Definition connected : world :=
  next reference (SockOpen 0) (next reference (CallConnect false) initial).


(** ** Exceptions *)




(** ** Connecting *)

(** The guard of line 15, in terms of the held socket's [readyState]. *)
Lemma is_open_or_connecting_held (w : world) :
  is_open_or_connecting w = true <->
  exists sid s, socket w = Some sid /\ sockets w !! sid = Some s /\
                (ws_readyState s = OPEN \/ ws_readyState s = CONNECTING).
Proof.
  unfold is_open_or_connecting, readyState_of. split.
  - destruct (socket w) as [sid|]; [|discriminate].
    destruct (sockets w !! sid) as [s|] eqn:Hs; [|discriminate].
    intros H. exists sid, s. split; [reflexivity|]. split; [exact Hs|].
    destruct (ws_readyState s); try discriminate; auto.
  - intros (sid & s & -> & -> & [-> | ->]); reflexivity.
Qed.

(** C7.  [createWSConnection(force)] returns at once, leaving the world as
    it is, exactly when [force] is false and either a reconnect is in
    progress ([isReconnecting]) or the module holds a socket whose
    [readyState] is [OPEN] or [CONNECTING].  Otherwise, on a platform whose
    [WebSocket] constructor accepts the URL, it tells the held socket to
    close when that socket is connecting or open (a closing or closed socket
    is left alone, and so is every other socket), makes a new connecting
    socket for [scheme//host/ws], holds it in [socket], sets
    [isReconnecting], and arms one timer of 10000 ms for the connection
    timeout without disarming any; the scheme is [wss:] when the page's
    protocol is [https:] and [ws:] otherwise. *)
Theorem createWSConnection_behaviour (P : platform) (force : bool) (w : world) :
  (createWSConnection P force w = Normal tt w <->
   force = false /\
   (isReconnecting w = true \/
    exists sid s, socket w = Some sid /\ sockets w !! sid = Some s /\
                  (ws_readyState s = OPEN \/ ws_readyState s = CONNECTING))) /\
  (~ (force = false /\
      (isReconnecting w = true \/
       exists sid s, socket w = Some sid /\ sockets w !! sid = Some s /\
                     (ws_readyState s = OPEN \/ ws_readyState s = CONNECTING))) ->
   WebSocket_accepts P (wsUrl P) = true ->
   exists w',
     createWSConnection P force w = Normal tt w' /\
     (forall sid s, socket w = Some sid -> sockets w !! sid = Some s ->
        sockets w' !! sid =
        Some (match ws_readyState s with
              | CONNECTING | OPEN => set_ws_readyState CLOSING s
              | CLOSING | CLOSED => s
              end)) /\
     (forall i, socket w <> Some i -> (i < length (sockets w))%nat ->
        sockets w' !! i = sockets w !! i) /\
     length (sockets w') = S (length (sockets w)) /\
     socket w' = Some (length (sockets w)) /\
     sockets w' !! length (sockets w) =
       Some {| ws_url := wsUrl P; ws_readyState := CONNECTING;
               ws_handlers := Some (next_timer w); ws_sent := [] |} /\
     timers w' =
       (timers w ++ [{| timer_id := next_timer w; timer_delay := 10000;
                        timer_cb := CbConnectionTimeout |}])%list /\
     isReconnecting w' = true /\
     reconnectAttempts w' = reconnectAttempts w /\
     reconnectTimer w' = reconnectTimer w) /\
  wsUrl P =
    (if String.eqb (location_protocol P) "https:" then "wss:" else "ws:")
    +:+ "//" +:+ location_host P +:+ "/ws".
Proof.
  assert (Hskip : connect_skipped force w = true <->
                  force = false /\
                  (isReconnecting w = true \/
                   exists sid s, socket w = Some sid /\ sockets w !! sid = Some s /\
                                 (ws_readyState s = OPEN \/ ws_readyState s = CONNECTING))).
  { rewrite <- is_open_or_connecting_held. unfold connect_skipped.
    destruct force, (isReconnecting w), (is_open_or_connecting w); cbn;
      split; intros H; try discriminate; try tauto; intuition discriminate. }
  destruct (closing_current_fields w)
    as (Hso & Hra & Hrt & Hir & Hti & Hnt & Hco & Hdi & Hrc & Hlen).
  split; [|split; [|reflexivity]].
  - split.
    + intros Heq. apply Hskip.
      destruct (connect_skipped force w) eqn:Hs; [reflexivity|]. exfalso.
      destruct (WebSocket_accepts P (wsUrl P)) eqn:Hok.
      * rewrite (createWSConnection_accepted P force w Hs Hok) in Heq.
        injection Heq as Heq. apply (f_equal (fun x => length (sockets x))) in Heq.
        cbn in Heq. rewrite length_app, Hlen in Heq. cbn in Heq. lia.
      * rewrite (createWSConnection_rejected P force w Hs Hok) in Heq.
        rewrite scheduleReconnect_normal in Heq. injection Heq as Heq.
        apply (f_equal (fun x => length (console x))) in Heq.
        revert Heq.
        destruct (Nat.le_gt_cases maxReconnectAttempts
                    (reconnectAttempts (connect_failed w))) as [H | H].
        -- rewrite (scheduleReconnect_exhausted P _ H). cbn.
           rewrite !length_app. cbn. lia.
        -- rewrite (scheduleReconnect_budget P _ H). cbn.
           rewrite !length_app. cbn. lia.
    + intros H. apply createWSConnection_skipped. apply Hskip. exact H.
  - intros Hn Hok.
    assert (Hs : connect_skipped force w = false).
    { destruct (connect_skipped force w) eqn:E; [|reflexivity].
      exfalso. apply Hn, Hskip. reflexivity. }
    exists (connecting P w).
    split; [apply createWSConnection_accepted; assumption|].
    cbn [connecting socket sockets timers isReconnecting reconnectAttempts reconnectTimer].
    split.
    { intros sid s Hsid Hlook.
      pose proof (lookup_lt_Some _ _ _ Hlook) as Hlt.
      rewrite lookup_app_l by (rewrite Hlen; exact Hlt).
      unfold closing_current. rewrite Hsid. unfold closing, readyState_of.
      rewrite Hlook.
      destruct (ws_readyState s); try exact Hlook;
        rewrite update_socket_lookup, Nat.eqb_refl, Hlook; reflexivity. }
    split.
    { intros i Hi Hlt. rewrite lookup_app_l by (rewrite Hlen; exact Hlt).
      unfold closing_current. destruct (socket w) as [sid|]; [|reflexivity].
      unfold closing. destruct (readyState_of w sid); try reflexivity;
        rewrite update_socket_lookup;
        destruct (Nat.eqb_spec i sid); try reflexivity; subst; congruence. }
    split. { rewrite length_app, Hlen. cbn. lia. }
    split; [reflexivity|].
    split; [apply connecting_new_socket|].
    repeat split; reflexivity.
Qed.

(** While socket 0 is open, [createWSConnection()] does nothing, and
    [createWSConnection(true)] tells socket 0 to close, makes socket 1 and
    arms its timeout. *)
Lemma createWSConnection_behaviour_witness :
  createWSConnection reference false connected = Normal tt connected /\
  exists w',
    createWSConnection reference true connected = Normal tt w' /\
    sockets w' !! 0%nat =
      Some {| ws_url := "wss://everdice.example/ws"; ws_readyState := CLOSING;
              ws_handlers := Some 0%nat; ws_sent := [] |} /\
    socket w' = Some 1%nat /\
    sockets w' !! 1%nat =
      Some {| ws_url := "wss://everdice.example/ws"; ws_readyState := CONNECTING;
              ws_handlers := Some 1%nat; ws_sent := [] |} /\
    timers w' = [{| timer_id := 1; timer_delay := 10000; timer_cb := CbConnectionTimeout |}].
Proof.
  split.
  - destruct (createWSConnection_behaviour reference false connected) as ([_ Hnoop] & _).
    apply Hnoop. split; [reflexivity|]. right.
    exists 0%nat, {| ws_url := "wss://everdice.example/ws"; ws_readyState := OPEN;
                     ws_handlers := Some 0%nat; ws_sent := [] |}.
    split; [reflexivity|]. split; [reflexivity|]. left. reflexivity.
  - destruct (createWSConnection_behaviour reference true connected) as (_ & Hopen & _).
    destruct Hopen as (w' & Heq & Hheld & _ & _ & Hsock & Hnew & Htimers & _).
    + intros [H _]. discriminate H.
    + reflexivity.
    + exists w'. split; [exact Heq|].
      split.
      { exact (Hheld 0%nat
                 {| ws_url := "wss://everdice.example/ws"; ws_readyState := OPEN;
                    ws_handlers := Some 0%nat; ws_sent := [] |} eq_refl eq_refl). }
      split; [exact Hsock|]. split; [exact Hnew | exact Htimers].
Defined.

(** ** What the handlers do *)

Section Handlers.

Variable P : platform.

Definition established_entry : level * list log_arg :=
  (LOG, [LStr "WebSocket connection established"]).

Definition closed_entry (code : Z) (reason : string) : level * list log_arg :=
  (LOG, [LStr "WebSocket connection closed"; LNum code; LStr reason]).

Definition timeout_warning : level * list log_arg :=
  (WARN, [LStr "WebSocket connection timeout - forcing close and reconnect"]).

Definition attempting_entry : level * list log_arg :=
  (LOG, [LStr "Attempting to reconnect WebSocket..."]).

(** The world [onopen] leaves. *)
Definition opened (connectionTimeout : nat) (w : world) : world :=
  {| socket := socket w;
     reconnectAttempts := 0;
     reconnectTimer := None;
     isReconnecting := false;
     sockets := sockets w;
     timers := without_timer (reconnectTimer w)
                 (without_timer (Some connectionTimeout) (timers w));
     next_timer := next_timer w;
     console := console w ++ [established_entry];
     dispatched := dispatched w;
     random_calls := random_calls w |}.

Lemma onopen_opened (t : nat) (w : world) : onopen t w = Normal tt (opened t w).
Proof.
  unfold onopen, opened, bind, get, console_write, clearTimeout, modify. simpl_world.
  destruct (reconnectTimer w); reflexivity.
Qed.

(** The world in which [onclose] looks at the close code. *)
Definition close_noted (connectionTimeout : nat) (code : Z) (reason : string)
    (w : world) : world :=
  set_console (console w ++ [closed_entry code reason])
    (set_timers (without_timer (Some connectionTimeout) (timers w)) w).

Lemma onclose_intentional (t : nat) (reason : string) (w : world) :
  onclose P t 1000 reason w =
  Normal tt (set_reconnectAttempts 0 (set_isReconnecting false (close_noted t 1000 reason w))).
Proof. reflexivity. Qed.

Lemma onclose_unexpected (t : nat) (code : Z) (reason : string) (w : world) :
  code <> 1000%Z ->
  onclose P t code reason w = scheduleReconnect P (close_noted t code reason w).
Proof.
  intros Hc. unfold onclose, bind, clearTimeout, console_write, modify.
  destruct (Z.eqb_spec code 1000); [contradiction|]. reflexivity.
Qed.

(** The world in which the connection-timeout callback calls
    [scheduleReconnect]. *)
Definition timed_out (sid : nat) (w : world) : world :=
  closing sid (set_console (console w ++ [timeout_warning]) w).

Lemma connectionTimeout_callback_fired (w : world) :
  connectionTimeout_callback P w =
  match socket w with
  | Some sid =>
      if readyState_eqb (readyState_of w sid) OPEN then Normal tt w
      else scheduleReconnect P (timed_out sid w)
  | None => Normal tt w
  end.
Proof.
  unfold connectionTimeout_callback, bind, get.
  destruct (socket w) as [sid|]; [|reflexivity].
  destruct (readyState_eqb (readyState_of w sid) OPEN); reflexivity.
Qed.

Lemma reconnect_callback_fired (w : world) :
  reconnect_callback P w =
  createWSConnection P true (set_console (console w ++ [attempting_entry]) w).
Proof. reflexivity. Qed.

Lemma step_open (w : world) (sid : nat) (s : WebSocket) (t : nat) :
  sockets w !! sid = Some s ->
  ws_handlers s = Some t ->
  step P (SockOpen sid) w =
  Normal tt (opened t (update_socket sid (set_ws_readyState OPEN) w)).
Proof.
  intros Hs Hh. unfold step, bind, modify, with_handlers.
  rewrite update_socket_lookup, Nat.eqb_refl, Hs. cbn [fmap option_fmap option_map].
  cbn [ws_handlers set_ws_readyState]. rewrite Hh. apply onopen_opened.
Qed.

Lemma step_close (w : world) (sid : nat) (s : WebSocket) (t : nat)
    (code : Z) (reason : string) :
  sockets w !! sid = Some s ->
  ws_handlers s = Some t ->
  step P (SockClose sid code reason) w =
  onclose P t code reason (update_socket sid (set_ws_readyState CLOSED) w).
Proof.
  intros Hs Hh. unfold step, bind, modify, with_handlers.
  rewrite update_socket_lookup, Nat.eqb_refl, Hs. cbn [fmap option_fmap option_map].
  cbn [ws_handlers set_ws_readyState]. rewrite Hh. reflexivity.
Qed.

Lemma step_unhandled (w : world) (sid : nat) (h : nat -> M unit) :
  (forall s, sockets w !! sid = Some s -> ws_handlers s = None) ->
  with_handlers sid h w = Normal tt w.
Proof.
  intros H. unfold with_handlers.
  destruct (sockets w !! sid) as [s|] eqn:Hs; [|reflexivity].
  rewrite (H s eq_refl). reflexivity.
Qed.

Lemma step_timer (w : world) (tid : nat) (t : timer) :
  List.find (timer_is tid) (timers w) = Some t ->
  step P (TimerFire tid) w =
  run_callback P (timer_cb t) (set_timers (without_timer (Some tid) (timers w)) w).
Proof. intros Hf. unfold step. rewrite Hf. reflexivity. Qed.

End Handlers.

(** ** What one event can do to the timers

    Every event first disarms some timers (the one that fired, the ones it
    clears) and then does at most one of: reset the counter on open, reset
    the counter on an intentional close, arm a connection timeout, or arm a
    reconnect timer in place of the recorded one. *)

Definition is_reconnect (t : timer) : bool :=
  match timer_cb t with
  | CbReconnect => true
  | CbConnectionTimeout => false
  end.

Definition pending_reconnects (w : world) : list timer :=
  List.filter is_reconnect (timers w).

(** The [connectionTimeout] captured by the handlers of each socket. *)
Definition handlers_of (w : world) : list (option nat) :=
  ws_handlers <$> sockets w.

(** [w0] is [w] with some timers disarmed. *)
Definition disarmed (w w0 : world) : Prop :=
  (exists f, timers w0 = List.filter f (timers w)) /\
  next_timer w0 = next_timer w /\
  reconnectTimer w0 = reconnectTimer w /\
  reconnectAttempts w0 = reconnectAttempts w /\
  handlers_of w0 = handlers_of w.

(** The two events whose handlers set [reconnectAttempts] back to 0: an
    open, and a close with code 1000. *)
Definition resets_counter (e : event) : bool :=
  match e with
  | SockOpen _ => true
  | SockClose _ code _ => Z.eqb code 1000
  | _ => false
  end.

Inductive timer_effect (e : event) (w w' : world) : Prop :=
  | effect_keep :
      timers w' = timers w ->
      next_timer w' = next_timer w ->
      reconnectTimer w' = reconnectTimer w ->
      reconnectAttempts w' = reconnectAttempts w ->
      handlers_of w' = handlers_of w ->
      timer_effect e w w'
  | effect_open :
      resets_counter e = true ->
      timers w' = without_timer (reconnectTimer w) (timers w) ->
      next_timer w' = next_timer w ->
      reconnectTimer w' = None ->
      reconnectAttempts w' = 0%nat ->
      handlers_of w' = handlers_of w ->
      timer_effect e w w'
  | effect_intentional_close :
      resets_counter e = true ->
      timers w' = timers w ->
      next_timer w' = next_timer w ->
      reconnectTimer w' = reconnectTimer w ->
      reconnectAttempts w' = 0%nat ->
      handlers_of w' = handlers_of w ->
      timer_effect e w w'
  | effect_connect (t : timer) :
      timer_cb t = CbConnectionTimeout ->
      timer_id t = next_timer w ->
      timers w' = (timers w ++ [t])%list ->
      next_timer w' = S (next_timer w) ->
      reconnectTimer w' = reconnectTimer w ->
      reconnectAttempts w' = reconnectAttempts w ->
      handlers_of w' = (handlers_of w ++ [Some (next_timer w)])%list ->
      timer_effect e w w'
  | effect_reschedule (t : timer) :
      (reconnectAttempts w < maxReconnectAttempts)%nat ->
      timer_cb t = CbReconnect ->
      timer_id t = next_timer w ->
      timers w' = (without_timer (reconnectTimer w) (timers w) ++ [t])%list ->
      next_timer w' = S (next_timer w) ->
      reconnectTimer w' = Some (next_timer w) ->
      reconnectAttempts w' = S (reconnectAttempts w) ->
      handlers_of w' = handlers_of w ->
      timer_effect e w w'.

(** One event: some timers disarmed, then one effect. *)
Definition event_effect (e : event) (w w' : world) : Prop :=
  exists w0, disarmed w w0 /\ timer_effect e w0 w'.

Lemma filter_all {A} (l : list A) : List.filter (fun _ => true) l = l.
Proof. induction l as [|x l IH]; cbn; [reflexivity | now rewrite IH]. Qed.

Lemma filter_twice {A} (f g : A -> bool) (l : list A) :
  List.filter g (List.filter f l) = List.filter (fun x => f x && g x) l.
Proof.
  induction l as [|x l IH]; cbn; [reflexivity|].
  destruct (f x); cbn; [destruct (g x)|]; now rewrite IH.
Qed.

Lemma disarmed_refl (w : world) : disarmed w w.
Proof.
  repeat split; try reflexivity. exists (fun _ => true). now rewrite filter_all.
Qed.

Lemma disarmed_trans (w1 w2 w3 : world) : disarmed w1 w2 -> disarmed w2 w3 -> disarmed w1 w3.
Proof.
  intros ([f Hf] & Hn & Hr & Ha & Hh) ([g Hg] & Hn' & Hr' & Ha' & Hh').
  repeat split; try congruence.
  exists (fun x => f x && g x). rewrite Hg, Hf. apply filter_twice.
Qed.

(** Worlds that agree on the timers, the recorded timer, the counter and
    the handlers of the sockets. *)
Definition same_timer_state (w w' : world) : Prop :=
  timers w' = timers w /\
  next_timer w' = next_timer w /\
  reconnectTimer w' = reconnectTimer w /\
  reconnectAttempts w' = reconnectAttempts w /\
  handlers_of w' = handlers_of w.

Lemma same_timer_state_disarmed (w w' : world) : same_timer_state w w' -> disarmed w w'.
Proof.
  intros (Ht & Hn & Hr & Ha & Hh). repeat split; try assumption.
  exists (fun _ => true). now rewrite filter_all.
Qed.

Lemma update_socket_handlers (sid : nat) (f : WebSocket -> WebSocket) (w : world) :
  (forall s, ws_handlers (f s) = ws_handlers s) ->
  handlers_of (update_socket sid f w) = handlers_of w.
Proof.
  intros Hf. unfold handlers_of, update_socket.
  destruct (sockets w !! sid) as [s|] eqn:Hs; [|reflexivity].
  simpl_world. rewrite list_fmap_insert, Hf.
  apply list_insert_id. rewrite list_lookup_fmap, Hs. reflexivity.
Qed.

Lemma update_socket_timer_state (sid : nat) (f : WebSocket -> WebSocket) (w : world) :
  (forall s, ws_handlers (f s) = ws_handlers s) ->
  same_timer_state w (update_socket sid f w).
Proof.
  intros Hf.
  destruct (update_socket_fields sid f w) as (_ & Ha & Hr & _ & Ht & Hn & _).
  repeat split; try assumption. now apply update_socket_handlers.
Qed.

Lemma closing_timer_state (sid : nat) (w : world) : same_timer_state w (closing sid w).
Proof.
  unfold closing.
  destruct (readyState_of w sid);
    solve [apply update_socket_timer_state; reflexivity | repeat split; reflexivity].
Qed.

Lemma closing_current_timer_state (w : world) :
  same_timer_state w (closing_current w).
Proof.
  unfold closing_current.
  destruct (socket w); [apply closing_timer_state | repeat split; reflexivity].
Qed.

Lemma event_effect_keep (e : event) (w w' : world) :
  disarmed w w' -> event_effect e w w'.
Proof. intros H. exists w'. split; [exact H | now apply effect_keep]. Qed.

Lemma event_effect_after (e : event) (w w0 w' : world) :
  disarmed w w0 -> event_effect e w0 w' -> event_effect e w w'.
Proof.
  intros H (w1 & H1 & He). exists w1. split; [|exact He].
  eapply disarmed_trans; eassumption.
Qed.

Section Effects.

Variable P : platform.

Lemma scheduleReconnect_effect (e : event) (w : world) :
  event_effect e w (world_of (scheduleReconnect P w)).
Proof.
  destruct (Nat.le_gt_cases maxReconnectAttempts (reconnectAttempts w)) as [H | H].
  - rewrite (scheduleReconnect_exhausted P w H). cbn [world_of].
    apply event_effect_keep, same_timer_state_disarmed. repeat split; reflexivity.
  - rewrite (scheduleReconnect_budget P w H). cbn [world_of].
    exists w. split; [apply disarmed_refl|].
    apply (effect_reschedule e w _ (reconnect_timer_of P w)); try reflexivity. exact H.
Qed.

Lemma createWSConnection_effect (e : event) (force : bool) (w : world) :
  event_effect e w (world_of (createWSConnection P force w)).
Proof.
  destruct (connect_skipped force w) eqn:Hs.
  - rewrite (createWSConnection_skipped P force w Hs). cbn [world_of].
    apply event_effect_keep, disarmed_refl.
  - destruct (WebSocket_accepts P (wsUrl P)) eqn:Hok.
    + rewrite (createWSConnection_accepted P force w Hs Hok). cbn [world_of].
      exists w. split; [apply disarmed_refl|].
      apply (effect_connect e w _ (connection_timer_of w)); try reflexivity.
      unfold handlers_of. cbn [connecting sockets]. rewrite fmap_app.
      destruct (closing_current_timer_state w) as (_ & _ & _ & _ & Hh).
      unfold handlers_of in Hh. rewrite Hh. reflexivity.
    + rewrite (createWSConnection_rejected P force w Hs Hok).
      eapply event_effect_after; [|apply scheduleReconnect_effect].
      apply same_timer_state_disarmed. unfold connect_failed.
      destruct (closing_current_timer_state w) as (Ht & Hn & Hr & Ha & Hh).
      repeat split; assumption.
Qed.

Lemma sendWSMessage_timer_state (type : string) (payload : jsval) (w : world) :
  same_timer_state w (world_of (sendWSMessage P type payload w)).
Proof.
  destruct (socket_is_open w) eqn:Ho.
  - rewrite (sendWSMessage_open P type payload w Ho).
    destruct (JSON_stringify P (envelope type payload)); [|repeat split; reflexivity].
    destruct (socket w); [|repeat split; reflexivity].
    cbn [world_of]. apply update_socket_timer_state. reflexivity.
  - rewrite (sendWSMessage_closed P type payload w Ho). repeat split; reflexivity.
Qed.

Lemma onmessage_timer_state (text : string) (w : world) :
  same_timer_state w (world_of (onmessage P text w)).
Proof.
  unfold onmessage, try_catch, bind.
  destruct (JSON_parse P text) as [data|]; [|repeat split; reflexivity].
  destruct data; cbn; try (repeat split; reflexivity).
  destruct (strict_eq_string _ "dice_roll"); [repeat split; reflexivity|].
  destruct (strict_eq_string _ "campaign_update"); repeat split; reflexivity.
Qed.

Lemma disarmed_without (id : option nat) (w w0 : world) :
  timers w0 = without_timer id (timers w) ->
  next_timer w0 = next_timer w ->
  reconnectTimer w0 = reconnectTimer w ->
  reconnectAttempts w0 = reconnectAttempts w ->
  handlers_of w0 = handlers_of w ->
  disarmed w w0.
Proof.
  intros Ht Hn Hr Ha Hh. repeat split; try assumption.
  destruct id as [i|]; cbn in Ht.
  - eexists. exact Ht.
  - exists (fun _ => true). now rewrite filter_all.
Qed.

Lemma timer_callback_effect (e : event) (cb : callback) (w : world) :
  event_effect e w (world_of (run_callback P cb w)).
Proof.
  destruct cb; cbn [run_callback].
  - rewrite connectionTimeout_callback_fired.
    destruct (socket w) as [sid|]; [|apply event_effect_keep, disarmed_refl].
    destruct (readyState_eqb (readyState_of w sid) OPEN);
      [apply event_effect_keep, disarmed_refl|].
    eapply event_effect_after; [|apply scheduleReconnect_effect].
    apply same_timer_state_disarmed.
    unfold timed_out.
    exact (closing_timer_state sid (set_console (console w ++ [timeout_warning]) w)).
  - rewrite reconnect_callback_fired.
    eapply event_effect_after; [|apply createWSConnection_effect].
    apply same_timer_state_disarmed. repeat split; reflexivity.
Qed.

Lemma with_handlers_cases (sid : nat) (h : nat -> M unit) (w : world) :
  with_handlers sid h w = Normal tt w \/
  exists s t, sockets w !! sid = Some s /\ ws_handlers s = Some t /\
              with_handlers sid h w = h t w.
Proof.
  unfold with_handlers.
  destruct (sockets w !! sid) as [s|]; [|left; reflexivity].
  destruct (ws_handlers s) as [t|] eqn:Hh; [|left; reflexivity].
  right. exists s, t. repeat split; solve [reflexivity | assumption].
Qed.

Lemma next_effect (e : event) (w : world) : event_effect e w (next P e w).
Proof.
  unfold next. destruct e as [force | type payload | sid | sid text | sid
                              | sid code reason | tid | ]; cbn [step].
  - apply createWSConnection_effect.
  - apply event_effect_keep, same_timer_state_disarmed, sendWSMessage_timer_state.
  - unfold bind, modify.
    set (w1 := update_socket sid (set_ws_readyState OPEN) w).
    assert (H1 : disarmed w w1).
    { apply same_timer_state_disarmed, update_socket_timer_state. reflexivity. }
    destruct (with_handlers_cases sid onopen w1) as [-> | (s & t & _ & _ & ->)].
    + apply event_effect_keep. exact H1.
    + rewrite onopen_opened. cbn [world_of].
      exists (set_timers (without_timer (Some t) (timers w1)) w1). split.
      * eapply disarmed_trans; [exact H1|].
        apply (disarmed_without (Some t)); reflexivity.
      * apply effect_open; reflexivity.
  - destruct (with_handlers_cases sid (fun _ => onmessage P text) w)
      as [-> | (s & t & _ & _ & ->)].
    + apply event_effect_keep, disarmed_refl.
    + apply event_effect_keep, same_timer_state_disarmed, onmessage_timer_state.
  - destruct (with_handlers_cases sid (fun _ => onerror) w)
      as [-> | (s & t & _ & _ & ->)].
    + apply event_effect_keep, disarmed_refl.
    + apply event_effect_keep, same_timer_state_disarmed. repeat split; reflexivity.
  - unfold bind, modify.
    set (w1 := update_socket sid (set_ws_readyState CLOSED) w).
    assert (H1 : disarmed w w1).
    { apply same_timer_state_disarmed, update_socket_timer_state. reflexivity. }
    destruct (with_handlers_cases sid (fun t => onclose P t code reason) w1)
      as [-> | (s & t & _ & _ & ->)].
    + apply event_effect_keep. exact H1.
    + assert (H2 : disarmed w (close_noted t code reason w1)).
      { eapply disarmed_trans; [exact H1|].
        apply (disarmed_without (Some t)); reflexivity. }
      destruct (Z.eq_dec code 1000%Z) as [-> | Hc].
      * rewrite onclose_intentional. cbn [world_of].
        exists (close_noted t 1000%Z reason w1). split; [exact H2|].
        apply effect_intentional_close; reflexivity.
      * rewrite (onclose_unexpected P t code reason w1 Hc).
        eapply event_effect_after; [exact H2 | apply scheduleReconnect_effect].
  - destruct (List.find (timer_is tid) (timers w)) as [t|];
      [|apply event_effect_keep, disarmed_refl].
    eapply event_effect_after; [|apply timer_callback_effect].
    apply (disarmed_without (Some tid)); reflexivity.
  - unfold beforeunload, bind, get.
    destruct (socket w) as [sid|]; [|apply event_effect_keep, disarmed_refl].
    rewrite ws_close_closing. cbn [world_of].
    apply event_effect_keep, same_timer_state_disarmed, closing_timer_state.
Qed.

End Effects.

(** ** Pending reconnect timers *)

(** Every armed reconnect timer is the one recorded in [reconnectTimer], and
    there is at most one. *)
Definition reconnect_tracked (w : world) : Prop :=
  forall t, t ∈ timers w -> timer_cb t = CbReconnect ->
            reconnectTimer w = Some (timer_id t).

Definition one_reconnect_timer (w : world) : Prop :=
  reconnect_tracked w /\ (length (pending_reconnects w) <= 1)%nat.

Lemma elem_of_filter_bool {A} (f : A -> bool) (l : list A) (x : A) :
  x ∈ List.filter f l <-> f x = true /\ x ∈ l.
Proof. rewrite !list_elem_of_In, filter_In. tauto. Qed.

Lemma filter_swap {A} (f g : A -> bool) (l : list A) :
  List.filter g (List.filter f l) = List.filter f (List.filter g l).
Proof.
  rewrite !filter_twice. apply filter_ext. intros x. apply andb_comm.
Qed.

Lemma filter_none {A} (f : A -> bool) (l : list A) :
  (forall x, x ∈ l -> f x = false) -> List.filter f l = [].
Proof.
  induction l as [|x l IH]; intros H; cbn; [reflexivity|].
  rewrite (H x) by apply list_elem_of_here.
  apply IH. intros y Hy. apply H. now apply list_elem_of_further.
Qed.

Lemma is_reconnect_true (t : timer) : is_reconnect t = true <-> timer_cb t = CbReconnect.
Proof. unfold is_reconnect. destruct (timer_cb t); split; congruence. Qed.

Lemma elem_of_without_timer (rt : option nat) (ts : list timer) (t : timer) :
  t ∈ without_timer rt ts -> t ∈ ts /\ rt <> Some (timer_id t).
Proof.
  destruct rt as [id|]; cbn; [|intros H; split; [exact H | discriminate]].
  rewrite elem_of_filter_bool. intros [Hid Ht]. split; [exact Ht|].
  intros [= ->]. unfold timer_is in Hid. rewrite Nat.eqb_refl in Hid. discriminate.
Qed.

(** Once the recorded timer is cleared no reconnect timer is left. *)
Lemma without_recorded_no_reconnect (w : world) :
  reconnect_tracked w ->
  List.filter is_reconnect (without_timer (reconnectTimer w) (timers w)) = [].
Proof.
  intros Htr. apply filter_none. intros t Ht.
  apply elem_of_without_timer in Ht as [Hin Hne].
  destruct (is_reconnect t) eqn:E; [|reflexivity].
  apply is_reconnect_true in E. apply (Htr t Hin) in E. contradiction.
Qed.

Lemma one_reconnect_timer_disarmed (w w0 : world) :
  disarmed w w0 -> one_reconnect_timer w -> one_reconnect_timer w0.
Proof.
  intros ([f Hf] & _ & Hr & _) [Htr Hlen]. split.
  - intros t Ht Hcb. rewrite Hf in Ht. apply elem_of_filter_bool in Ht as [_ Ht].
    rewrite Hr. now apply Htr.
  - unfold pending_reconnects in *. rewrite Hf, filter_swap.
    etransitivity; [apply filter_length_le | exact Hlen].
Qed.

Lemma one_reconnect_timer_effect (e : event) (w w' : world) :
  timer_effect e w w' -> one_reconnect_timer w -> one_reconnect_timer w'.
Proof.
  intros He [Htr Hlen].
  destruct He as [Ht Hn Hr Ha _ | _ Ht Hn Hr Ha _ | _ Ht Hn Hr Ha _
                  | t Hcb Hid Ht Hn Hr Ha _ | t Hlt Hcb Hid Ht Hn Hr Ha _];
    unfold one_reconnect_timer, reconnect_tracked, pending_reconnects;
    rewrite Ht, Hr.
  - split; assumption.
  - rewrite (without_recorded_no_reconnect w Htr). split; [|cbn; lia].
    intros t Hin Hcb. exfalso.
    assert (H : t ∈ List.filter is_reconnect
                     (without_timer (reconnectTimer w) (timers w))).
    { apply elem_of_filter_bool. split; [now apply is_reconnect_true | exact Hin]. }
    rewrite (without_recorded_no_reconnect w Htr) in H. inversion H.
  - split; assumption.
  - split.
    + intros x Hin Hx. apply elem_of_app in Hin as [Hin | Hin]; [now apply Htr|].
      apply list_elem_of_singleton in Hin. subst x. congruence.
    + rewrite List.filter_app. cbn. unfold is_reconnect at 2. rewrite Hcb.
      rewrite length_app. cbn. unfold pending_reconnects in Hlen. lia.
  - split.
    + intros x Hin Hx. apply elem_of_app in Hin as [Hin | Hin].
      * exfalso.
        assert (H : x ∈ List.filter is_reconnect
                         (without_timer (reconnectTimer w) (timers w))).
        { apply elem_of_filter_bool. split; [now apply is_reconnect_true | exact Hin]. }
        rewrite (without_recorded_no_reconnect w Htr) in H. inversion H.
      * apply list_elem_of_singleton in Hin. subst x. now rewrite Hid.
    + rewrite List.filter_app, (without_recorded_no_reconnect w Htr). cbn.
      destruct (is_reconnect t); cbn; lia.
Qed.

Lemma one_reconnect_timer_next (P : platform) (e : event) (w : world) :
  one_reconnect_timer w -> one_reconnect_timer (next P e w).
Proof.
  intros H. destruct (next_effect P e w) as (w0 & Hd & He).
  eapply one_reconnect_timer_effect; [exact He|].
  eapply one_reconnect_timer_disarmed; eassumption.
Qed.

(** C8, as the code has it.  In every world the module can reach, at most
    one reconnect timer is armed, and it is the one recorded in
    [reconnectTimer]: [scheduleReconnect] clears the recorded timer before it
    arms the next.  (Connection timeouts are armed without clearing
    anything and are not counted here.) *)
Theorem at_most_one_reconnect_timer (P : platform) (w : world) :
  reachable P w ->
  (length (pending_reconnects w) <= 1)%nat /\
  (forall t, t ∈ timers w -> timer_cb t = CbReconnect ->
             reconnectTimer w = Some (timer_id t)).
Proof.
  intros Hreach.
  assert (H : one_reconnect_timer w).
  { induction Hreach as [|w e _ IH _].
    - split; [intros t Ht; inversion Ht | cbn; lia].
    - apply one_reconnect_timer_next. exact IH. }
  destruct H as [Htr Hlen]. split; assumption.
Qed.

(** After a failed first connection one reconnect timer is armed. *)
Lemma at_most_one_reconnect_timer_witness :
  let w := next reference (SockClose 0 1006 EmptyString)
             (next reference (CallConnect false) initial) in
  reachable reference w /\
  (length (pending_reconnects w) <= 1)%nat /\
  (forall t, t ∈ timers w -> timer_cb t = CbReconnect ->
             reconnectTimer w = Some (timer_id t)).
Proof.
  intros w.
  assert (Hreach : reachable reference w).
  { apply reachable_next; [apply reachable_next; [apply reachable_initial|] |];
      reflexivity. }
  split; [exact Hreach|].
  apply (at_most_one_reconnect_timer reference w Hreach).
Defined.

(** C8 fails for connection timeouts.  A connection drops and a reconnect
    timer is armed; a call of [createWSConnection()] before it fires arms a
    connection timeout beside it.  And a forced connect while the first
    socket is still connecting arms a second connection timeout and leaves
    the first one armed. *)
Lemma two_timers_pending :
  run reference [CallConnect false; SockOpen 0; SockClose 0 1006 EmptyString;
                 CallConnect false] initial =
  Some (play reference [CallConnect false; SockOpen 0; SockClose 0 1006 EmptyString;
                        CallConnect false] initial) /\
  timers (play reference [CallConnect false; SockOpen 0; SockClose 0 1006 EmptyString;
                          CallConnect false] initial) =
  [ {| timer_id := 1; timer_delay := 3000 # 2; timer_cb := CbReconnect |};
    {| timer_id := 2; timer_delay := 10000; timer_cb := CbConnectionTimeout |} ] /\
  run reference [CallConnect false; CallConnect true] initial =
  Some (play reference [CallConnect false; CallConnect true] initial) /\
  timers (play reference [CallConnect false; CallConnect true] initial) =
  [ {| timer_id := 0; timer_delay := 10000; timer_cb := CbConnectionTimeout |};
    {| timer_id := 1; timer_delay := 10000; timer_cb := CbConnectionTimeout |} ].
Proof. evaluate. Qed.

(** ** Timer identifiers

    Identifiers come from one counter and are never used twice: every armed
    timer and every [connectionTimeout] captured by a socket is below
    [next_timer], and an armed timer that carries the identifier captured by
    a socket is a connection timeout. *)
Definition fresh_ids (w : world) : Prop :=
  (forall r, r ∈ timers w -> (timer_id r < next_timer w)%nat) /\
  (forall h, Some h ∈ handlers_of w ->
     (h < next_timer w)%nat /\
     forall r, r ∈ timers w -> timer_id r = h -> timer_cb r = CbConnectionTimeout).

Lemma handler_captured (w : world) (i : nat) (s : WebSocket) (h : nat) :
  sockets w !! i = Some s -> ws_handlers s = Some h -> Some h ∈ handlers_of w.
Proof.
  intros Hs Hh. apply list_elem_of_lookup. exists i.
  unfold handlers_of. rewrite list_lookup_fmap, Hs. cbn. now rewrite Hh.
Qed.

Lemma fresh_ids_disarmed (w w0 : world) : disarmed w w0 -> fresh_ids w -> fresh_ids w0.
Proof.
  intros ([f Hf] & Hn & _ & _ & Hh) [Ht Hs].
  assert (Hsub : forall r, r ∈ timers w0 -> r ∈ timers w).
  { intros r Hr. rewrite Hf in Hr. now apply elem_of_filter_bool in Hr as [_ Hr]. }
  split.
  - intros r Hr. rewrite Hn. auto.
  - intros h Hin. rewrite Hh in Hin. destruct (Hs h Hin) as [Hlt Hcb].
    split; [now rewrite Hn|]. intros r Hr. apply Hcb. auto.
Qed.

Lemma fresh_ids_effect (e : event) (w w' : world) :
  timer_effect e w w' -> fresh_ids w -> fresh_ids w'.
Proof.
  intros He [Ht Hs].
  destruct He as [Htm Hn _ _ Hh | _ Htm Hn _ _ Hh | _ Htm Hn _ _ Hh
                  | t Hcb Hid Htm Hn _ _ Hh | t _ Hcb Hid Htm Hn _ _ Hh];
    unfold fresh_ids; rewrite Htm, Hn, Hh.
  - split; assumption.
  - split.
    + intros r Hr. apply elem_of_without_timer in Hr as [Hr _]. auto.
    + intros h Hin. destruct (Hs h Hin) as [Hlt Hc]. split; [exact Hlt|].
      intros r Hr. apply elem_of_without_timer in Hr as [Hr _]. auto.
  - split; assumption.
  - split.
    + intros r Hr. apply elem_of_app in Hr as [Hr | Hr].
      * specialize (Ht r Hr). lia.
      * apply list_elem_of_singleton in Hr. subst r. lia.
    + intros h Hin. apply elem_of_app in Hin as [Hin | Hin].
      * destruct (Hs h Hin) as [Hlt Hc]. split; [lia|].
        intros r Hr Hrid. apply elem_of_app in Hr as [Hr | Hr]; [auto|].
        apply list_elem_of_singleton in Hr. now subst r.
      * apply list_elem_of_singleton in Hin. injection Hin as ->.
        split; [lia|].
        intros r Hr Hrid. apply elem_of_app in Hr as [Hr | Hr].
        -- specialize (Ht r Hr). lia.
        -- apply list_elem_of_singleton in Hr. now subst r.
  - split.
    + intros r Hr. apply elem_of_app in Hr as [Hr | Hr].
      * apply elem_of_without_timer in Hr as [Hr _]. specialize (Ht r Hr). lia.
      * apply list_elem_of_singleton in Hr. subst r. lia.
    + intros h Hin. destruct (Hs h Hin) as [Hlt Hc]. split; [lia|].
      intros r Hr Hrid. apply elem_of_app in Hr as [Hr | Hr].
      * apply elem_of_without_timer in Hr as [Hr _]. auto.
      * apply list_elem_of_singleton in Hr. subst r. lia.
Qed.

Lemma reachable_fresh_ids (P : platform) (w : world) : reachable P w -> fresh_ids w.
Proof.
  induction 1 as [|w e _ IH _].
  - split; intros x Hx; inversion Hx.
  - destruct (next_effect P e w) as (w0 & Hd & He).
    eapply fresh_ids_effect; [exact He|].
    eapply fresh_ids_disarmed; eassumption.
Qed.

(** ** Some runs *)

(** [k] failed attempts in a row, from socket [sid] on: the socket closes
    with code 1006 and the reconnect timer its close handler arms (timer
    [2 * sid + 1] in these runs) fires. *)
Fixpoint failed_attempts (k sid : nat) : list event :=
  match k with
  | O => []
  | S k' =>
      SockClose sid 1006 EmptyString :: TimerFire (2 * sid + 1)
        :: failed_attempts k' (S sid)
  end.

(** A run that uses up the budget: the first connection and each of the ten
    reconnections fail. *)
Definition ten_failures : list event :=
  CallConnect false :: (failed_attempts 10 0 ++ [SockClose 10 1006 EmptyString])%list.

(** Nine failed attempts bring the counter to 9 with socket 9 connecting;
    then the connection timeout of socket 9 fires and its close follows. *)
Definition nine_failures : list event :=
  CallConnect false :: failed_attempts 9 0.

Definition timeout_at_nine : list event :=
  (nine_failures ++ [TimerFire 18; SockClose 9 1006 EmptyString])%list.

(** A forced connect replaces a socket that is still connecting; the new
    socket opens before the close event of the old one arrives, so that close
    arms a reconnect timer beside an open socket; then the server closes the
    open socket with code 1000. *)
Definition late_close : list event :=
  [ CallConnect false; CallConnect true; SockOpen 1;
    SockClose 0 1006 EmptyString; SockClose 1 1000 EmptyString ].

(** ** The exhausted budget *)

(** [k] calls of [scheduleReconnect] in a row. *)
Fixpoint scheduleReconnect_times (P : platform) (k : nat) (w : world) : world :=
  match k with
  | O => w
  | S k' => world_of (scheduleReconnect P (scheduleReconnect_times P k' w))
  end.

Lemma gave_up_fields (w : world) :
  timers (gave_up w) = timers w /\
  next_timer (gave_up w) = next_timer w /\
  sockets (gave_up w) = sockets w /\
  socket (gave_up w) = socket w /\
  reconnectAttempts (gave_up w) = reconnectAttempts w /\
  reconnectTimer (gave_up w) = reconnectTimer w /\
  isReconnecting (gave_up w) = false.
Proof. repeat split; reflexivity. Qed.

Lemma no_reconnect_armed_when_exhausted (P : platform) (e : event) (w : world) :
  (maxReconnectAttempts <= reconnectAttempts w)%nat ->
  (forall t, t ∈ timers (next P e w) -> timer_cb t = CbReconnect -> t ∈ timers w) /\
  (resets_counter e = false -> reconnectAttempts (next P e w) = reconnectAttempts w).
Proof.
  intros Hmax. destruct (next_effect P e w) as (w0 & ([f Hf] & _ & _ & Ha0 & _) & He).
  assert (Hsub : forall t, t ∈ timers w0 -> t ∈ timers w).
  { intros t Ht. rewrite Hf in Ht. now apply elem_of_filter_bool in Ht as [_ Ht]. }
  destruct He as [Ht Hn Hr Ha _ | Hre Ht Hn Hr Ha _ | Hre Ht Hn Hr Ha _
                  | c Hcb Hid Ht Hn Hr Ha _ | c Hlt Hcb Hid Ht Hn Hr Ha _].
  - split; [|congruence]. intros t Hin _. rewrite Ht in Hin. auto.
  - split; [|congruence]. intros t Hin _. rewrite Ht in Hin.
    apply elem_of_without_timer in Hin as [Hin _]. auto.
  - split; [|congruence]. intros t Hin _. rewrite Ht in Hin. auto.
  - split; [|congruence]. intros t Hin Ht'. rewrite Ht in Hin.
    apply elem_of_app in Hin as [Hin | Hin]; [auto|].
    apply list_elem_of_singleton in Hin. subst t. congruence.
  - lia.
Qed.

Lemma run_exhausted (P : platform) (es : list event) (w w' : world) :
  (maxReconnectAttempts <= reconnectAttempts w)%nat ->
  forallb (fun e => negb (resets_counter e)) es = true ->
  run P es w = Some w' ->
  reconnectAttempts w' = reconnectAttempts w /\
  (forall t, t ∈ timers w' -> timer_cb t = CbReconnect -> t ∈ timers w).
Proof.
  revert w. induction es as [|e es IH]; intros w Hmax Hes Hrun; cbn in Hrun.
  - injection Hrun as <-. split; [reflexivity | auto].
  - destruct (enabled e w); [|discriminate].
    cbn in Hes. apply andb_true_iff in Hes as [He Hes].
    apply negb_true_iff in He.
    destruct (no_reconnect_armed_when_exhausted P e w Hmax) as [Htm Hcnt].
    specialize (Hcnt He).
    destruct (IH (next P e w) ltac:(lia) Hes Hrun) as [Ha Ht].
    split; [congruence|].
    intros t Hin Hcb. apply Htm; [|exact Hcb]. now apply Ht.
Qed.

(** ** Idle until the next connect *)

(** No timer is armed and every socket is closed. *)
Definition quiescent (w : world) : Prop :=
  timers w = [] /\
  forall i s, sockets w !! i = Some s -> ws_readyState s = CLOSED.

Definition is_connect (e : event) : bool :=
  match e with
  | CallConnect _ => true
  | _ => false
  end.

Lemma quiescent_readyState (w : world) (sid : nat) :
  quiescent w -> readyState_of w sid = CLOSED.
Proof.
  intros [_ Hc]. unfold readyState_of.
  destruct (sockets w !! sid) as [s|] eqn:Hs; [now apply (Hc sid) | reflexivity].
Qed.

Lemma quiescent_not_open (w : world) :
  quiescent w -> is_open_or_connecting w = false /\ socket_is_open w = false.
Proof.
  intros Hq. unfold is_open_or_connecting, socket_is_open.
  destruct (socket w) as [sid|]; [|split; reflexivity].
  rewrite (quiescent_readyState w sid Hq). split; reflexivity.
Qed.

Lemma quiescent_next (P : platform) (e : event) (w : world) :
  quiescent w ->
  is_connect e = false ->
  enabled e w = true ->
  quiescent (next P e w) /\
  sockets (next P e w) = sockets w /\
  socket (next P e w) = socket w /\
  reconnectAttempts (next P e w) = reconnectAttempts w /\
  isReconnecting (next P e w) = isReconnecting w.
Proof.
  intros Hq Hc He. pose proof Hq as [Ht Hs].
  destruct e as [force | type payload | sid | sid text | sid
                 | sid code reason | tid | ]; cbn in Hc, He; try discriminate.
  - unfold next. cbn [step].
    rewrite (sendWSMessage_closed P type payload w (proj2 (quiescent_not_open w Hq))).
    cbn [world_of]. repeat split; solve [reflexivity | assumption].
  - destruct (sockets w !! sid) as [s|] eqn:E; [|discriminate].
    rewrite (Hs sid s E) in He. discriminate.
  - destruct (sockets w !! sid) as [s|] eqn:E; [|discriminate].
    rewrite (Hs sid s E) in He. discriminate.
  - destruct (sockets w !! sid) as [s|] eqn:E; [|discriminate].
    rewrite (Hs sid s E) in He. discriminate.
  - destruct (sockets w !! sid) as [s|] eqn:E; [|discriminate].
    rewrite (Hs sid s E) in He. discriminate.
  - unfold timer_pending in He. rewrite Ht in He. discriminate.
  - unfold next. cbn [step]. unfold beforeunload, bind, get.
    destruct (socket w) as [sid|] eqn:Hsock.
    + rewrite ws_close_closing. unfold closing.
      rewrite (quiescent_readyState w sid Hq). cbn [world_of].
      repeat split; solve [reflexivity | assumption].
    + cbn. repeat split; solve [reflexivity | assumption].
Qed.

Lemma quiescent_run (P : platform) (es : list event) (w w' : world) :
  quiescent w ->
  forallb (fun e => negb (is_connect e)) es = true ->
  run P es w = Some w' ->
  quiescent w' /\
  sockets w' = sockets w /\
  socket w' = socket w /\
  reconnectAttempts w' = reconnectAttempts w /\
  isReconnecting w' = isReconnecting w.
Proof.
  revert w. induction es as [|e es IH]; intros w Hq Hes Hrun; cbn in Hrun.
  - injection Hrun as <-. repeat split; solve [reflexivity | apply Hq].
  - destruct (enabled e w) eqn:He; [|discriminate].
    cbn in Hes. apply andb_true_iff in Hes as [Hc Hes]. apply negb_true_iff in Hc.
    destruct (quiescent_next P e w Hq Hc He) as (Hq' & H1 & H2 & H3 & H4).
    destruct (IH (next P e w) Hq' Hes Hrun) as (Hq'' & H1' & H2' & H3' & H4').
    repeat split; solve [apply Hq'' | congruence].
Qed.

Lemma gave_up_quiescent (w : world) : quiescent w -> quiescent (gave_up w).
Proof. intros H. exact H. Qed.

(** The reconnect timer's callback of lines 131-134 on a platform whose
    constructor accepts the URL: the connect is forced. *)
Lemma reconnect_fired (P : platform) (w : world) (tid : nat) (t : timer) :
  List.find (timer_is tid) (timers w) = Some t ->
  timer_cb t = CbReconnect ->
  WebSocket_accepts P (wsUrl P) = true ->
  step P (TimerFire tid) w =
  Normal tt (connecting P (set_console (console w ++ [attempting_entry])
                             (set_timers (without_timer (Some tid) (timers w)) w))).
Proof.
  intros Hfind Hcb Hok.
  rewrite (step_timer P w tid t Hfind), Hcb. cbn [run_callback].
  rewrite reconnect_callback_fired. apply createWSConnection_accepted; [|exact Hok].
  unfold connect_skipped. cbn [negb]. now rewrite !andb_false_r.
Qed.

(** C2, as the code has it.  When [scheduleReconnect] is called with
    [reconnectAttempts] at 10 or more it returns without arming a timer: the
    armed timers, the sockets and the counter are as before, however many
    times it is called.  No event arms a reconnect timer in such a world, and
    along any run of events in which no socket opens or closes with code
    1000 the counter stays where it is and no reconnect timer is armed.  The
    call cancels nothing: a reconnect timer that was armed before it is still
    armed after it, and when that timer fires a new socket is made with no
    call from outside.  Only when the call that gives up finds no timer armed
    and every socket closed do the timers and the sockets stay as they are
    until [createWSConnection] is called from outside. *)
Theorem scheduleReconnect_after_max (P : platform) (w : world) :
  (maxReconnectAttempts <= reconnectAttempts w)%nat ->
  scheduleReconnect P w = Normal tt (gave_up w) /\
  (forall k,
      let w' := scheduleReconnect_times P k w in
      timers w' = timers w /\
      next_timer w' = next_timer w /\
      sockets w' = sockets w /\
      socket w' = socket w /\
      reconnectAttempts w' = reconnectAttempts w /\
      reconnectTimer w' = reconnectTimer w) /\
  (forall e t,
      t ∈ timers (next P e w) -> timer_cb t = CbReconnect -> t ∈ timers w) /\
  (forall es w',
      forallb (fun e => negb (resets_counter e)) es = true ->
      run P es w = Some w' ->
      reconnectAttempts w' = reconnectAttempts w /\
      (forall t, t ∈ timers w' -> timer_cb t = CbReconnect -> t ∈ timers w)) /\
  (forall tid t,
      List.find (timer_is tid) (timers w) = Some t ->
      timer_cb t = CbReconnect ->
      WebSocket_accepts P (wsUrl P) = true ->
      let w' := next P (TimerFire tid) (gave_up w) in
      enabled (TimerFire tid) (gave_up w) = true /\
      socket w' = Some (length (sockets w)) /\
      sockets w' !! length (sockets w) =
        Some {| ws_url := wsUrl P; ws_readyState := CONNECTING;
                ws_handlers := Some (next_timer w); ws_sent := [] |} /\
      reconnectAttempts w' = reconnectAttempts w) /\
  (quiescent w ->
   forall es w',
      forallb (fun e => negb (is_connect e)) es = true ->
      run P es (gave_up w) = Some w' ->
      timers w' = [] /\
      sockets w' = sockets w /\
      reconnectAttempts w' = reconnectAttempts w).
Proof.
  intros Hmax.
  split; [apply scheduleReconnect_exhausted; exact Hmax|].
  split.
  { induction k as [|k IH]; cbn zeta in *.
    - repeat split; reflexivity.
    - destruct IH as (Ht & Hn & Hs & Hso & Ha & Hr).
      cbn [scheduleReconnect_times].
      set (wk := scheduleReconnect_times P k w) in *.
      rewrite (scheduleReconnect_exhausted P wk) by (rewrite Ha; exact Hmax).
      cbn [world_of].
      destruct (gave_up_fields wk) as (Ht' & Hn' & Hs' & Hso' & Ha' & Hr' & _).
      repeat split; congruence. }
  split.
  { intros e. apply (no_reconnect_armed_when_exhausted P e w Hmax). }
  split.
  { intros es w' Hes Hrun. eapply run_exhausted; eassumption. }
  split.
  { intros tid t Hfind Hcb Hok w'.
    assert (Hfind' : List.find (timer_is tid) (timers (gave_up w)) = Some t) by exact Hfind.
    split.
    { apply find_some in Hfind as [Hin Hid].
      apply existsb_exists. exists t. split; assumption. }
    subst w'. unfold next.
    rewrite (reconnect_fired P (gave_up w) tid t Hfind' Hcb Hok). cbn [world_of].
    match goal with |- context [connecting P ?x] => set (w0 := x) end.
    split; [reflexivity|].
    split; [exact (connecting_new_socket P w0) | reflexivity]. }
  intros Hq es w' Hes Hrun.
  destruct (quiescent_run P es (gave_up w) w' (gave_up_quiescent w Hq) Hes Hrun)
    as ([Ht' _] & H1 & _ & H3 & _).
  split; [exact Ht'|]. split; [exact H1 | exact H3].
Qed.

Definition exhausted : world := play reference ten_failures initial.

Lemma exhausted_run : run reference ten_failures initial = Some exhausted.
Proof. vm_compute. reflexivity. Qed.

Lemma exhausted_quiescent : quiescent exhausted.
Proof.
  split; [vm_compute; reflexivity|].
  intros i s H. vm_compute in H.
  do 11 (destruct i as [|i]; [injection H as <-; reflexivity|]).
  discriminate H.
Qed.

(** After ten failed reconnections a further call gives up, and a dropped
    message and the page's unload leave the module idle with the counter at
    10.  After [timeout_at_nine] the call gives up as well, but timer 19 is
    still armed, and its firing makes socket 10. *)
Lemma scheduleReconnect_after_max_witness :
  scheduleReconnect reference exhausted = Normal tt (gave_up exhausted) /\
  (let w' := play reference [CallSend "roll" (JNum 1); BeforeUnload] (gave_up exhausted) in
   timers w' = [] /\ reconnectAttempts w' = 10%nat) /\
  (let w := play reference timeout_at_nine initial in
   scheduleReconnect reference w = Normal tt (gave_up w) /\
   socket (next reference (TimerFire 19) (gave_up w)) = Some 10%nat).
Proof.
  assert (H : (maxReconnectAttempts <= reconnectAttempts exhausted)%nat).
  { vm_compute. apply le_n. }
  assert (H9 : (maxReconnectAttempts
                <= reconnectAttempts (play reference timeout_at_nine initial))%nat).
  { vm_compute. apply le_n. }
  destruct (scheduleReconnect_after_max reference exhausted H)
    as (Heq & _ & _ & _ & _ & Hidle).
  destruct (scheduleReconnect_after_max reference
              (play reference timeout_at_nine initial) H9)
    as (Heq9 & _ & _ & _ & Hfire & _).
  split; [exact Heq|]. split.
  - destruct (Hidle exhausted_quiescent [CallSend "roll" (JNum 1); BeforeUnload]
                (play reference [CallSend "roll" (JNum 1); BeforeUnload] (gave_up exhausted))
                eq_refl ltac:(vm_compute; reflexivity)) as (Ht & _ & Ha).
    split; [exact Ht | exact Ha].
  - split; [exact Heq9|].
    destruct (Hfire 19%nat
                {| timer_id := 19; timer_delay := 30000; timer_cb := CbReconnect |}
                ltac:(vm_compute; reflexivity) eq_refl eq_refl) as (_ & Hso & _).
    exact Hso.
Defined.

(** C2 fails when the call that gives up leaves a reconnect timer armed.
    After [timeout_at_nine] the counter is 10, the last thing logged is the
    give-up message, and timer 19 is armed.  With no call of
    [createWSConnection] from outside, timer 19 fires and makes socket 10;
    socket 10 opens, which sets the counter to 0; and when socket 10 closes
    with code 1006, [scheduleReconnect] arms reconnect timer 21 and the
    counter is 1. *)
Lemma reconnect_after_giving_up :
  let w := play reference timeout_at_nine initial in
  let es := [TimerFire 19; SockOpen 10; SockClose 10 1006 EmptyString] in
  run reference timeout_at_nine initial = Some w /\
  reconnectAttempts w = 10%nat /\
  last (console w) = Some give_up_message /\
  pending_reconnects w =
    [{| timer_id := 19; timer_delay := 30000; timer_cb := CbReconnect |}] /\
  forallb (fun e => negb (is_connect e)) es = true /\
  run reference es w = Some (play reference es w) /\
  length (sockets w) = 10%nat /\
  length (sockets (play reference es w)) = 11%nat /\
  reconnectAttempts (play reference es w) = 1%nat /\
  reconnectTimer (play reference es w) = Some 21%nat /\
  timers (play reference es w) =
    [{| timer_id := 21; timer_delay := 3000 # 2; timer_cb := CbReconnect |}].
Proof. cbv zeta. evaluate. Qed.

(** C9, as the code has it.  When [scheduleReconnect] is called with the
    budget used up it arms no timer, opens no socket and clears
    [isReconnecting].  If by then no timer is armed and every socket is
    closed, nothing happens to the sockets, the timers, the counter or
    [isReconnecting] until [createWSConnection] is called.  That call opens
    a new socket and arms its connection timeout whether [force] is true or
    false, on a platform whose constructor accepts the URL. *)
Theorem idle_until_connect (P : platform) (w : world) :
  (maxReconnectAttempts <= reconnectAttempts w)%nat ->
  quiescent w ->
  let w1 := world_of (scheduleReconnect P w) in
  scheduleReconnect P w = Normal tt w1 /\
  timers w1 = timers w /\
  next_timer w1 = next_timer w /\
  sockets w1 = sockets w /\
  isReconnecting w1 = false /\
  (forall es w',
      forallb (fun e => negb (is_connect e)) es = true ->
      run P es w1 = Some w' ->
      timers w' = [] /\
      sockets w' = sockets w /\
      reconnectAttempts w' = reconnectAttempts w /\
      isReconnecting w' = false) /\
  (forall force,
      WebSocket_accepts P (wsUrl P) = true ->
      exists w',
        createWSConnection P force w1 = Normal tt w' /\
        socket w' = Some (length (sockets w)) /\
        sockets w' !! length (sockets w) =
          Some {| ws_url := wsUrl P; ws_readyState := CONNECTING;
                  ws_handlers := Some (next_timer w); ws_sent := [] |} /\
        timers w' = [{| timer_id := next_timer w; timer_delay := 10000;
                        timer_cb := CbConnectionTimeout |}]).
Proof.
  intros Hmax Hq w1. subst w1.
  rewrite (scheduleReconnect_exhausted P w Hmax). cbn [world_of].
  pose proof (gave_up_quiescent w Hq) as Hq1.
  destruct (gave_up_fields w) as (Ht & Hn & Hs & Hso & Ha & Hr & Hi).
  destruct Hq as [Htim Hclosed].
  split; [reflexivity|].
  split; [exact Ht|].
  split; [exact Hn|]. split; [exact Hs|]. split; [exact Hi|].
  split.
  { intros es w' Hes Hrun.
    destruct (quiescent_run P es (gave_up w) w' Hq1 Hes Hrun)
      as ([Ht' _] & H1 & H2 & H3 & H4).
    repeat split; congruence. }
  intros force Hok.
  assert (Hskip : connect_skipped force (gave_up w) = false).
  { unfold connect_skipped. rewrite Hi, (proj1 (quiescent_not_open _ Hq1)).
    reflexivity. }
  exists (connecting P (gave_up w)).
  split; [apply createWSConnection_accepted; assumption|].
  split; [reflexivity|].
  split; [apply (connecting_new_socket P (gave_up w))|].
  cbn [connecting timers]. rewrite Ht, Htim. reflexivity.
Qed.

Lemma idle_until_connect_witness :
  exists w',
    createWSConnection reference false
      (world_of (scheduleReconnect reference exhausted)) = Normal tt w' /\
    socket w' = Some 11%nat /\
    timers w' = [{| timer_id := 21; timer_delay := 10000;
                    timer_cb := CbConnectionTimeout |}].
Proof.
  assert (Hmax : (maxReconnectAttempts <= reconnectAttempts exhausted)%nat).
  { vm_compute. apply le_n. }
  destruct (idle_until_connect reference exhausted Hmax exhausted_quiescent)
    as (_ & _ & _ & _ & _ & _ & Hconnect).
  destruct (Hconnect false eq_refl) as (w' & Heq & Hsock & _ & Htimers).
  exists w'. split; [exact Heq|]. split; [exact Hsock | exact Htimers].
Defined.

(** C9 fails for an unforced connect: after ten failed reconnections the
    budget is used up, no timer is armed and every socket is closed, and
    [createWSConnection(false)] opens socket 11 and arms its timeout.  It
    also fails when the call that gives up leaves a timer armed: after
    [timeout_at_nine] the counter is 10 and [isReconnecting] is false, yet
    the reconnect timer 19 is armed, and when it fires socket 10 is opened
    with no call of [createWSConnection] from outside. *)
Lemma unforced_connect_after_exhaustion :
  run reference ten_failures initial = Some exhausted /\
  reconnectAttempts exhausted = 10%nat /\
  timers exhausted = [] /\
  isReconnecting exhausted = false /\
  readyState_of exhausted 10 = CLOSED /\
  createWSConnection reference false exhausted <> Normal tt exhausted /\
  socket (next reference (CallConnect false) exhausted) = Some 11%nat /\
  readyState_of (next reference (CallConnect false) exhausted) 11 = CONNECTING /\
  timers (next reference (CallConnect false) exhausted) =
    [{| timer_id := 21; timer_delay := 10000; timer_cb := CbConnectionTimeout |}] /\
  run reference timeout_at_nine initial = Some (play reference timeout_at_nine initial) /\
  reconnectAttempts (play reference timeout_at_nine initial) = 10%nat /\
  isReconnecting (play reference timeout_at_nine initial) = false /\
  length (sockets (play reference timeout_at_nine initial)) = 10%nat /\
  enabled (TimerFire 19) (play reference timeout_at_nine initial) = true /\
  socket (next reference (TimerFire 19) (play reference timeout_at_nine initial))
    = Some 10%nat /\
  readyState_of (next reference (TimerFire 19) (play reference timeout_at_nine initial)) 10
    = CONNECTING.
Proof.
  split; [exact exhausted_run|].
  evaluate. discriminate.
Qed.

(** ** Intentional close *)

(** C3, as the code has it.  In every world the module can reach, the
    handler of a close event with code 1000 returns normally, sets
    [reconnectAttempts] to 0 and [isReconnecting] to false, arms no timer and
    makes no socket; the only timer it clears is the connection timeout of
    the socket that closed.  It leaves [reconnectTimer] as it is, and every
    reconnect timer armed earlier stays armed. *)
Theorem close_1000_resets (P : platform) (w : world) (sid : nat) (s : WebSocket)
    (t : nat) (reason : string) :
  reachable P w ->
  sockets w !! sid = Some s ->
  ws_readyState s <> CLOSED ->
  ws_handlers s = Some t ->
  let w' := next P (SockClose sid 1000 reason) w in
  enabled (SockClose sid 1000 reason) w = true /\
  threw (step P (SockClose sid 1000 reason) w) = false /\
  reconnectAttempts w' = 0%nat /\
  isReconnecting w' = false /\
  timers w' = without_timer (Some t) (timers w) /\
  next_timer w' = next_timer w /\
  reconnectTimer w' = reconnectTimer w /\
  socket w' = socket w /\
  length (sockets w') = length (sockets w) /\
  sockets w' !! sid = Some (set_ws_readyState CLOSED s) /\
  (forall r, r ∈ timers w -> timer_cb r = CbReconnect -> r ∈ timers w').
Proof.
  intros Hreach Hs Hr Hh w'. subst w'. unfold next.
  rewrite (step_close P w sid s t 1000 reason Hs Hh), onclose_intentional.
  cbn [world_of threw].
  destruct (update_socket_fields sid (set_ws_readyState CLOSED) w)
    as (Hso & Ha & Hrt & Hi & Ht & Hn & _ & _ & _ & Hlen).
  unfold close_noted. simpl_world.
  split. { cbn. rewrite Hs. destruct (ws_readyState s); try reflexivity. contradiction. }
  split; [reflexivity|]. split; [reflexivity|]. split; [reflexivity|].
  split; [now rewrite Ht|]. split; [exact Hn|]. split; [exact Hrt|].
  split; [exact Hso|]. split; [exact Hlen|].
  split. { rewrite update_socket_lookup, Nat.eqb_refl, Hs. reflexivity. }
  intros r Hin Hcb. rewrite Ht. cbn [without_timer].
  apply elem_of_filter_bool. split; [|exact Hin].
  unfold timer_is. apply negb_true_iff, Nat.eqb_neq. intros Hid.
  destruct (reachable_fresh_ids P w Hreach) as [_ Hcap].
  destruct (Hcap t (handler_captured w sid s t Hs Hh)) as [_ Hconn].
  rewrite (Hconn r Hin Hid) in Hcb. discriminate.
Qed.

(** The server accepts the first connection and closes it with code 1000. *)
Lemma close_1000_resets_witness :
  reconnectAttempts (next reference (SockClose 0 1000 EmptyString) connected) = 0%nat /\
  isReconnecting (next reference (SockClose 0 1000 EmptyString) connected) = false /\
  timers (next reference (SockClose 0 1000 EmptyString) connected) = [].
Proof.
  assert (Hreach : reachable reference connected).
  { apply (run_reachable reference [CallConnect false; SockOpen 0] initial);
      [apply reachable_initial | vm_compute; reflexivity]. }
  destruct (close_1000_resets reference connected 0
              {| ws_url := "wss://everdice.example/ws"; ws_readyState := OPEN;
                 ws_handlers := Some 0%nat; ws_sent := [] |}
              0 EmptyString Hreach eq_refl ltac:(discriminate) eq_refl)
    as (_ & _ & Ha & Hi & Ht & _).
  split; [exact Ha|]. split; [exact Hi | exact Ht].
Defined.

(** C3 fails for a reconnect timer armed before the close: after the close
    with code 1000 the counter is 0, yet timer 2 (1500 ms) is still armed,
    and when it fires [createWSConnection(true)] opens socket 2. *)
Lemma reconnect_after_close_1000 :
  run reference late_close initial = Some (play reference late_close initial) /\
  reconnectAttempts (play reference late_close initial) = 0%nat /\
  timers (play reference late_close initial) =
    [{| timer_id := 2; timer_delay := 3000 # 2; timer_cb := CbReconnect |}] /\
  enabled (TimerFire 2) (play reference late_close initial) = true /\
  length (sockets (play reference late_close initial)) = 2%nat /\
  socket (next reference (TimerFire 2) (play reference late_close initial)) = Some 2%nat /\
  readyState_of (next reference (TimerFire 2) (play reference late_close initial)) 2
    = CONNECTING.
Proof. evaluate. Qed.

(** ** A connection timeout *)

Lemma pending_after_clear (id : nat) (ts : list timer) :
  existsb (timer_is id) (without_timer (Some id) ts) = false.
Proof.
  cbn [without_timer]. induction ts as [|t ts IH]; cbn; [reflexivity|].
  destruct (timer_is id t) eqn:E; cbn; [exact IH|]. now rewrite E, IH.
Qed.

Lemma pending_after_clear_other (id other : nat) (ts : list timer) :
  id <> other ->
  existsb (timer_is id) (without_timer (Some other) ts) = existsb (timer_is id) ts.
Proof.
  intros Hne. cbn [without_timer]. induction ts as [|t ts IH]; cbn; [reflexivity|].
  destruct (timer_is other t) eqn:E; cbn.
  - rewrite IH. unfold timer_is in *. apply Nat.eqb_eq in E.
    destruct (Nat.eqb_spec (timer_id t) id); [congruence | reflexivity].
  - now rewrite IH.
Qed.

Lemma find_pending (id : nat) (ts : list timer) (t : timer) :
  List.find (timer_is id) ts = Some t -> existsb (timer_is id) ts = true.
Proof.
  intros H. apply find_some in H as [Hin Hid].
  apply existsb_exists. exists t. split; assumption.
Qed.

Section ConnectionTimeout.

Variable P : platform.
Variables (w : world) (tid sid h : nat) (t : timer) (s : WebSocket).
Variables (code : Z) (reason : string).

Hypothesis timer_armed : List.find (timer_is tid) (timers w) = Some t.
Hypothesis timer_is_timeout : timer_cb t = CbConnectionTimeout.
Hypothesis socket_held : socket w = Some sid.
Hypothesis socket_found : sockets w !! sid = Some s.
Hypothesis socket_connecting : ws_readyState s = CONNECTING.
Hypothesis socket_handlers : ws_handlers s = Some h.
Hypothesis unexpected : code <> 1000%Z.

(** The world in which the timeout callback calls [scheduleReconnect]. *)
Definition at_timeout : world :=
  timed_out sid (set_timers (without_timer (Some tid) (timers w)) w).

(** The world in which the close handler calls [scheduleReconnect]. *)
Definition at_close (w1 : world) : world :=
  close_noted h code reason (update_socket sid (set_ws_readyState CLOSED) w1).

Lemma timeout_step :
  step P (TimerFire tid) w = scheduleReconnect P at_timeout.
Proof using timer_armed timer_is_timeout socket_held socket_found socket_connecting.
  rewrite (step_timer P w tid t timer_armed), timer_is_timeout. cbn [run_callback].
  rewrite connectionTimeout_callback_fired. unfold at_timeout.
  set (w0 := set_timers (without_timer (Some tid) (timers w)) w).
  assert (H1 : socket w0 = Some sid) by exact socket_held.
  assert (H2 : readyState_of w0 sid = CONNECTING).
  { unfold readyState_of. change (sockets w0) with (sockets w).
    now rewrite socket_found. }
  rewrite H1, H2. reflexivity.
Qed.

Lemma at_timeout_fields :
  timers at_timeout = without_timer (Some tid) (timers w) /\
  next_timer at_timeout = next_timer w /\
  reconnectTimer at_timeout = reconnectTimer w /\
  reconnectAttempts at_timeout = reconnectAttempts w /\
  sockets at_timeout !! sid = Some (set_ws_readyState CLOSING s).
Proof using socket_found socket_connecting.
  unfold at_timeout, timed_out, closing, readyState_of. simpl_world.
  rewrite socket_found, socket_connecting.
  match goal with
  | |- context [update_socket sid ?f ?x] =>
      destruct (update_socket_fields sid f x) as (_ & Ha & Hr & _ & Ht & Hn & _);
      rewrite Ht, Hn, Hr, Ha
  end.
  repeat split; try reflexivity.
  rewrite update_socket_lookup, Nat.eqb_refl. simpl_world.
  rewrite socket_found. reflexivity.
Qed.

Lemma close_after_timeout (w1 : world) :
  sockets w1 = sockets at_timeout ->
  enabled (SockClose sid code reason) w1 = true /\
  step P (SockClose sid code reason) w1 = scheduleReconnect P (at_close w1).
Proof using socket_found socket_connecting socket_handlers unexpected.
  intros Hs. destruct at_timeout_fields as (_ & _ & _ & _ & Hlook).
  rewrite <- Hs in Hlook. split.
  - cbn. rewrite Hlook. reflexivity.
  - rewrite (step_close P w1 sid _ h code reason Hlook socket_handlers).
    apply onclose_unexpected. exact unexpected.
Qed.

Lemma at_close_fields (w1 : world) :
  timers (at_close w1) = without_timer (Some h) (timers w1) /\
  next_timer (at_close w1) = next_timer w1 /\
  reconnectTimer (at_close w1) = reconnectTimer w1 /\
  reconnectAttempts (at_close w1) = reconnectAttempts w1.
Proof.
  unfold at_close, close_noted. simpl_world.
  destruct (update_socket_fields sid (set_ws_readyState CLOSED) w1)
    as (_ & Ha & Hr & _ & Ht & Hn & _).
  rewrite Ht, Hn, Hr, Ha. repeat split; reflexivity.
Qed.

End ConnectionTimeout.

Ltac simpl_schedule :=
  cbn [rescheduled gave_up set_isReconnecting set_console socket
       reconnectAttempts reconnectTimer isReconnecting sockets timers
       next_timer console].

Ltac simpl_schedule_in H :=
  cbn [rescheduled gave_up set_isReconnecting set_console socket
       reconnectAttempts reconnectTimer isReconnecting sockets timers
       next_timer console] in H.

Lemma rescheduled_pending (P : platform) (w : world) :
  timer_pending (rescheduled P w) (next_timer w) = true.
Proof.
  unfold timer_pending. cbn [rescheduled timers]. rewrite existsb_app.
  apply orb_true_iff. right. cbn [existsb reconnect_timer_of].
  unfold timer_is. cbn [timer_id]. rewrite Nat.eqb_refl. reflexivity.
Qed.

(** C10, as the code has it.  In a world the module can reach, a
    connection timeout fires while the held socket is still connecting, and the close event of that socket follows
    with a code other than 1000 (the browser reports 1006 for a connection
    that was never established).  Both the timeout callback and the close
    handler call [scheduleReconnect].
    - With [reconnectAttempts <= 8] both calls count: the counter goes up by
      2, the reconnect timer armed by the first call is cleared by the second
      and the timer armed by the second is the one left.
    - With [reconnectAttempts = 9] only the first call counts: the counter
      becomes 10, the second call gives up, and the timer of the first call
      stays armed.
    - With [reconnectAttempts >= 10] both calls give up: the counter stays
      and no timer is armed. *)
Theorem connection_timeout_reschedules (P : platform) (w : world) (tid sid h : nat)
    (t : timer) (s : WebSocket) (code : Z) (reason : string) :
  reachable P w ->
  List.find (timer_is tid) (timers w) = Some t ->
  timer_cb t = CbConnectionTimeout ->
  socket w = Some sid ->
  sockets w !! sid = Some s ->
  ws_readyState s = CONNECTING ->
  ws_handlers s = Some h ->
  code <> 1000%Z ->
  let w1 := next P (TimerFire tid) w in
  let w2 := next P (SockClose sid code reason) w1 in
  enabled (TimerFire tid) w = true /\
  readyState_of w1 sid = CLOSING /\
  enabled (SockClose sid code reason) w1 = true /\
  ((reconnectAttempts w <= 8)%nat ->
     reconnectAttempts w1 = S (reconnectAttempts w) /\
     reconnectTimer w1 = Some (next_timer w) /\
     timer_pending w1 (next_timer w) = true /\
     reconnectAttempts w2 = S (S (reconnectAttempts w)) /\
     timer_pending w2 (next_timer w) = false /\
     reconnectTimer w2 = Some (S (next_timer w)) /\
     timer_pending w2 (S (next_timer w)) = true) /\
  (reconnectAttempts w = 9%nat ->
     reconnectAttempts w1 = 10%nat /\
     reconnectAttempts w2 = 10%nat /\
     next_timer w2 = S (next_timer w) /\
     reconnectTimer w2 = Some (next_timer w) /\
     timer_pending w2 (next_timer w) = true) /\
  ((10 <= reconnectAttempts w)%nat ->
     reconnectAttempts w2 = reconnectAttempts w /\
     next_timer w2 = next_timer w /\
     (forall x, x ∈ timers w2 -> x ∈ timers w)).
Proof.
  intros Hreach Hfind Hcb Hsock Hs Hst Hh Hcode w1 w2.
  assert (Hfresh : (h < next_timer w)%nat).
  { destruct (reachable_fresh_ids P w Hreach) as [_ Hcap].
    apply (Hcap h (handler_captured w sid s h Hs Hh)). }
  pose proof (timeout_step P w tid sid t s Hfind Hcb Hsock Hs Hst) as Hstep1.
  destruct (at_timeout_fields w tid sid s Hs Hst) as (Ht0 & Hn0 & Hr0 & Ha0 & Hlook0).
  set (w0 := at_timeout w tid sid) in *.
  assert (Hw1 : w1 = world_of (scheduleReconnect P w0)).
  { unfold w1, next. now rewrite Hstep1. }
  assert (Hsockets1 : sockets w1 = sockets w0).
  { rewrite Hw1.
    destruct (Nat.le_gt_cases maxReconnectAttempts (reconnectAttempts w0)) as [H | H].
    - now rewrite (scheduleReconnect_exhausted P w0 H).
    - now rewrite (scheduleReconnect_budget P w0 H). }
  destruct (close_after_timeout P w tid sid h s code reason Hs Hst Hh Hcode w1 Hsockets1)
    as [Hen2 Hstep2].
  destruct (at_close_fields sid h code reason w1) as (Htc & Hnc & Hrc & Hac).
  set (wc := at_close sid h code reason w1) in *.
  assert (Hw2 : w2 = world_of (scheduleReconnect P wc)).
  { unfold w2, next. now rewrite Hstep2. }
  split. { cbn. eapply find_pending. exact Hfind. }
  split. { unfold readyState_of. rewrite Hsockets1, Hlook0. reflexivity. }
  split; [exact Hen2|].
  unfold maxReconnectAttempts in *.
  split; [|split].
  - intros Hle.
    assert (H1 : w1 = rescheduled P w0).
    { rewrite Hw1, (scheduleReconnect_budget P w0); [reflexivity|].
      unfold maxReconnectAttempts. lia. }
    assert (Ha1 : reconnectAttempts w1 = S (reconnectAttempts w)).
    { rewrite H1. simpl_schedule. now rewrite Ha0. }
    assert (Hn1 : next_timer w1 = S (next_timer w)).
    { rewrite H1. simpl_schedule. now rewrite Hn0. }
    assert (Hr1 : reconnectTimer w1 = Some (next_timer w)).
    { rewrite H1. simpl_schedule. now rewrite Hn0. }
    assert (H2 : w2 = rescheduled P wc).
    { rewrite Hw2, (scheduleReconnect_budget P wc); [reflexivity|].
      unfold maxReconnectAttempts. lia. }
    split; [exact Ha1|]. split; [exact Hr1|].
    split. { rewrite H1, <- Hn0. apply rescheduled_pending. }
    split. { rewrite H2. simpl_schedule. rewrite Hac, Ha1. reflexivity. }
    split.
    { rewrite H2. unfold timer_pending. cbn [rescheduled timers].
      rewrite Hrc, Hr1, existsb_app, pending_after_clear.
      cbn [existsb orb]. unfold timer_is, reconnect_timer_of. cbn [timer_id].
      rewrite Hnc, Hn1.
      destruct (Nat.eqb_spec (S (next_timer w)) (next_timer w)); [lia | reflexivity]. }
    split. { rewrite H2. simpl_schedule. now rewrite Hnc, Hn1. }
    rewrite <- Hn1, <- Hnc, H2. apply rescheduled_pending.
  - intros H9.
    assert (H1 : w1 = rescheduled P w0).
    { rewrite Hw1, (scheduleReconnect_budget P w0); [reflexivity|].
      unfold maxReconnectAttempts. lia. }
    assert (Ha1 : reconnectAttempts w1 = 10%nat).
    { rewrite H1. simpl_schedule. now rewrite Ha0, H9. }
    assert (Hn1 : next_timer w1 = S (next_timer w)).
    { rewrite H1. simpl_schedule. now rewrite Hn0. }
    assert (Hr1 : reconnectTimer w1 = Some (next_timer w)).
    { rewrite H1. simpl_schedule. now rewrite Hn0. }
    assert (H2 : w2 = gave_up wc).
    { rewrite Hw2, (scheduleReconnect_exhausted P wc); [reflexivity|].
      unfold maxReconnectAttempts. lia. }
    split; [exact Ha1|].
    split. { rewrite H2. simpl_schedule. now rewrite Hac. }
    split. { rewrite H2. simpl_schedule. now rewrite Hnc. }
    split. { rewrite H2. simpl_schedule. now rewrite Hrc. }
    rewrite H2. unfold timer_pending. cbn [gave_up set_isReconnecting set_console timers].
    rewrite Htc, pending_after_clear_other by lia.
    fold (timer_pending w1 (next_timer w)).
    rewrite H1, <- Hn0. apply rescheduled_pending.
  - intros H10.
    assert (H1 : w1 = gave_up w0).
    { rewrite Hw1, (scheduleReconnect_exhausted P w0); [reflexivity|].
      unfold maxReconnectAttempts. lia. }
    assert (Ha1 : reconnectAttempts w1 = reconnectAttempts w).
    { rewrite H1. simpl_schedule. exact Ha0. }
    assert (H2 : w2 = gave_up wc).
    { rewrite Hw2, (scheduleReconnect_exhausted P wc); [reflexivity|].
      unfold maxReconnectAttempts. lia. }
    split. { rewrite H2. simpl_schedule. now rewrite Hac. }
    split. { rewrite H2. simpl_schedule. rewrite Hnc, H1. simpl_schedule. exact Hn0. }
    intros x Hx. rewrite H2 in Hx. simpl_schedule_in Hx. rewrite Htc in Hx.
    apply elem_of_without_timer in Hx as [Hx _].
    rewrite H1 in Hx. simpl_schedule_in Hx. rewrite Ht0 in Hx.
    now apply elem_of_without_timer in Hx as [Hx _].
Qed.

(** The first connection times out: the counter goes from 0 to 2 and the
    timer left is the second one (id 2), the first (id 1) being cleared. *)
Lemma connection_timeout_reschedules_witness :
  let w := next reference (CallConnect false) initial in
  let w2 := next reference (SockClose 0 1006 EmptyString)
              (next reference (TimerFire 0) w) in
  reconnectAttempts w = 0%nat /\
  reconnectAttempts w2 = 2%nat /\
  timer_pending w2 1 = false /\
  reconnectTimer w2 = Some 2%nat /\
  timer_pending w2 2 = true.
Proof.
  intros w w2.
  assert (Hreach : reachable reference w).
  { apply reachable_next; [apply reachable_initial | reflexivity]. }
  destruct (connection_timeout_reschedules reference w 0 0 0
              {| timer_id := 0; timer_delay := 10000; timer_cb := CbConnectionTimeout |}
              {| ws_url := "wss://everdice.example/ws"; ws_readyState := CONNECTING;
                 ws_handlers := Some 0%nat; ws_sent := [] |}
              1006 EmptyString
              Hreach eq_refl eq_refl eq_refl eq_refl eq_refl eq_refl
              ltac:(discriminate))
    as (_ & _ & _ & Hlow & _).
  destruct (Hlow (le_0_n 8)) as (_ & _ & _ & Ha & Hp1 & Hr & Hp2).
  split; [reflexivity|]. split; [exact Ha|]. split; [exact Hp1|].
  split; [exact Hr | exact Hp2].
Defined.

(** C10 fails at counter 9: the timeout of the tenth socket fires while it
    is connecting and its close follows; the counter goes from 9 to 10, not
    to 11, and the timer armed by the first call (id 19) is still armed. *)
Lemma timeout_at_nine_counts_once :
  run reference timeout_at_nine initial = Some (play reference timeout_at_nine initial) /\
  reconnectAttempts (play reference nine_failures initial) = 9%nat /\
  socket (play reference nine_failures initial) = Some 9%nat /\
  readyState_of (play reference nine_failures initial) 9 = CONNECTING /\
  timers (play reference nine_failures initial) =
    [{| timer_id := 18; timer_delay := 10000; timer_cb := CbConnectionTimeout |}] /\
  reconnectAttempts (play reference timeout_at_nine initial) = 10%nat /\
  reconnectTimer (play reference timeout_at_nine initial) = Some 19%nat /\
  timers (play reference timeout_at_nine initial) =
    [{| timer_id := 19; timer_delay := 30000; timer_cb := CbReconnect |}].
Proof. evaluate. Qed.

(** ** The scenarios of the specification, run on the reference platform *)

(** counter = 0: the delay is 1000 + 1000/2. *)
Example delay_at_0 : (reconnectDelay 0 (1 # 2) == 1500)%Q.
Proof. reflexivity. Qed.

(** counter = 9: the cap is reached whatever the jitter. *)
Example delay_at_9 : (reconnectDelay 9 0 == 30000)%Q /\ (reconnectDelay 9 (999 # 1000) == 30000)%Q.
Proof. split; reflexivity. Qed.

(** A malformed text: no notification, no exception, one log entry. *)
Example malformed_text :
  step reference (SockMessage 0 "not json") connected =
  Normal tt (set_console (console connected ++ [parse_error_entry SyntaxError]) connected).
Proof. evaluate. Qed.

(** A message of a type the module does not know is ignored. *)
Example unknown_type :
  step reference (SockMessage 0 (render (JObj [("type", JStr "chat"); ("payload", JStr "hello")])))
    connected = Normal tt connected.
Proof. evaluate. Qed.

(** A message sent on the open socket goes out as one JSON text. *)
Example send_when_open :
  ws_sent <$> sockets (next reference (CallSend "roll" (JNum 20)) connected) =
  [[render (JObj [("type", JStr "roll"); ("payload", JNum 20)])]].
Proof. evaluate. Qed.

(** On a page opened from a file the constructor throws: the call returns
    normally, no socket exists, and a reconnect timer is armed. *)
Example connect_on_file_page :
  wsUrl file_page = "ws:///ws" /\
  threw (createWSConnection file_page false initial) = false /\
  sockets (next file_page (CallConnect false) initial) = [] /\
  reconnectAttempts (next file_page (CallConnect false) initial) = 1%nat /\
  timers (next file_page (CallConnect false) initial) =
    [{| timer_id := 0; timer_delay := 3000 # 2; timer_cb := CbReconnect |}].
Proof. evaluate. Qed.

(** * Further properties of the module *)

(** ** The reconnect counter *)

Lemma reachable_effect (P : platform) (I : world -> Prop) :
  I initial ->
  (forall w w0, disarmed w w0 -> I w -> I w0) ->
  (forall e w w', timer_effect e w w' -> I w -> I w') ->
  forall w, reachable P w -> I w.
Proof.
  intros Hinit Hdis Heff w Hreach. induction Hreach as [|w e _ IH _]; [exact Hinit|].
  destruct (next_effect P e w) as (w0 & Hd & He).
  apply (Heff e w0); [exact He|]. now apply (Hdis w).
Qed.

(** X1.  In every world the module can reach [reconnectAttempts] is at most
    [maxReconnectAttempts]: the guard of line 114 stands before the only
    increment. *)
Theorem reconnectAttempts_bounded (P : platform) (w : world) :
  reachable P w -> (reconnectAttempts w <= maxReconnectAttempts)%nat.
Proof.
  apply (reachable_effect P (fun w => (reconnectAttempts w <= maxReconnectAttempts)%nat)).
  - unfold maxReconnectAttempts. cbn. lia.
  - intros w1 w0 (_ & _ & _ & Ha & _) H. now rewrite Ha.
  - intros e w1 w' He H.
    destruct He as [_ _ _ Ha _ | _ _ _ _ Ha _ | _ _ _ _ Ha _
                    | t _ _ _ _ _ Ha _ | t Hlt _ _ _ _ _ Ha _]; rewrite Ha; lia.
Qed.

(** The bound is reached: after ten failures the counter is 10. *)
Lemma reconnectAttempts_bounded_witness :
  reachable reference exhausted /\
  reconnectAttempts exhausted = 10%nat /\
  (reconnectAttempts exhausted <= maxReconnectAttempts)%nat.
Proof.
  assert (Hreach : reachable reference exhausted).
  { apply (run_reachable reference ten_failures initial);
      [apply reachable_initial | exact exhausted_run]. }
  split; [exact Hreach|]. split; [vm_compute; reflexivity|].
  apply (reconnectAttempts_bounded reference exhausted Hreach).
Defined.

(** X2.  One event moves the counter in one of three ways: it leaves it, it
    sets it to 0, or it adds one.  It adds one exactly when it arms a
    reconnect timer: a reconnect timer that is armed after the event and was
    not armed before carries the identifier [next_timer] had, is the timer
    recorded in [reconnectTimer], and comes with a counter that was below 10
    and went up by one; and when the counter goes up by one such a timer is
    armed. *)
Theorem reconnect_timer_counts (P : platform) (e : event) (w : world) :
  let w' := next P e w in
  (forall t, t ∈ timers w' -> timer_cb t = CbReconnect ->
     t ∈ timers w \/
     ((reconnectAttempts w < maxReconnectAttempts)%nat /\
      reconnectAttempts w' = S (reconnectAttempts w) /\
      timer_id t = next_timer w /\
      reconnectTimer w' = Some (timer_id t))) /\
  (reconnectAttempts w' = reconnectAttempts w \/
   reconnectAttempts w' = 0%nat \/
   reconnectAttempts w' = S (reconnectAttempts w)) /\
  (reconnectAttempts w' = S (reconnectAttempts w) ->
   reconnectAttempts w' <> 0%nat /\
   exists t, t ∈ timers w' /\ timer_cb t = CbReconnect /\
             timer_id t = next_timer w /\ next_timer w' = S (next_timer w)).
Proof.
  intros w'. subst w'.
  destruct (next_effect P e w) as (w0 & ([f Hf] & Hn0 & Hr0 & Ha0 & _) & He).
  assert (Hsub : forall t, t ∈ timers w0 -> t ∈ timers w).
  { intros t Ht. rewrite Hf in Ht. now apply elem_of_filter_bool in Ht as [_ Ht]. }
  destruct He as [Ht Hn Hr Ha _ | _ Ht Hn Hr Ha _ | _ Ht Hn Hr Ha _
                  | c Hcb Hid Ht Hn Hr Ha _ | c Hlt Hcb Hid Ht Hn Hr Ha _];
    rewrite Ha, Ht, Hn, Hr.
  - split; [|split; [left; exact Ha0 | intros H; lia]].
    intros t Hin _. left. auto.
  - split; [|split; [right; left; reflexivity | intros H; lia]].
    intros t Hin _. left. apply elem_of_without_timer in Hin as [Hin _]. auto.
  - split; [|split; [right; left; reflexivity | intros H; lia]].
    intros t Hin _. left. auto.
  - split; [|split; [left; exact Ha0 | intros H; lia]].
    intros t Hin Hrec. left. apply elem_of_app in Hin as [Hin | Hin]; [auto|].
    apply list_elem_of_singleton in Hin. subst t. congruence.
  - split; [|split; [right; right; now rewrite Ha0|]].
    + intros t Hin Hrec. apply elem_of_app in Hin as [Hin | Hin].
      * left. apply elem_of_without_timer in Hin as [Hin _]. auto.
      * right. apply list_elem_of_singleton in Hin. subst t.
        rewrite Hid, Hn0, <- Ha0. repeat split. exact Hlt.
    + intros _. split; [lia|]. exists c.
      split; [apply elem_of_app; right; now apply list_elem_of_singleton|].
      split; [exact Hcb|]. split; [now rewrite Hid, Hn0 | now rewrite Hn0].
Qed.

(** ** Opening *)

Lemma reachable_one_reconnect_timer (P : platform) (w : world) :
  reachable P w -> one_reconnect_timer w.
Proof.
  apply (reachable_effect P one_reconnect_timer).
  - split; [intros t Ht; inversion Ht | cbn; lia].
  - intros w1 w0 Hd H. eapply one_reconnect_timer_disarmed; eassumption.
  - intros e w1 w' He H. eapply one_reconnect_timer_effect; eassumption.
Qed.

(** The identifier recorded in [reconnectTimer] was handed out earlier, and
    an armed timer that carries it is a reconnect timer. *)
Definition recorded_ok (w : world) : Prop :=
  (forall x, reconnectTimer w = Some x -> (x < next_timer w)%nat) /\
  (forall r, r ∈ timers w -> reconnectTimer w = Some (timer_id r) ->
             timer_cb r = CbReconnect).

Lemma reachable_recorded_ok (P : platform) (w : world) :
  reachable P w -> fresh_ids w /\ recorded_ok w.
Proof.
  apply (reachable_effect P (fun w => fresh_ids w /\ recorded_ok w)).
  - split; [split; [intros r Hr; inversion Hr | intros h Hh; inversion Hh]|].
    split; [intros x [=] | intros r Hr; inversion Hr].
  - intros w1 w0 Hd [Hf [Hlt Hrec]]. split; [eapply fresh_ids_disarmed; eassumption|].
    destruct Hd as ([f Hfil] & Hn & Hr & _). split.
    + intros x Hx. rewrite Hn. apply Hlt. now rewrite <- Hr.
    + intros r Hin Hx. rewrite Hfil in Hin. apply elem_of_filter_bool in Hin as [_ Hin].
      apply Hrec; [exact Hin | now rewrite <- Hr].
  - intros e w1 w' He [Hf [Hlt Hrec]].
    split; [eapply fresh_ids_effect; eassumption|].
    destruct Hf as [Hids _].
    destruct He as [Ht Hn Hr _ _ | _ Ht Hn Hr _ _ | _ Ht Hn Hr _ _
                    | t Hcb Hid Ht Hn Hr _ _ | t _ Hcb Hid Ht Hn Hr _ _];
      unfold recorded_ok; rewrite Ht, Hn, Hr.
    + split; assumption.
    + split; [intros x [=] | intros r _ [=]].
    + split; assumption.
    + split.
      * intros x Hx. specialize (Hlt x Hx). lia.
      * intros r Hin Hx. apply elem_of_app in Hin as [Hin | Hin]; [now apply Hrec|].
        apply list_elem_of_singleton in Hin. subst r.
        specialize (Hlt _ Hx). lia.
    + split.
      * intros x [= <-]. lia.
      * intros r Hin [= Hx]. apply elem_of_app in Hin as [Hin | Hin].
        -- apply elem_of_without_timer in Hin as [Hin _].
           specialize (Hids r Hin). lia.
        -- apply list_elem_of_singleton in Hin. now subst r.
Qed.

Lemma pending_subset (id : nat) (ts ts' : list timer) :
  (forall r, r ∈ ts' -> r ∈ ts) ->
  existsb (timer_is id) ts = false -> existsb (timer_is id) ts' = false.
Proof.
  intros Hsub Hno. destruct (existsb (timer_is id) ts') eqn:E; [|reflexivity].
  apply existsb_exists in E as (r & Hin & Hr).
  assert (H : existsb (timer_is id) ts = true).
  { apply existsb_exists. exists r. split; [|exact Hr].
    apply list_elem_of_In, Hsub, list_elem_of_In, Hin. }
  congruence.
Qed.

Lemma without_timer_subset (rt : option nat) (ts : list timer) (r : timer) :
  r ∈ without_timer rt ts -> r ∈ ts.
Proof. intros H. now apply elem_of_without_timer in H as [H _]. Qed.

(** X3.  In every world the module can reach, the open event of a connecting
    socket is handled without an exception and leaves the module connected:
    [reconnectAttempts] is 0, [isReconnecting] is false, [reconnectTimer] is
    null and no reconnect timer is armed any more; the connection timeout of
    the socket that opened is disarmed, no timer is armed, and a connection
    timeout that another socket captured stays armed. *)
Theorem open_resets (P : platform) (w : world) (sid : nat) (s : WebSocket) (t : nat) :
  reachable P w ->
  sockets w !! sid = Some s ->
  ws_readyState s = CONNECTING ->
  ws_handlers s = Some t ->
  let w' := next P (SockOpen sid) w in
  enabled (SockOpen sid) w = true /\
  threw (step P (SockOpen sid) w) = false /\
  reconnectAttempts w' = 0%nat /\
  isReconnecting w' = false /\
  reconnectTimer w' = None /\
  pending_reconnects w' = [] /\
  timer_pending w' t = false /\
  (forall r, r ∈ timers w' -> r ∈ timers w) /\
  next_timer w' = next_timer w /\
  (forall r, r ∈ timers w -> timer_cb r = CbConnectionTimeout -> timer_id r <> t ->
             r ∈ timers w') /\
  socket w' = socket w /\
  sockets w' !! sid = Some (set_ws_readyState OPEN s).
Proof.
  intros Hreach Hs Hst Hh w'. subst w'. unfold next.
  rewrite (step_open P w sid s t Hs Hh). cbn [world_of threw].
  destruct (update_socket_timer_state sid (set_ws_readyState OPEN) w ltac:(reflexivity))
    as (Ht & Hn & Hr & _ & _).
  destruct (update_socket_fields sid (set_ws_readyState OPEN) w)
    as (Hso & _).
  set (w1 := update_socket sid (set_ws_readyState OPEN) w) in *.
  destruct (reachable_one_reconnect_timer P w Hreach) as [Htr _].
  destruct (reachable_recorded_ok P w Hreach) as [_ [_ Hrec]].
  cbn [opened reconnectAttempts isReconnecting reconnectTimer timers next_timer
       socket sockets].
  unfold pending_reconnects, timer_pending.
  cbn [opened timers]. rewrite Ht, Hr.
  split. { cbn. now rewrite Hs, Hst. }
  split; [reflexivity|]. split; [reflexivity|]. split; [reflexivity|].
  split; [reflexivity|].
  split.
  { apply filter_none. intros r Hin.
    apply elem_of_without_timer in Hin as [Hin Hne].
    apply without_timer_subset in Hin.
    destruct (is_reconnect r) eqn:E; [|reflexivity].
    apply is_reconnect_true in E. apply (Htr r Hin) in E. contradiction. }
  split.
  { apply (pending_subset t (without_timer (Some t) (timers w)));
      [apply without_timer_subset | apply pending_after_clear]. }
  split. { intros r Hin. now do 2 apply without_timer_subset in Hin. }
  split; [exact Hn|].
  split.
  { intros r Hin Hcb Hne.
    assert (H1 : r ∈ without_timer (Some t) (timers w)).
    { cbn [without_timer]. apply elem_of_filter_bool. split; [|exact Hin].
      unfold timer_is. now apply negb_true_iff, Nat.eqb_neq. }
    destruct (reconnectTimer w) as [x|] eqn:Hx; [|exact H1].
    cbn [without_timer]. apply elem_of_filter_bool. split; [|exact H1].
    unfold timer_is. apply negb_true_iff, Nat.eqb_neq. intros Hid.
    assert (Hc : timer_cb r = CbReconnect) by (apply Hrec; [exact Hin | now rewrite Hid]).
    congruence. }
  split; [exact Hso|].
  unfold w1. rewrite update_socket_lookup, Nat.eqb_refl, Hs. reflexivity.
Qed.

(** The first connection opens: its timeout (timer 0) is disarmed. *)
Lemma open_resets_witness :
  let w := next reference (CallConnect false) initial in
  timer_pending w 0 = true /\
  timer_pending (next reference (SockOpen 0) w) 0 = false /\
  isReconnecting (next reference (SockOpen 0) w) = false /\
  pending_reconnects (next reference (SockOpen 0) w) = [].
Proof.
  intros w.
  assert (Hreach : reachable reference w).
  { apply reachable_next; [apply reachable_initial | reflexivity]. }
  destruct (open_resets reference w 0
              {| ws_url := "wss://everdice.example/ws"; ws_readyState := CONNECTING;
                 ws_handlers := Some 0%nat; ws_sent := [] |}
              0 Hreach eq_refl eq_refl eq_refl)
    as (_ & _ & _ & Hi & _ & Hp & Ht & _).
  split; [reflexivity|]. split; [exact Ht|]. split; [exact Hi | exact Hp].
Defined.

(** ** The sockets the module has made *)

(** A socket that is connecting or open. *)
Definition live (w : world) (i : nat) : bool :=
  match readyState_of w i with
  | CONNECTING | OPEN => true
  | CLOSING | CLOSED => false
  end.

(** The module holds the socket it made last, and no other socket is
    connecting or open. *)
Definition registry_ok (w : world) : Prop :=
  match socket w with
  | None => sockets w = []
  | Some sid => S sid = length (sockets w)
  end /\
  forall i, live w i = true -> socket w = Some i.

(** [w'] holds the socket [w] holds, has as many sockets, and none of them
    came to life. *)
Definition retained (w w' : world) : Prop :=
  socket w' = socket w /\
  length (sockets w') = length (sockets w) /\
  forall i, live w' i = true -> live w i = true.

Lemma retained_refl (w : world) : retained w w.
Proof. repeat split; auto. Qed.

Lemma retained_trans (w1 w2 w3 : world) : retained w1 w2 -> retained w2 w3 -> retained w1 w3.
Proof.
  intros (H1 & H2 & H3) (H1' & H2' & H3'). repeat split; try congruence. auto.
Qed.

Lemma retained_registry (w w' : world) : retained w w' -> registry_ok w -> registry_ok w'.
Proof.
  intros (Hso & Hlen & Hlive) [Hheld Honly]. split.
  - rewrite Hso. destruct (socket w) as [sid|]; [congruence|].
    apply nil_length_inv. rewrite Hlen, Hheld. reflexivity.
  - intros i Hi. rewrite Hso. auto.
Qed.

Lemma same_sockets_retained (w w' : world) :
  sockets w' = sockets w -> socket w' = socket w -> retained w w'.
Proof.
  intros Hs Hso. split; [exact Hso|]. split; [now rewrite Hs|].
  intros i. unfold live, readyState_of. now rewrite Hs.
Qed.

Lemma update_socket_readyState (sid : nat) (f : WebSocket -> WebSocket) (w : world) (i : nat) :
  readyState_of (update_socket sid f w) i =
  if Nat.eqb i sid then
    match sockets w !! sid with
    | Some s => ws_readyState (f s)
    | None => CLOSED
    end
  else readyState_of w i.
Proof.
  unfold readyState_of. rewrite update_socket_lookup.
  destruct (Nat.eqb_spec i sid) as [-> | _]; [|reflexivity].
  destruct (sockets w !! sid); reflexivity.
Qed.

Lemma update_socket_retained (sid : nat) (f : WebSocket -> WebSocket) (w : world) :
  (forall s, sockets w !! sid = Some s ->
     match ws_readyState (f s) with
     | CONNECTING | OPEN => live w sid = true
     | CLOSING | CLOSED => True
     end) ->
  retained w (update_socket sid f w).
Proof.
  intros Hf.
  destruct (update_socket_fields sid f w) as (Hso & _ & _ & _ & _ & _ & _ & _ & _ & Hlen).
  split; [exact Hso|]. split; [exact Hlen|].
  intros i. unfold live at 1. rewrite update_socket_readyState.
  destruct (Nat.eqb_spec i sid) as [-> | _]; [|intros H; exact H].
  destruct (sockets w !! sid) as [s|] eqn:Hs; [|discriminate].
  specialize (Hf s eq_refl). destruct (ws_readyState (f s)); try discriminate; auto.
Qed.

Lemma closing_retained (sid : nat) (w : world) : retained w (closing sid w).
Proof.
  unfold closing. destruct (readyState_of w sid); try apply retained_refl;
    apply update_socket_retained; intros s _; exact I.
Qed.

Lemma closing_not_live (sid : nat) (w : world) : live (closing sid w) sid = false.
Proof.
  unfold live. rewrite closing_readyState, Nat.eqb_refl.
  destruct (readyState_of w sid); reflexivity.
Qed.

Lemma scheduleReconnect_retained (P : platform) (w : world) :
  retained w (world_of (scheduleReconnect P w)).
Proof.
  destruct (Nat.le_gt_cases maxReconnectAttempts (reconnectAttempts w)) as [H | H].
  - rewrite (scheduleReconnect_exhausted P w H). now apply same_sockets_retained.
  - rewrite (scheduleReconnect_budget P w H). now apply same_sockets_retained.
Qed.

Lemma connecting_registry (P : platform) (w : world) :
  registry_ok w -> registry_ok (connecting P w).
Proof.
  intros [_ Honly].
  destruct (closing_current_fields w) as (_ & _ & _ & _ & _ & _ & _ & _ & _ & Hlen).
  split.
  - cbn [connecting socket sockets]. rewrite length_app, Hlen. cbn. lia.
  - intros i Hi. cbn [connecting socket]. f_equal.
    destruct (Nat.lt_trichotomy i (length (sockets w))) as [Hlt | [-> | Hgt]];
      [exfalso | reflexivity | exfalso].
    + unfold live, readyState_of in Hi. cbn [connecting sockets] in Hi.
      rewrite lookup_app_l in Hi by (rewrite Hlen; exact Hlt).
      fold (readyState_of (closing_current w) i) in Hi.
      fold (live (closing_current w) i) in Hi.
      unfold closing_current in Hi. destruct (socket w) as [sid|] eqn:Hso.
      * assert (Hw : live w i = true) by (apply (closing_retained sid w); exact Hi).
        specialize (Honly i Hw). injection Honly as <-.
        rewrite closing_not_live in Hi. discriminate.
      * specialize (Honly i Hi). discriminate.
    + unfold live, readyState_of in Hi. cbn [connecting sockets] in Hi.
      rewrite lookup_ge_None_2 in Hi; [discriminate|].
      rewrite length_app, Hlen. cbn. lia.
Qed.

Lemma createWSConnection_registry (P : platform) (force : bool) (w : world) :
  registry_ok w -> registry_ok (world_of (createWSConnection P force w)).
Proof.
  intros H. destruct (connect_skipped force w) eqn:Hs.
  - now rewrite (createWSConnection_skipped P force w Hs).
  - destruct (WebSocket_accepts P (wsUrl P)) eqn:Hok.
    + rewrite (createWSConnection_accepted P force w Hs Hok). now apply connecting_registry.
    + rewrite (createWSConnection_rejected P force w Hs Hok).
      eapply retained_registry; [|exact H].
      eapply retained_trans; [|apply scheduleReconnect_retained].
      unfold connect_failed.
      apply (retained_trans _ (closing_current w)).
      * unfold closing_current. destruct (socket w); [apply closing_retained | apply retained_refl].
      * now apply same_sockets_retained.
Qed.

Lemma sendWSMessage_retained (P : platform) (type : string) (payload : jsval) (w : world) :
  retained w (world_of (sendWSMessage P type payload w)).
Proof.
  destruct (socket_is_open w) eqn:Ho.
  - rewrite (sendWSMessage_open P type payload w Ho).
    destruct (JSON_stringify P (envelope type payload)); [|apply retained_refl].
    unfold socket_is_open in Ho.
    destruct (socket w) as [sid|]; [|apply retained_refl].
    cbn [world_of]. apply update_socket_retained. intros s0 Hs. cbn [set_ws_sent ws_readyState].
    unfold live, readyState_of. rewrite Hs. destruct (ws_readyState s0); auto.
  - rewrite (sendWSMessage_closed P type payload w Ho). now apply same_sockets_retained.
Qed.

Lemma onmessage_sockets (P : platform) (text : string) (w : world) :
  sockets (world_of (onmessage P text w)) = sockets w /\
  socket (world_of (onmessage P text w)) = socket w.
Proof.
  unfold onmessage, try_catch, bind.
  destruct (JSON_parse P text) as [data|]; [|split; reflexivity].
  destruct data; cbn; try (split; reflexivity).
  destruct (strict_eq_string _ "dice_roll"); [split; reflexivity|].
  destruct (strict_eq_string _ "campaign_update"); split; reflexivity.
Qed.

Lemma timer_callback_registry (P : platform) (cb : callback) (w : world) :
  registry_ok w -> registry_ok (world_of (run_callback P cb w)).
Proof.
  intros H. destruct cb; cbn [run_callback].
  - rewrite connectionTimeout_callback_fired.
    destruct (socket w) as [sid|]; [|exact H].
    destruct (readyState_eqb (readyState_of w sid) OPEN); [exact H|].
    eapply retained_registry; [|exact H].
    eapply retained_trans; [|apply scheduleReconnect_retained].
    unfold timed_out.
    apply (retained_trans _ (set_console (console w ++ [timeout_warning]) w));
      [now apply same_sockets_retained | apply closing_retained].
  - rewrite reconnect_callback_fired. apply createWSConnection_registry.
    eapply retained_registry; [|exact H]. now apply same_sockets_retained.
Qed.

Lemma next_registry (P : platform) (e : event) (w : world) :
  enabled e w = true -> registry_ok w -> registry_ok (next P e w).
Proof.
  intros Hen H. unfold next.
  destruct e as [force | type payload | sid | sid text | sid
                 | sid code reason | tid | ]; cbn [step].
  - now apply createWSConnection_registry.
  - eapply retained_registry; [apply sendWSMessage_retained | exact H].
  - unfold bind, modify.
    set (w1 := update_socket sid (set_ws_readyState OPEN) w).
    assert (H1 : retained w w1).
    { apply update_socket_retained. intros s Hs. cbn in Hen. rewrite Hs in Hen.
      cbn [set_ws_readyState ws_readyState]. unfold live, readyState_of. rewrite Hs.
      destruct (ws_readyState s); try discriminate. reflexivity. }
    eapply retained_registry; [|exact H].
    eapply retained_trans; [exact H1|].
    destruct (with_handlers_cases sid onopen w1) as [-> | (s & t & _ & _ & ->)];
      [apply retained_refl|].
    rewrite onopen_opened. now apply same_sockets_retained.
  - eapply retained_registry; [|exact H].
    destruct (with_handlers_cases sid (fun _ => onmessage P text) w)
      as [-> | (s & t & _ & _ & ->)]; [apply retained_refl|].
    destruct (onmessage_sockets P text w). now apply same_sockets_retained.
  - eapply retained_registry; [|exact H].
    destruct (with_handlers_cases sid (fun _ => onerror) w)
      as [-> | (s & t & _ & _ & ->)]; [apply retained_refl|].
    now apply same_sockets_retained.
  - unfold bind, modify.
    set (w1 := update_socket sid (set_ws_readyState CLOSED) w).
    assert (H1 : retained w w1).
    { apply update_socket_retained. intros s _. exact I. }
    eapply retained_registry; [|exact H].
    eapply retained_trans; [exact H1|].
    destruct (with_handlers_cases sid (fun t => onclose P t code reason) w1)
      as [-> | (s & t & _ & _ & ->)]; [apply retained_refl|].
    destruct (Z.eq_dec code 1000%Z) as [-> | Hc].
    + rewrite onclose_intentional. now apply same_sockets_retained.
    + rewrite (onclose_unexpected P t code reason w1 Hc).
      eapply retained_trans; [|apply scheduleReconnect_retained].
      now apply same_sockets_retained.
  - destruct (List.find (timer_is tid) (timers w)) as [t|]; [|exact H].
    apply timer_callback_registry.
    eapply retained_registry; [|exact H]. now apply same_sockets_retained.
  - unfold beforeunload, bind, get.
    destruct (socket w) as [sid|]; [|exact H].
    rewrite ws_close_closing. cbn [world_of].
    eapply retained_registry; [apply closing_retained | exact H].
Qed.

Lemma reachable_registry (P : platform) (w : world) : reachable P w -> registry_ok w.
Proof.
  induction 1 as [|w e _ IH He].
  - split; [reflexivity|]. intros i Hi. discriminate Hi.
  - now apply next_registry.
Qed.

Lemma reachable_handlers_assigned (P : platform) (w : world) :
  reachable P w -> forall h, h ∈ handlers_of w -> h <> None.
Proof.
  apply (reachable_effect P (fun w => forall h, h ∈ handlers_of w -> h <> None)).
  - intros h Hh. inversion Hh.
  - intros w1 w0 (_ & _ & _ & _ & Hh) H. now rewrite Hh.
  - intros e w1 w' He H.
    destruct He as [_ _ _ _ Hh | _ _ _ _ _ Hh | _ _ _ _ _ Hh
                    | t _ _ _ _ _ _ Hh | t _ _ _ _ _ _ _ Hh]; rewrite Hh; try exact H.
    intros h Hin. apply elem_of_app in Hin as [Hin | Hin]; [now apply H|].
    apply list_elem_of_singleton in Hin. now subst h.
Qed.

(** X4.  In every world the module can reach, [socket] is null exactly when
    no socket was ever made and otherwise holds the socket made last; a
    socket that is connecting or open is the one the module holds, so every
    socket it has let go of is closing or closed; and every socket carries
    its handlers, with a [connectionTimeout] that was handed out earlier. *)
Theorem held_socket_is_the_live_one (P : platform) (w : world) :
  reachable P w ->
  (socket w = None <-> sockets w = []) /\
  (forall sid, socket w = Some sid -> S sid = length (sockets w)) /\
  (forall i s, sockets w !! i = Some s ->
     ws_readyState s = CONNECTING \/ ws_readyState s = OPEN ->
     socket w = Some i) /\
  (forall i s, sockets w !! i = Some s -> socket w <> Some i ->
     ws_readyState s = CLOSING \/ ws_readyState s = CLOSED) /\
  (forall i s, sockets w !! i = Some s ->
     exists t, ws_handlers s = Some t /\ (t < next_timer w)%nat).
Proof.
  intros Hreach.
  destruct (reachable_registry P w Hreach) as [Hheld Honly].
  assert (Hlive : forall i s, sockets w !! i = Some s ->
             ws_readyState s = CONNECTING \/ ws_readyState s = OPEN -> socket w = Some i).
  { intros i s Hs Hr. apply Honly. unfold live, readyState_of. rewrite Hs.
    destruct Hr as [-> | ->]; reflexivity. }
  split.
  { destruct (socket w) as [sid|]; split; intros H; try discriminate; try assumption.
    - rewrite H in Hheld. discriminate.
    - reflexivity. }
  split. { intros sid Hs. now rewrite Hs in Hheld. }
  split; [exact Hlive|].
  split.
  { intros i s Hs Hne. destruct (ws_readyState s) eqn:Hr; auto;
      exfalso; apply Hne, (Hlive i s Hs); auto. }
  intros i s Hs.
  destruct (ws_handlers s) as [t|] eqn:Hh.
  - exists t. split; [reflexivity|].
    destruct (reachable_fresh_ids P w Hreach) as [_ Hcap].
    apply (Hcap t (handler_captured w i s t Hs Hh)).
  - exfalso. apply (reachable_handlers_assigned P w Hreach None); [|reflexivity].
    apply list_elem_of_lookup. exists i.
    unfold handlers_of. rewrite list_lookup_fmap, Hs. cbn. now rewrite Hh.
Qed.

(** After a forced connect over a connecting socket the module holds socket
    1 and socket 0 is closing. *)
Lemma held_socket_is_the_live_one_witness :
  let w := play reference [CallConnect false; CallConnect true] initial in
  reachable reference w /\
  socket w = Some 1%nat /\
  readyState_of w 0 = CLOSING /\
  readyState_of w 1 = CONNECTING /\
  (forall i s, sockets w !! i = Some s -> socket w <> Some i ->
     ws_readyState s = CLOSING \/ ws_readyState s = CLOSED).
Proof.
  intros w.
  assert (Hreach : reachable reference w).
  { apply (run_reachable reference [CallConnect false; CallConnect true] initial);
      [apply reachable_initial | vm_compute; reflexivity]. }
  split; [exact Hreach|].
  split; [vm_compute; reflexivity|]. split; [vm_compute; reflexivity|].
  split; [vm_compute; reflexivity|].
  apply (held_socket_is_the_live_one reference w Hreach).
Defined.

(** ** Sending on an open socket *)

(** The text [sendWSMessage] transmits for a message, when [JSON.stringify]
    returns one. *)
Definition wire_text (P : platform) (m : string * jsval) : option string :=
  JSON_stringify P (envelope (fst m) (snd m)).

Definition send_calls (msgs : list (string * jsval)) : list event :=
  List.map (fun m => CallSend (fst m) (snd m)) msgs.

Lemma same_module_state_refl (w : world) : same_module_state w w.
Proof. repeat split; reflexivity. Qed.

Lemma same_module_state_trans (w1 w2 w3 : world) :
  same_module_state w1 w2 -> same_module_state w2 w3 -> same_module_state w1 w3.
Proof.
  intros (A1 & A2 & A3 & A4 & A5 & A6 & A7 & A8 & A9 & A10)
         (B1 & B2 & B3 & B4 & B5 & B6 & B7 & B8 & B9 & B10).
  repeat split; congruence.
Qed.

Lemma sends_appended (P : platform) (msgs : list (string * jsval)) :
  forall (w : world) (sid : nat) (s : WebSocket),
    socket w = Some sid ->
    sockets w !! sid = Some s ->
    ws_readyState s = OPEN ->
    run P (send_calls msgs) w = Some (play P (send_calls msgs) w) /\
    sockets (play P (send_calls msgs) w) !! sid =
      Some (set_ws_sent (ws_sent s ++ omap (wire_text P) msgs) s) /\
    (forall i, i <> sid ->
       sockets (play P (send_calls msgs) w) !! i = sockets w !! i) /\
    same_module_state w (play P (send_calls msgs) w).
Proof.
  induction msgs as [|m msgs IH]; intros w sid s Hso Hs Hr.
  - cbn. rewrite app_nil_r. destruct s; cbn in *.
    repeat split; solve [reflexivity | assumption].
  - assert (Ho : socket_is_open w = true).
    { unfold socket_is_open, readyState_of. now rewrite Hso, Hs, Hr. }
    change (play P (send_calls (m :: msgs)) w)
      with (play P (send_calls msgs) (next P (CallSend (fst m) (snd m)) w)).
    change (run P (send_calls (m :: msgs)) w)
      with (run P (send_calls msgs) (next P (CallSend (fst m) (snd m)) w)).
    change (omap (wire_text P) (m :: msgs))
      with (match wire_text P m with
            | Some text => text :: omap (wire_text P) msgs
            | None => omap (wire_text P) msgs
            end).
    assert (Hnext : next P (CallSend (fst m) (snd m)) w =
                    match wire_text P m with
                    | Some text =>
                        update_socket sid (fun s0 => set_ws_sent (ws_sent s0 ++ [text]) s0) w
                    | None => w
                    end).
    { unfold next. cbn [step].
      rewrite (sendWSMessage_open P (fst m) (snd m) w Ho), Hso. unfold wire_text.
      destruct (JSON_stringify P (envelope (fst m) (snd m))); reflexivity. }
    rewrite Hnext. destruct (wire_text P m) as [text|].
    + set (w1 := update_socket sid (fun s0 => set_ws_sent (ws_sent s0 ++ [text]) s0) w).
      assert (Hs1 : sockets w1 !! sid = Some (set_ws_sent (ws_sent s ++ [text]) s)).
      { unfold w1. rewrite update_socket_lookup, Nat.eqb_refl, Hs. reflexivity. }
      assert (Hm1 : same_module_state w w1) by apply update_socket_fields.
      assert (Hso1 : socket w1 = Some sid) by (rewrite (proj1 Hm1); exact Hso).
      destruct (IH w1 sid _ Hso1 Hs1 Hr) as (Hrun & Hsent & Hother & Hmod).
      split; [exact Hrun|]. split.
      { rewrite Hsent. cbn [set_ws_sent ws_sent]. rewrite <- app_assoc. reflexivity. }
      split.
      { intros i Hi. rewrite (Hother i Hi). unfold w1.
        rewrite update_socket_lookup. destruct (Nat.eqb_spec i sid); [contradiction | reflexivity]. }
      eapply same_module_state_trans; eassumption.
    + apply (IH w sid s Hso Hs Hr).
Qed.

(** X5.  While the held socket is open, a series of [sendWSMessage] calls
    transmits on it the texts of the messages that [JSON.stringify] accepts,
    one text per message and in the order of the calls; a message it rejects
    is the only one lost.  Nothing else happens: no other socket is written
    to, no timer is armed, nothing is logged, and the module variables stay
    as they are. *)
Theorem sends_in_order (P : platform) (msgs : list (string * jsval))
    (w : world) (sid : nat) (s : WebSocket) :
  socket w = Some sid ->
  sockets w !! sid = Some s ->
  ws_readyState s = OPEN ->
  let w' := play P (send_calls msgs) w in
  run P (send_calls msgs) w = Some w' /\
  sockets w' !! sid = Some (set_ws_sent (ws_sent s ++ omap (wire_text P) msgs) s) /\
  (forall i, i <> sid -> sockets w' !! i = sockets w !! i) /\
  timers w' = timers w /\
  console w' = console w /\
  socket w' = socket w /\
  reconnectAttempts w' = reconnectAttempts w /\
  reconnectTimer w' = reconnectTimer w /\
  isReconnecting w' = isReconnecting w.
Proof.
  intros Hso Hs Hr w'. subst w'.
  destruct (sends_appended P msgs w sid s Hso Hs Hr)
    as (Hrun & Hsent & Hother & (H1 & H2 & H3 & H4 & H5 & _ & H7 & _)).
  repeat split; assumption.
Qed.

(** Three calls on the connected socket, the second with a [BigInt]: the
    first and the third go out, in that order. *)
Lemma sends_in_order_witness :
  sockets (play reference
             (send_calls [("roll", JNum 1); ("roll", JBigInt 2); ("roll", JNum 3)])
             connected) !! 0%nat =
  Some {| ws_url := "wss://everdice.example/ws"; ws_readyState := OPEN;
          ws_handlers := Some 0%nat;
          ws_sent := [render (envelope "roll" (JNum 1));
                      render (envelope "roll" (JNum 3))] |}.
Proof.
  destruct (sends_in_order reference
              [("roll", JNum 1); ("roll", JBigInt 2); ("roll", JNum 3)] connected 0
              {| ws_url := "wss://everdice.example/ws"; ws_readyState := OPEN;
                 ws_handlers := Some 0%nat; ws_sent := [] |}
              eq_refl eq_refl eq_refl) as (_ & Hsent & _).
  exact Hsent.
Defined.

(** ** Unloading the page *)

Lemma closing_twice (sid : nat) (w : world) : closing sid (closing sid w) = closing sid w.
Proof.
  unfold closing at 1. rewrite closing_readyState, Nat.eqb_refl.
  destruct (readyState_of w sid); reflexivity.
Qed.

(** X6.  The [beforeunload] listener never throws and touches nothing but
    the [readyState] of the held socket, which it turns to [CLOSING] when it
    was connecting or open: no timer is armed or cleared, nothing is logged,
    the module variables stay.  Afterwards the held socket is not open, so a
    [sendWSMessage] is dropped with the warning; and running the listener a
    second time changes nothing. *)
Theorem beforeunload_closes_held (P : platform) (w : world) :
  let w' := next P BeforeUnload w in
  threw (step P BeforeUnload w) = false /\
  same_module_state w w' /\
  (forall sid s, socket w = Some sid -> sockets w !! sid = Some s ->
     sockets w' !! sid =
     Some (match ws_readyState s with
           | CONNECTING | OPEN => set_ws_readyState CLOSING s
           | CLOSING | CLOSED => s
           end)) /\
  (forall i, socket w <> Some i -> sockets w' !! i = sockets w !! i) /\
  socket_is_open w' = false /\
  is_open_or_connecting w' = false /\
  (forall type payload,
     sendWSMessage P type payload w' =
     Normal tt (set_console (console w' ++ [not_connected_warning]) w')) /\
  next P BeforeUnload w' = w'.
Proof.
  intros w'. subst w'. unfold next. cbn [step]. unfold beforeunload, bind, get.
  destruct (socket w) as [sid|] eqn:Hso.
  - rewrite ws_close_closing. cbn [world_of threw].
    pose proof (closing_fields sid w) as Hm.
    assert (Hheld : socket (closing sid w) = Some sid) by (rewrite (proj1 Hm); exact Hso).
    assert (Hnot : socket_is_open (closing sid w) = false /\
                   is_open_or_connecting (closing sid w) = false).
    { unfold socket_is_open, is_open_or_connecting. rewrite Hheld.
      rewrite closing_readyState, Nat.eqb_refl.
      destruct (readyState_of w sid); split; reflexivity. }
    split; [reflexivity|]. split; [exact Hm|].
    split.
    { intros sid' s [= <-] Hs. unfold closing, readyState_of. rewrite Hs.
      destruct (ws_readyState s); try exact Hs;
        rewrite update_socket_lookup, Nat.eqb_refl, Hs; reflexivity. }
    split.
    { intros i Hi. unfold closing. destruct (readyState_of w sid); try reflexivity;
        rewrite update_socket_lookup;
        destruct (Nat.eqb_spec i sid); try reflexivity; subst; congruence. }
    split; [apply Hnot|]. split; [apply Hnot|].
    split. { intros type payload. apply sendWSMessage_closed, Hnot. }
    rewrite Hheld, ws_close_closing. cbn [world_of]. apply closing_twice.
  - cbn [ret world_of threw].
    assert (Hnot : socket_is_open w = false /\ is_open_or_connecting w = false).
    { unfold socket_is_open, is_open_or_connecting. rewrite Hso. split; reflexivity. }
    split; [reflexivity|]. split; [apply same_module_state_refl|].
    split; [intros sid s [=]|]. split; [reflexivity|].
    split; [apply Hnot|]. split; [apply Hnot|].
    split. { intros type payload. apply sendWSMessage_closed, Hnot. }
    rewrite Hso. reflexivity.
Qed.

(** ** A connection that fails *)

Definition error_entry : level * list log_arg :=
  (ERROR, [LStr "WebSocket error:"; LEvent]).

Lemma pending_app (id : nat) (ts : list timer) (t : timer) :
  existsb (timer_is id) (ts ++ [t]) = existsb (timer_is id) ts || Nat.eqb (timer_id t) id.
Proof. rewrite existsb_app. cbn. unfold timer_is. now rewrite orb_false_r. Qed.

(** X7.  In every world the module can reach, an error event on a socket
    only writes to the console, and the close event that follows it (with a
    code other than 1000) counts the failure once.  With budget left the
    counter goes up by one and exactly one reconnect timer is armed, the one
    recorded in [reconnectTimer], with the delay of line 126 for the counter
    as it was; with the budget used up the counter and the timers stay and
    [isReconnecting] is cleared.  Either way the socket is closed and its
    connection timeout is disarmed. *)
Theorem error_then_close_counts_once (P : platform) (w : world) (sid h : nat)
    (s : WebSocket) (code : Z) (reason : string) :
  reachable P w ->
  sockets w !! sid = Some s ->
  ws_readyState s <> CLOSED ->
  ws_handlers s = Some h ->
  code <> 1000%Z ->
  let w1 := next P (SockError sid) w in
  let w2 := next P (SockClose sid code reason) w1 in
  enabled (SockError sid) w = true /\
  step P (SockError sid) w = Normal tt (set_console (console w ++ [error_entry]) w) /\
  enabled (SockClose sid code reason) w1 = true /\
  threw (step P (SockClose sid code reason) w1) = false /\
  readyState_of w2 sid = CLOSED /\
  timer_pending w2 h = false /\
  ((reconnectAttempts w < maxReconnectAttempts)%nat ->
     reconnectAttempts w2 = S (reconnectAttempts w) /\
     pending_reconnects w2 =
       [{| timer_id := next_timer w;
           timer_delay := reconnectDelay (reconnectAttempts w)
                            (Math_random P (random_calls w));
           timer_cb := CbReconnect |}] /\
     reconnectTimer w2 = Some (next_timer w) /\
     isReconnecting w2 = isReconnecting w) /\
  ((maxReconnectAttempts <= reconnectAttempts w)%nat ->
     reconnectAttempts w2 = reconnectAttempts w /\
     isReconnecting w2 = false /\
     next_timer w2 = next_timer w /\
     (forall r, r ∈ timers w2 -> r ∈ timers w)).
Proof.
  intros Hreach Hs Hst Hh Hcode w1 w2.
  assert (Hen : enabled (SockError sid) w = true).
  { cbn. rewrite Hs. destruct (ws_readyState s); try reflexivity. contradiction. }
  assert (Hstep1 : step P (SockError sid) w =
                   Normal tt (set_console (console w ++ [error_entry]) w)).
  { cbn [step]. unfold with_handlers. rewrite Hs, Hh. reflexivity. }
  assert (Hw1 : w1 = set_console (console w ++ [error_entry]) w).
  { unfold w1, next. now rewrite Hstep1. }
  clearbody w1. subst w1.
  set (w1 := set_console (console w ++ [error_entry]) w) in *.
  assert (Hs1 : sockets w1 !! sid = Some s) by exact Hs.
  pose proof (step_close P w1 sid s h code reason Hs1 Hh) as Hstep2.
  rewrite (onclose_unexpected P h code reason _ Hcode) in Hstep2.
  set (wc := update_socket sid (set_ws_readyState CLOSED) w1) in *.
  set (wn := close_noted h code reason wc) in *.
  destruct (update_socket_fields sid (set_ws_readyState CLOSED) w1)
    as (_ & Ha & Hr & Hi & Ht & Hn & _ & _ & Hrc & _).
  fold wc in Ha, Hr, Hi, Ht, Hn, Hrc.
  assert (Han : reconnectAttempts wn = reconnectAttempts w) by exact Ha.
  assert (Hrn : reconnectTimer wn = reconnectTimer w) by exact Hr.
  assert (Hin : isReconnecting wn = isReconnecting w) by exact Hi.
  assert (Hnn : next_timer wn = next_timer w) by exact Hn.
  assert (Hrcn : random_calls wn = random_calls w) by exact Hrc.
  assert (Htn : timers wn = without_timer (Some h) (timers w)).
  { unfold wn, close_noted. simpl_world. rewrite Ht. reflexivity. }
  assert (Hsn : sockets wn !! sid = Some (set_ws_readyState CLOSED s)).
  { unfold wn, close_noted. simpl_world. unfold wc.
    rewrite update_socket_lookup, Nat.eqb_refl, Hs1. reflexivity. }
  assert (Hw2 : w2 = world_of (scheduleReconnect P wn)).
  { unfold w2, next. now rewrite Hstep2. }
  assert (Hfresh : (h < next_timer w)%nat).
  { destruct (reachable_fresh_ids P w Hreach) as [_ Hcap].
    apply (Hcap h (handler_captured w sid s h Hs Hh)). }
  assert (Htracked : reconnect_tracked wn).
  { destruct (reachable_one_reconnect_timer P w Hreach) as [Htr _].
    intros r Hr' Hcb. rewrite Htn in Hr'. apply without_timer_subset in Hr'.
    rewrite Hrn. now apply Htr. }
  split; [exact Hen|]. split; [exact Hstep1|].
  split.
  { cbn [enabled]. rewrite Hs1. destruct (ws_readyState s); try reflexivity. contradiction. }
  split. { rewrite Hstep2, scheduleReconnect_normal. reflexivity. }
  destruct (Nat.le_gt_cases maxReconnectAttempts (reconnectAttempts w)) as [Hmax | Hlt].
  - assert (H2 : w2 = gave_up wn).
    { rewrite Hw2, (scheduleReconnect_exhausted P wn); [reflexivity | now rewrite Han]. }
    split. { rewrite H2. unfold readyState_of. simpl_schedule. now rewrite Hsn. }
    split.
    { rewrite H2. unfold timer_pending. simpl_schedule. rewrite Htn.
      apply pending_after_clear. }
    split; [intros H; lia|]. intros _.
    rewrite H2. simpl_schedule.
    split; [exact Han|]. split; [reflexivity|]. split; [exact Hnn|].
    intros r Hr'. rewrite Htn in Hr'. now apply without_timer_subset in Hr'.
  - assert (H2 : w2 = rescheduled P wn).
    { rewrite Hw2, (scheduleReconnect_budget P wn); [reflexivity | now rewrite Han]. }
    split. { rewrite H2. unfold readyState_of. simpl_schedule. now rewrite Hsn. }
    split.
    { rewrite H2. unfold timer_pending. simpl_schedule. rewrite pending_app.
      unfold reconnect_timer_of. cbn [timer_id]. rewrite Hnn.
      apply orb_false_iff. split.
      - apply (pending_subset h (timers wn)); [apply without_timer_subset|].
        rewrite Htn. apply pending_after_clear.
      - apply Nat.eqb_neq. lia. }
    split; [|intros H; lia]. intros _.
    rewrite H2. unfold pending_reconnects. simpl_schedule.
    split; [now rewrite Han|].
    split.
    { rewrite List.filter_app, (without_recorded_no_reconnect wn Htracked).
      cbn. unfold reconnect_timer_of, next_delay. rewrite Hnn, Han, Hrcn. reflexivity. }
    split; [now rewrite Hnn | exact Hin].
Qed.

(** The connected socket drops: one reconnect timer, counter 1. *)
Lemma error_then_close_counts_once_witness :
  let w2 := next reference (SockClose 0 1006 EmptyString)
              (next reference (SockError 0) connected) in
  reconnectAttempts connected = 0%nat /\
  reconnectAttempts w2 = 1%nat /\
  pending_reconnects w2 =
    [{| timer_id := 1;
        timer_delay := reconnectDelay 0 (1 # 2);
        timer_cb := CbReconnect |}].
Proof.
  intros w2.
  assert (Hreach : reachable reference connected).
  { apply (run_reachable reference [CallConnect false; SockOpen 0] initial);
      [apply reachable_initial | vm_compute; reflexivity]. }
  destruct (error_then_close_counts_once reference connected 0 0
              {| ws_url := "wss://everdice.example/ws"; ws_readyState := OPEN;
                 ws_handlers := Some 0%nat; ws_sent := [] |}
              1006 EmptyString Hreach eq_refl ltac:(discriminate) eq_refl
              ltac:(discriminate))
    as (_ & _ & _ & _ & _ & _ & Hbudget & _).
  destruct (Hbudget ltac:(vm_compute; repeat constructor)) as (Ha & Hp & _).
  split; [reflexivity|]. split; [exact Ha | exact Hp].
Defined.

(** ** A reconnect timer that fires *)

(** X8.  In every world the module can reach, when a reconnect timer fires
    the connect is forced: whatever [isReconnecting] and the state of the
    held socket are, on a platform whose constructor accepts the URL a new
    connecting socket is made and held, the socket held before is no longer
    connecting or open (an open one is told to close), and the new socket is
    the only one connecting or open.  The timer that fired is gone, the
    connection timeout of the new socket is armed, [isReconnecting] is set,
    and the counter and [reconnectTimer] stay as they were. *)
Theorem reconnect_timer_forces_connect (P : platform) (w : world) (tid : nat) (t : timer) :
  reachable P w ->
  List.find (timer_is tid) (timers w) = Some t ->
  timer_cb t = CbReconnect ->
  WebSocket_accepts P (wsUrl P) = true ->
  let w' := next P (TimerFire tid) w in
  enabled (TimerFire tid) w = true /\
  threw (step P (TimerFire tid) w) = false /\
  socket w' = Some (length (sockets w)) /\
  sockets w' !! length (sockets w) =
    Some {| ws_url := wsUrl P; ws_readyState := CONNECTING;
            ws_handlers := Some (next_timer w); ws_sent := [] |} /\
  (forall sid, socket w = Some sid -> live w' sid = false) /\
  (forall i, live w' i = true -> i = length (sockets w)) /\
  timers w' =
    (without_timer (Some tid) (timers w) ++
     [{| timer_id := next_timer w; timer_delay := 10000;
         timer_cb := CbConnectionTimeout |}])%list /\
  timer_pending w' tid = false /\
  isReconnecting w' = true /\
  reconnectAttempts w' = reconnectAttempts w /\
  reconnectTimer w' = reconnectTimer w.
Proof.
  intros Hreach Hfind Hcb Hok w'.
  set (w0 := set_console (console w ++ [attempting_entry])
               (set_timers (without_timer (Some tid) (timers w)) w)).
  assert (Hstep : step P (TimerFire tid) w = Normal tt (connecting P w0)).
  { rewrite (step_timer P w tid t Hfind), Hcb. cbn [run_callback].
    rewrite reconnect_callback_fired. apply createWSConnection_accepted; [|exact Hok].
    unfold connect_skipped. cbn [negb]. now rewrite !andb_false_r. }
  assert (Hw' : w' = connecting P w0) by (unfold w', next; now rewrite Hstep).
  clearbody w'. subst w'.
  assert (Hreg0 : registry_ok w0).
  { eapply retained_registry; [|apply (reachable_registry P w Hreach)].
    now apply same_sockets_retained. }
  pose proof (connecting_registry P w0 Hreg0) as [_ Honly].
  destruct (reachable_fresh_ids P w Hreach) as [Hids _].
  apply find_some in Hfind as [Hin Hid].
  apply list_elem_of_In in Hin. apply Nat.eqb_eq in Hid.
  specialize (Hids t Hin).
  split. { cbn. apply existsb_exists. exists t. split;
           [now apply list_elem_of_In | now apply Nat.eqb_eq]. }
  split; [now rewrite Hstep|].
  split; [reflexivity|].
  split; [apply (connecting_new_socket P w0)|].
  split.
  { intros sid Hsid. destruct (live (connecting P w0) sid) eqn:E; [|reflexivity].
    apply Honly in E. cbn [connecting socket] in E. injection E as E.
    change (sockets w0) with (sockets w) in E.
    destruct (reachable_registry P w Hreach) as [Hheld _]. rewrite Hsid in Hheld. lia. }
  split.
  { intros i Hi. apply Honly in Hi. cbn [connecting socket] in Hi. now injection Hi as <-. }
  split; [reflexivity|].
  split.
  { unfold timer_pending. cbn [connecting timers]. rewrite pending_app.
    apply orb_false_iff. split; [apply pending_after_clear|].
    cbn [connection_timer_of timer_id]. apply Nat.eqb_neq.
    change (next_timer w0) with (next_timer w). lia. }
  repeat split; reflexivity.
Qed.

(** A reconnect timer is armed beside the open socket 1 (the first four
    events of [late_close]); it fires, socket 1 is told to close and socket 2
    is made. *)
Lemma reconnect_timer_forces_connect_witness :
  let w := play reference [CallConnect false; CallConnect true; SockOpen 1;
                           SockClose 0 1006 EmptyString] initial in
  readyState_of w 1 = OPEN /\
  socket (next reference (TimerFire 2) w) = Some 2%nat /\
  live (next reference (TimerFire 2) w) 1 = false.
Proof.
  intros w.
  assert (Hreach : reachable reference w).
  { apply (run_reachable reference [CallConnect false; CallConnect true; SockOpen 1;
                                    SockClose 0 1006 EmptyString] initial);
      [apply reachable_initial | vm_compute; reflexivity]. }
  destruct (reconnect_timer_forces_connect reference w 2
              {| timer_id := 2; timer_delay := 3000 # 2; timer_cb := CbReconnect |}
              Hreach eq_refl eq_refl eq_refl)
    as (_ & _ & Hsock & _ & Hold & _).
  split; [vm_compute; reflexivity|]. split; [exact Hsock|].
  apply Hold. vm_compute. reflexivity.
Defined.

(** ** A connection timeout that fires late *)

(** X9.  The connection-timeout callback looks at the held socket, not at
    the socket it was armed for.  When the held socket is open, or no socket
    is held, it does nothing: the world only loses the timer that fired.
    When the held socket is connecting, the callback tells it to close and
    calls [scheduleReconnect], also when the timer was armed for an earlier
    socket: with budget left the counter goes up by one and a reconnect
    timer is armed. *)
Theorem connection_timeout_acts_on_held_socket (P : platform) (w : world)
    (tid : nat) (t : timer) :
  List.find (timer_is tid) (timers w) = Some t ->
  timer_cb t = CbConnectionTimeout ->
  let w' := next P (TimerFire tid) w in
  threw (step P (TimerFire tid) w) = false /\
  (socket w = None \/ socket_is_open w = true ->
   w' = set_timers (without_timer (Some tid) (timers w)) w) /\
  (forall sid s, socket w = Some sid -> sockets w !! sid = Some s ->
     ws_readyState s = CONNECTING ->
     sockets w' !! sid = Some (set_ws_readyState CLOSING s) /\
     ((reconnectAttempts w < maxReconnectAttempts)%nat ->
        reconnectAttempts w' = S (reconnectAttempts w) /\
        reconnectTimer w' = Some (next_timer w) /\
        timer_pending w' (next_timer w) = true) /\
     ((maxReconnectAttempts <= reconnectAttempts w)%nat ->
        reconnectAttempts w' = reconnectAttempts w /\
        isReconnecting w' = false /\
        timers w' = without_timer (Some tid) (timers w))).
Proof.
  intros Hfind Hcb w'.
  set (w0 := set_timers (without_timer (Some tid) (timers w)) w).
  assert (Hstep : step P (TimerFire tid) w = connectionTimeout_callback P w0).
  { rewrite (step_timer P w tid t Hfind), Hcb. reflexivity. }
  rewrite connectionTimeout_callback_fired in Hstep.
  change (socket w0) with (socket w) in Hstep.
  assert (Hrs : forall sid, readyState_of w0 sid = readyState_of w sid) by reflexivity.
  split.
  { rewrite Hstep. destruct (socket w) as [sid|]; [|reflexivity].
    destruct (readyState_eqb (readyState_of w0 sid) OPEN); [reflexivity|].
    now rewrite scheduleReconnect_normal. }
  split.
  { intros H. unfold w', next. rewrite Hstep.
    destruct H as [-> | H]; [reflexivity|].
    unfold socket_is_open in H. destruct (socket w) as [sid|]; [|reflexivity].
    rewrite Hrs, H. reflexivity. }
  intros sid s Hso Hs Hst.
  assert (Hr : readyState_of w sid = CONNECTING).
  { unfold readyState_of. now rewrite Hs. }
  rewrite Hso, Hrs, Hr in Hstep. cbn [readyState_eqb] in Hstep.
  destruct (at_timeout_fields w tid sid s Hs Hst) as (Ht0 & Hn0 & Hr0 & Ha0 & Hlook0).
  fold w0 in Hstep. change (timed_out sid w0) with (at_timeout w tid sid) in Hstep.
  set (wt := at_timeout w tid sid) in *.
  assert (Hw' : w' = world_of (scheduleReconnect P wt)).
  { unfold w', next. now rewrite Hstep. }
  clearbody w'. subst w'.
  destruct (Nat.le_gt_cases maxReconnectAttempts (reconnectAttempts w)) as [Hmax | Hlt].
  - rewrite (scheduleReconnect_exhausted P wt) by (now rewrite Ha0).
    cbn [world_of]. simpl_schedule.
    split; [exact Hlook0|]. split; [intros H; lia|]. intros _.
    split; [exact Ha0|]. split; [reflexivity | exact Ht0].
  - rewrite (scheduleReconnect_budget P wt) by (now rewrite Ha0).
    cbn [world_of].
    split; [exact Hlook0|]. split; [|intros H; lia]. intros _.
    split; [simpl_schedule; now rewrite Ha0|].
    split; [simpl_schedule; now rewrite Hn0|].
    rewrite <- Hn0. apply rescheduled_pending.
Qed.

(** After a forced connect the timeout armed for socket 0 fires while socket
    1, the held one, is connecting: socket 1 is told to close. *)
Lemma connection_timeout_acts_on_held_socket_witness :
  let w := play reference [CallConnect false; CallConnect true] initial in
  socket w = Some 1%nat /\
  sockets w !! 0%nat =
    Some {| ws_url := "wss://everdice.example/ws"; ws_readyState := CLOSING;
            ws_handlers := Some 0%nat; ws_sent := [] |} /\
  sockets (next reference (TimerFire 0) w) !! 1%nat =
    Some {| ws_url := "wss://everdice.example/ws"; ws_readyState := CLOSING;
            ws_handlers := Some 1%nat; ws_sent := [] |} /\
  reconnectAttempts (next reference (TimerFire 0) w) = 1%nat.
Proof.
  intros w.
  destruct (connection_timeout_acts_on_held_socket reference w 0
              {| timer_id := 0; timer_delay := 10000; timer_cb := CbConnectionTimeout |}
              eq_refl eq_refl) as (_ & _ & Hheld).
  destruct (Hheld 1%nat
              {| ws_url := "wss://everdice.example/ws"; ws_readyState := CONNECTING;
                 ws_handlers := Some 1%nat; ws_sent := [] |}
              eq_refl eq_refl eq_refl) as (Hclosing & Hbudget & _).
  destruct (Hbudget ltac:(vm_compute; repeat constructor)) as (Ha & _).
  split; [reflexivity|]. split; [reflexivity|]. split; [exact Hclosing | exact Ha].
Defined.

(** ** The backoff grows *)

Lemma backoff_base_monotone (n m : nat) :
  (n <= m)%nat -> (1000 <= backoff_base n)%Q /\ (backoff_base n <= backoff_base m)%Q.
Proof.
  intros Hnm. unfold backoff_base.
  assert (H1 : (1 <= (3 # 2) ^ Z.of_nat n)%Q).
  { apply Qpower_1_le; [discriminate | lia]. }
  assert (H2 : ((3 # 2) ^ Z.of_nat n <= (3 # 2) ^ Z.of_nat m)%Q).
  { apply Qpower_le_compat_l; [lia | discriminate]. }
  set (a := ((3 # 2) ^ Z.of_nat n)%Q) in *. set (b := ((3 # 2) ^ Z.of_nat m)%Q) in *.
  split; lra.
Qed.

(** X10.  The delay of line 126 never falls below 1000 ms nor exceeds 30000
    ms, and for the same jitter it does not shrink as the counter grows; from
    counter 9 on it is the cap. *)
Theorem reconnectDelay_grows (n m : nat) (r : Q) :
  (n <= m)%nat ->
  (0 <= r)%Q ->
  (1000 <= reconnectDelay n r)%Q /\
  (reconnectDelay n r <= reconnectDelay m r)%Q /\
  (reconnectDelay m r <= 30000)%Q /\
  ((9 <= m)%nat -> (reconnectDelay m r == 30000)%Q).
Proof.
  intros Hnm Hr. rewrite !reconnectDelay_min.
  destruct (backoff_base_monotone n m Hnm) as [Hlow Hle].
  split. { apply Q.min_glb; lra. }
  split. { apply Q.min_le_compat_r. lra. }
  split; [apply Q.le_min_r|].
  intros H9. apply Q.min_r.
  destruct (backoff_base_monotone 9 m H9) as [_ H].
  assert (Hb : (backoff_base 9 == 19683000 # 512)%Q) by reflexivity.
  rewrite Hb in H. lra.
Qed.

Lemma reconnectDelay_grows_witness :
  (1000 <= reconnectDelay 1 (1 # 2))%Q /\
  (reconnectDelay 1 (1 # 2) <= reconnectDelay 2 (1 # 2))%Q /\
  (reconnectDelay 2 (1 # 2) <= 30000)%Q.
Proof.
  destruct (reconnectDelay_grows 1 2 (1 # 2) (le_S 1 1 (le_n 1)) ltac:(discriminate))
    as (H1 & H2 & H3 & _).
  split; [exact H1|]. split; [exact H2 | exact H3].
Defined.

(** ** A platform that never lets a socket be made *)

Lemma run_app (P : platform) (es1 es2 : list event) (w : world) :
  run P (es1 ++ es2) w =
  match run P es1 w with
  | Some w1 => run P es2 w1
  | None => None
  end.
Proof.
  revert w. induction es1 as [|e es1 IH]; intros w; cbn; [reflexivity|].
  destruct (enabled e w); [apply IH | reflexivity].
Qed.

(** After the first call and [k] further attempts: no socket, the counter at
    [k + 1], and the reconnect timer [k] the only timer armed. *)
Definition retrying (k : nat) (w : world) : Prop :=
  sockets w = [] /\
  socket w = None /\
  reconnectAttempts w = S k /\
  reconnectTimer w = Some k /\
  next_timer w = S k /\
  isReconnecting w = true /\
  exists d, timers w = [{| timer_id := k; timer_delay := d; timer_cb := CbReconnect |}].

Definition reconnect_fires (k j : nat) : list event := List.map TimerFire (seq k j).

Section Rejected.

Variable P : platform.
Hypothesis rejected : WebSocket_accepts P (wsUrl P) = false.

Lemma connect_failed_unheld (w : world) :
  socket w = None ->
  connect_failed w =
  set_console
    (console w ++ [(ERROR, [LStr "Failed to create WebSocket connection:"; LExn SyntaxError])])
    (set_isReconnecting true w).
Proof. intros H. unfold connect_failed, closing_current. now rewrite H. Qed.

Lemma first_attempt_rejected : retrying 0 (next P (CallConnect false) initial).
Proof using rejected.
  unfold next. cbn [step].
  rewrite (createWSConnection_rejected P false initial eq_refl rejected).
  rewrite (connect_failed_unheld initial eq_refl).
  rewrite scheduleReconnect_budget by (cbn; unfold maxReconnectAttempts; lia).
  cbn [world_of]. repeat split. eexists. reflexivity.
Qed.

Lemma fired_timer_world (k : nat) (w : world) :
  retrying k w ->
  enabled (TimerFire k) w = true /\
  step P (TimerFire k) w =
  scheduleReconnect P
    (connect_failed (set_console (console w ++ [attempting_entry]) (set_timers [] w))).
Proof using rejected.
  intros (Hs & Hso & Ha & Hr & Hn & Hi & d & Ht).
  assert (Hfind : List.find (timer_is k) (timers w) =
                  Some {| timer_id := k; timer_delay := d; timer_cb := CbReconnect |}).
  { rewrite Ht. cbn. unfold timer_is. cbn. now rewrite Nat.eqb_refl. }
  split.
  { cbn. unfold timer_pending. rewrite Ht. cbn. unfold timer_is. cbn.
    now rewrite Nat.eqb_refl. }
  rewrite (step_timer P w k _ Hfind). cbn [timer_cb run_callback].
  rewrite reconnect_callback_fired.
  assert (Hclear : without_timer (Some k) (timers w) = []).
  { rewrite Ht. cbn. unfold timer_is. cbn. now rewrite Nat.eqb_refl. }
  rewrite Hclear.
  apply createWSConnection_rejected; [|exact rejected].
  unfold connect_skipped. cbn [negb]. now rewrite !andb_false_r.
Qed.

Lemma next_attempt_rejected (k : nat) (w : world) :
  retrying k w -> (k < 9)%nat ->
  enabled (TimerFire k) w = true /\ retrying (S k) (next P (TimerFire k) w).
Proof using rejected.
  intros Hret Hk. destruct (fired_timer_world k w Hret) as [Hen Hstep].
  split; [exact Hen|]. unfold next. rewrite Hstep.
  destruct Hret as (Hs & Hso & Ha & Hr & Hn & Hi & d & Ht).
  rewrite connect_failed_unheld by exact Hso.
  match goal with |- retrying _ (world_of (scheduleReconnect P ?x)) => set (wf := x) end.
  assert (Haf : reconnectAttempts wf = S k) by exact Ha.
  assert (Hnf : next_timer wf = S k) by exact Hn.
  assert (Hrf : reconnectTimer wf = Some k) by exact Hr.
  assert (Htf : timers wf = []) by reflexivity.
  rewrite (scheduleReconnect_budget P wf)
    by (rewrite Haf; unfold maxReconnectAttempts; lia).
  cbn [world_of]. unfold retrying.
  cbn [rescheduled sockets socket reconnectAttempts reconnectTimer next_timer
       isReconnecting timers].
  rewrite Haf, Hnf, Hrf, Htf.
  split; [exact Hs|]. split; [exact Hso|]. split; [reflexivity|]. split; [reflexivity|].
  split; [reflexivity|]. split; [reflexivity|].
  exists (next_delay P wf). unfold reconnect_timer_of. rewrite Hnf. reflexivity.
Qed.

Lemma last_attempt_rejected (w : world) :
  retrying 9 w ->
  enabled (TimerFire 9) w = true /\
  sockets (next P (TimerFire 9) w) = [] /\
  socket (next P (TimerFire 9) w) = None /\
  reconnectAttempts (next P (TimerFire 9) w) = 10%nat /\
  timers (next P (TimerFire 9) w) = [] /\
  next_timer (next P (TimerFire 9) w) = 10%nat /\
  isReconnecting (next P (TimerFire 9) w) = false.
Proof using rejected.
  intros Hret. destruct (fired_timer_world 9 w Hret) as [Hen Hstep].
  split; [exact Hen|]. unfold next. rewrite Hstep.
  destruct Hret as (Hs & Hso & Ha & Hr & Hn & Hi & d & Ht).
  rewrite connect_failed_unheld by exact Hso.
  match goal with |- context [scheduleReconnect P ?x] => set (wf := x) end.
  assert (Haf : reconnectAttempts wf = 10%nat) by exact Ha.
  rewrite (scheduleReconnect_exhausted P wf)
    by (rewrite Haf; unfold maxReconnectAttempts; lia).
  cbn [world_of].
  split; [exact Hs|]. split; [exact Hso|]. split; [exact Ha|].
  split; [reflexivity|]. split; [exact Hn | reflexivity].
Qed.

Lemma attempts_rejected (j : nat) :
  forall k w, retrying k w -> (k + j <= 9)%nat ->
    exists w', run P (reconnect_fires k j) w = Some w' /\ retrying (k + j) w'.
Proof using rejected.
  induction j as [|j IH]; intros k w Hret Hk.
  - exists w. rewrite Nat.add_0_r. split; [reflexivity | exact Hret].
  - destruct (next_attempt_rejected k w Hret ltac:(lia)) as [Hen Hnext].
    destruct (IH (S k) _ Hnext ltac:(lia)) as (w' & Hrun & Hret').
    exists w'. split.
    + cbn [reconnect_fires seq List.map run]. rewrite Hen. exact Hrun.
    + replace (k + S j)%nat with (S k + j)%nat by lia. exact Hret'.
Qed.

End Rejected.

(** X11.  On a platform whose [WebSocket] constructor always throws, the
    first call of [createWSConnection] and the reconnect timers it sets off
    run to an end by themselves: ten reconnect timers are armed and fire, one
    after the other, no socket is ever made, and the tenth attempt leaves the
    counter at 10 with no timer armed and [isReconnecting] false. *)
Theorem rejected_connect_gives_up (P : platform) :
  WebSocket_accepts P (wsUrl P) = false ->
  exists w,
    run P (CallConnect false :: reconnect_fires 0 10) initial = Some w /\
    sockets w = [] /\
    socket w = None /\
    reconnectAttempts w = 10%nat /\
    timers w = [] /\
    next_timer w = 10%nat /\
    isReconnecting w = false /\
    quiescent w.
Proof.
  intros Hrej.
  destruct (attempts_rejected P Hrej 9 0 _ (first_attempt_rejected P Hrej) ltac:(lia))
    as (w9 & Hrun & Hret).
  destruct (last_attempt_rejected P Hrej w9 Hret) as (Hen & Hs & Hso & Ha & Ht & Hn & Hi).
  exists (next P (TimerFire 9) w9).
  split.
  { change (reconnect_fires 0 10) with (reconnect_fires 0 9 ++ [TimerFire 9])%list.
    cbn [run enabled]. rewrite run_app, Hrun. cbn [run]. now rewrite Hen. }
  split; [exact Hs|]. split; [exact Hso|]. split; [exact Ha|]. split; [exact Ht|].
  split; [exact Hn|]. split; [exact Hi|].
  split; [exact Ht|].
  intros i s Hlook. rewrite Hs in Hlook. discriminate Hlook.
Qed.

(** A page opened from a file. *)
Lemma rejected_connect_gives_up_witness :
  exists w,
    run file_page (CallConnect false :: reconnect_fires 0 10) initial = Some w /\
    sockets w = [] /\
    socket w = None /\
    reconnectAttempts w = 10%nat /\
    timers w = [] /\
    next_timer w = 10%nat /\
    isReconnecting w = false /\
    quiescent w.
Proof. apply (rejected_connect_gives_up file_page). reflexivity. Defined.

(** ** Calling connect again *)

(** X12.  An unforced [createWSConnection()] that follows another one does
    nothing: whatever the first call did (returned at once, made a socket,
    or caught the constructor's exception and scheduled a reconnect), it
    leaves [isReconnecting] set or a socket connecting or open, and the
    second call returns at once.  The one exception is a constructor that
    throws with the budget used up, where the first call clears
    [isReconnecting]. *)
Theorem unforced_connect_twice (P : platform) (w : world) :
  WebSocket_accepts P (wsUrl P) = true \/
  (reconnectAttempts w < maxReconnectAttempts)%nat ->
  let w1 := next P (CallConnect false) w in
  step P (CallConnect false) w1 = Normal tt w1 /\
  length (sockets (next P (CallConnect false) w1)) <= S (length (sockets w)).
Proof.
  intros Hcase w1.
  assert (Hskip : connect_skipped false w1 = true).
  { unfold w1, next. cbn [step].
    destruct (connect_skipped false w) eqn:Hs.
    - rewrite (createWSConnection_skipped P false w Hs). exact Hs.
    - destruct (WebSocket_accepts P (wsUrl P)) eqn:Hok.
      + rewrite (createWSConnection_accepted P false w Hs Hok). reflexivity.
      + destruct Hcase as [[=] | Hlt].
        rewrite (createWSConnection_rejected P false w Hs Hok).
        assert (Ha : reconnectAttempts (connect_failed w) = reconnectAttempts w).
        { exact (proj1 (proj2 (closing_current_fields w))). }
        rewrite (scheduleReconnect_budget P (connect_failed w)) by (now rewrite Ha).
        reflexivity. }
  assert (Hstep : step P (CallConnect false) w1 = Normal tt w1).
  { cbn [step]. now apply createWSConnection_skipped. }
  split; [exact Hstep|].
  unfold next at 1. rewrite Hstep. cbn [world_of].
  unfold w1, next. cbn [step].
  destruct (connect_skipped false w) eqn:Hs.
  - rewrite (createWSConnection_skipped P false w Hs). cbn [world_of]. lia.
  - destruct (closing_current_fields w) as (_ & _ & _ & _ & _ & _ & _ & _ & _ & Hlen).
    destruct (WebSocket_accepts P (wsUrl P)) eqn:Hok.
    + rewrite (createWSConnection_accepted P false w Hs Hok). cbn [world_of connecting sockets].
      rewrite length_app, Hlen. cbn. lia.
    + rewrite (createWSConnection_rejected P false w Hs Hok).
      destruct (scheduleReconnect_retained P (connect_failed w)) as (_ & Hl & _).
      rewrite Hl. unfold connect_failed. simpl_world. rewrite Hlen. lia.
Qed.

(** Two calls on a fresh page make one socket. *)
Lemma unforced_connect_twice_witness :
  next reference (CallConnect false) (next reference (CallConnect false) initial) =
  next reference (CallConnect false) initial.
Proof.
  destruct (unforced_connect_twice reference initial (or_introl eq_refl)) as [Hstep _].
  unfold next at 1. rewrite Hstep. reflexivity.
Defined.

(** ** Which events disarm a timer *)

(** The three ways the code disarms a timer [r]: it fires; the socket whose
    handlers captured its identifier opens or closes; it is the timer
    recorded in [reconnectTimer]. *)
Definition fires (e : event) (r : timer) : Prop := e = TimerFire (timer_id r).

Definition settles (e : event) (w : world) (r : timer) : Prop :=
  exists sid s,
    (e = SockOpen sid \/ exists code reason, e = SockClose sid code reason) /\
    sockets w !! sid = Some s /\
    ws_handlers s = Some (timer_id r).

Definition recorded (w : world) (r : timer) : Prop :=
  reconnectTimer w = Some (timer_id r).

Lemma kept_without (id : option nat) (ts : list timer) (r : timer) :
  r ∈ ts -> r ∈ without_timer id ts \/ id = Some (timer_id r).
Proof.
  intros Hin. destruct id as [x|]; [|left; exact Hin]. cbn [without_timer].
  destruct (Nat.eqb_spec (timer_id r) x) as [-> | Hne]; [right; reflexivity|].
  left. apply elem_of_filter_bool. split; [|exact Hin].
  unfold timer_is. now apply negb_true_iff, Nat.eqb_neq.
Qed.

Section Kept.

Variable P : platform.

Lemma scheduleReconnect_keeps (w : world) (r : timer) :
  r ∈ timers w -> r ∈ timers (world_of (scheduleReconnect P w)) \/ recorded w r.
Proof.
  intros Hin.
  destruct (Nat.le_gt_cases maxReconnectAttempts (reconnectAttempts w)) as [H | H].
  - rewrite (scheduleReconnect_exhausted P w H). left. exact Hin.
  - rewrite (scheduleReconnect_budget P w H). cbn [world_of rescheduled timers].
    destruct (kept_without (reconnectTimer w) (timers w) r Hin) as [Hk | Hk].
    + left. apply elem_of_app. now left.
    + right. exact Hk.
Qed.

Lemma createWSConnection_keeps (force : bool) (w : world) (r : timer) :
  r ∈ timers w -> r ∈ timers (world_of (createWSConnection P force w)) \/ recorded w r.
Proof.
  intros Hin. destruct (connect_skipped force w) eqn:Hs.
  - rewrite (createWSConnection_skipped P force w Hs). now left.
  - destruct (WebSocket_accepts P (wsUrl P)) eqn:Hok.
    + rewrite (createWSConnection_accepted P force w Hs Hok). left.
      cbn [world_of connecting timers]. apply elem_of_app. now left.
    + rewrite (createWSConnection_rejected P force w Hs Hok).
      destruct (closing_current_timer_state w) as (Ht & _ & Hr & _).
      assert (Hin' : r ∈ timers (connect_failed w)).
      { unfold connect_failed. simpl_world. now rewrite Ht. }
      destruct (scheduleReconnect_keeps (connect_failed w) r Hin') as [Hk | Hk];
        [now left | right].
      unfold recorded in *. unfold connect_failed in Hk. simpl_world_in Hk.
      now rewrite Hr in Hk.
Qed.

Lemma timer_callback_keeps (cb : callback) (w : world) (r : timer) :
  r ∈ timers w -> r ∈ timers (world_of (run_callback P cb w)) \/ recorded w r.
Proof.
  intros Hin. destruct cb; cbn [run_callback].
  - rewrite connectionTimeout_callback_fired.
    destruct (socket w) as [sid|]; [|now left].
    destruct (readyState_eqb (readyState_of w sid) OPEN); [now left|].
    destruct (closing_timer_state sid (set_console (console w ++ [timeout_warning]) w))
      as (Ht & _ & Hr & _).
    assert (Hin' : r ∈ timers (timed_out sid w)).
    { unfold timed_out. rewrite Ht. exact Hin. }
    destruct (scheduleReconnect_keeps (timed_out sid w) r Hin') as [Hk | Hk];
      [now left | right].
    unfold recorded, timed_out in *. now rewrite Hr in Hk.
  - rewrite reconnect_callback_fired.
    apply (createWSConnection_keeps true
             (set_console (console w ++ [attempting_entry]) w) r Hin).
Qed.

Lemma timer_kept (e : event) (w : world) (r : timer) :
  r ∈ timers w ->
  r ∈ timers (next P e w) \/ fires e r \/ settles e w r \/ recorded w r.
Proof.
  intros Hin. unfold next.
  destruct e as [force | type payload | sid | sid text | sid
                 | sid code reason | tid | ]; cbn [step].
  - destruct (createWSConnection_keeps force w r Hin); auto.
  - left. now rewrite (proj1 (sendWSMessage_timer_state P type payload w)).
  - unfold bind, modify.
    destruct (update_socket_timer_state sid (set_ws_readyState OPEN) w ltac:(reflexivity))
      as (Ht & _ & Hr & _).
    set (w1 := update_socket sid (set_ws_readyState OPEN) w) in *.
    unfold with_handlers. unfold w1 at 1. rewrite update_socket_lookup, Nat.eqb_refl.
    destruct (sockets w !! sid) as [s|] eqn:Hs; cbn [fmap option_fmap option_map];
      [|left; cbn [world_of]; now rewrite Ht].
    cbn [set_ws_readyState ws_handlers].
    destruct (ws_handlers s) as [t|] eqn:Hh; [|left; cbn [world_of]; now rewrite Ht].
    rewrite onopen_opened. cbn [world_of opened timers]. rewrite Ht, Hr.
    destruct (kept_without (Some t) (timers w) r Hin) as [Hk | [= ->]].
    + destruct (kept_without (reconnectTimer w) _ r Hk) as [Hk' | Hk'];
        [left; exact Hk' | right; right; right; exact Hk'].
    + right. right. left. exists sid, s. auto.
  - left. destruct (with_handlers_cases sid (fun _ => onmessage P text) w)
      as [-> | (s & t & _ & _ & ->)]; [exact Hin|].
    now rewrite (proj1 (onmessage_timer_state P text w)).
  - left. destruct (with_handlers_cases sid (fun _ => onerror) w)
      as [-> | (s & t & _ & _ & ->)]; exact Hin.
  - unfold bind, modify.
    destruct (update_socket_timer_state sid (set_ws_readyState CLOSED) w ltac:(reflexivity))
      as (Ht & _ & Hr & _).
    set (w1 := update_socket sid (set_ws_readyState CLOSED) w) in *.
    unfold with_handlers. unfold w1 at 1. rewrite update_socket_lookup, Nat.eqb_refl.
    destruct (sockets w !! sid) as [s|] eqn:Hs; cbn [fmap option_fmap option_map];
      [|left; cbn [world_of]; now rewrite Ht].
    cbn [set_ws_readyState ws_handlers].
    destruct (ws_handlers s) as [t|] eqn:Hh; [|left; cbn [world_of]; now rewrite Ht].
    assert (Hsettle : r ∈ timers (close_noted t code reason w1) \/ settles
                        (SockClose sid code reason) w r).
    { unfold close_noted. simpl_world. rewrite Ht.
      destruct (kept_without (Some t) (timers w) r Hin) as [Hk | [= ->]]; [now left|].
      right. exists sid, s. split; [right; exists code, reason; reflexivity|].
      split; assumption. }
    destruct Hsettle as [Hk | Hk]; [|auto].
    destruct (Z.eq_dec code 1000%Z) as [-> | Hc].
    + rewrite onclose_intentional. left. exact Hk.
    + rewrite (onclose_unexpected P t code reason w1 Hc).
      destruct (scheduleReconnect_keeps _ r Hk) as [Hk' | Hk']; [now left|].
      right. right. right. unfold recorded in *. unfold close_noted in Hk'.
      simpl_world_in Hk'. now rewrite Hr in Hk'.
  - destruct (List.find (timer_is tid) (timers w)) as [t|]; [|now left].
    destruct (kept_without (Some tid) (timers w) r Hin) as [Hk | [= ->]];
      [|right; left; reflexivity].
    destruct (timer_callback_keeps (timer_cb t)
                (set_timers (List.filter (fun t0 => negb (timer_is tid t0)) (timers w)) w)
                r Hk) as [Hk' | Hk']; auto.
  - left. unfold beforeunload, bind, get.
    destruct (socket w) as [sid|]; [|exact Hin].
    rewrite ws_close_closing. cbn [world_of].
    now rewrite (proj1 (closing_timer_state sid w)).
Qed.

End Kept.

(** X13.  In every world the module can reach, an armed connection timeout
    stays armed over an event unless it is the timer that fires or the event
    is the open or the close of the socket whose handlers captured it.  No
    call of [createWSConnection] or [sendWSMessage], no message or error, no
    event of another socket and no other timer disarms it. *)
Theorem connection_timeout_stays_armed (P : platform) (w : world) (e : event) (r : timer) :
  reachable P w ->
  r ∈ timers w ->
  timer_cb r = CbConnectionTimeout ->
  r ∈ timers (next P e w) \/
  e = TimerFire (timer_id r) \/
  exists sid s,
    (e = SockOpen sid \/ exists code reason, e = SockClose sid code reason) /\
    sockets w !! sid = Some s /\
    ws_handlers s = Some (timer_id r).
Proof.
  intros Hreach Hin Hcb.
  destruct (timer_kept P e w r Hin) as [H | [H | [H | H]]]; auto.
  exfalso. destruct (reachable_recorded_ok P w Hreach) as [_ [_ Hrec]].
  rewrite (Hrec r Hin H) in Hcb. discriminate.
Qed.

(** A forced connect leaves the timeout of the first socket armed. *)
Lemma connection_timeout_stays_armed_witness :
  {| timer_id := 0; timer_delay := 10000; timer_cb := CbConnectionTimeout |}
    ∈ timers (next reference (CallConnect true) (next reference (CallConnect false) initial)).
Proof.
  assert (Hreach : reachable reference (next reference (CallConnect false) initial)).
  { apply reachable_next; [apply reachable_initial | reflexivity]. }
  destruct (connection_timeout_stays_armed reference
              (next reference (CallConnect false) initial) (CallConnect true)
              {| timer_id := 0; timer_delay := 10000; timer_cb := CbConnectionTimeout |}
              Hreach ltac:(apply list_elem_of_here) eq_refl)
    as [H | [H | (sid & s & [H | (code & reason & H)] & _)]];
    [exact H | discriminate H | discriminate H | discriminate H].
Defined.

(** ** Recovering from a dropped connection *)

Lemma pending_find (id : nat) (ts : list timer) :
  existsb (timer_is id) ts = true ->
  exists t, List.find (timer_is id) ts = Some t /\ t ∈ ts /\ timer_id t = id.
Proof.
  intros H. destruct (List.find (timer_is id) ts) as [t|] eqn:E.
  - exists t. split; [reflexivity|]. apply find_some in E as [Hin Hid].
    split; [now apply list_elem_of_In | now apply Nat.eqb_eq].
  - apply existsb_exists in H as (t & Hin & Hid).
    now rewrite (find_none _ _ E t Hin) in Hid.
Qed.

(** X14.  In every world the module can reach, with budget left and a
    platform that accepts the URL, an open socket that closes unexpectedly is
    replaced without any call from outside: the close arms the reconnect
    timer, the timer makes the next socket, and when that socket opens the
    module is connected again, with the counter at 0, [isReconnecting]
    false, no reconnect timer armed, the timeout of the new socket disarmed,
    and the new socket the one that is held and the only one that is
    connecting or open, so that [sendWSMessage] transmits on it. *)
Theorem drop_then_recover (P : platform) (w : world) (sid h : nat) (s : WebSocket)
    (code : Z) (reason : string) :
  reachable P w ->
  sockets w !! sid = Some s ->
  ws_readyState s = OPEN ->
  ws_handlers s = Some h ->
  code <> 1000%Z ->
  (reconnectAttempts w < maxReconnectAttempts)%nat ->
  WebSocket_accepts P (wsUrl P) = true ->
  let n := length (sockets w) in
  let es := [SockClose sid code reason; TimerFire (next_timer w); SockOpen n] in
  let w' := play P es w in
  run P es w = Some w' /\
  socket w' = Some n /\
  sockets w' !! n =
    Some {| ws_url := wsUrl P; ws_readyState := OPEN;
            ws_handlers := Some (S (next_timer w)); ws_sent := [] |} /\
  (forall i, live w' i = true -> i = n) /\
  socket_is_open w' = true /\
  reconnectAttempts w' = 0%nat /\
  isReconnecting w' = false /\
  reconnectTimer w' = None /\
  pending_reconnects w' = [] /\
  timer_pending w' (S (next_timer w)) = false.
Proof.
  intros Hreach Hs Hst Hh Hcode Hlt Hok n es w'.
  (* the close *)
  set (e1 := SockClose sid code reason).
  assert (Hen1 : enabled e1 w = true) by (cbn; now rewrite Hs, Hst).
  set (wn := close_noted h code reason (update_socket sid (set_ws_readyState CLOSED) w)).
  destruct (update_socket_fields sid (set_ws_readyState CLOSED) w)
    as (_ & Ha & _ & _ & _ & Hn & _ & _ & _ & Hlen).
  assert (Hstep1 : step P e1 w = Normal tt (rescheduled P wn)).
  { unfold e1. rewrite (step_close P w sid s h code reason Hs Hh).
    rewrite (onclose_unexpected P h code reason _ Hcode).
    apply scheduleReconnect_budget. unfold wn, close_noted. simpl_world.
    now rewrite Ha. }
  set (w1 := next P e1 w).
  assert (Hw1 : w1 = rescheduled P wn) by (unfold w1, next; now rewrite Hstep1).
  assert (Hreach1 : reachable P w1) by (now apply reachable_next).
  assert (Hn1 : next_timer w1 = S (next_timer w)).
  { rewrite Hw1. cbn [rescheduled next_timer]. unfold wn, close_noted. simpl_world.
    now rewrite Hn. }
  assert (Hr1 : reconnectTimer w1 = Some (next_timer w)).
  { rewrite Hw1. cbn [rescheduled reconnectTimer]. unfold wn, close_noted. simpl_world.
    now rewrite Hn. }
  assert (Hlen1 : length (sockets w1) = n).
  { rewrite Hw1. cbn [rescheduled sockets]. unfold wn, close_noted. simpl_world.
    exact Hlen. }
  assert (Hp1 : timer_pending w1 (next_timer w) = true).
  { rewrite Hw1. replace (next_timer w) with (next_timer wn) by exact Hn.
    apply rescheduled_pending. }
  (* the reconnect timer *)
  set (e2 := TimerFire (next_timer w)).
  destruct (pending_find _ _ Hp1) as (t & Hfind & Hin & Hid).
  assert (Hcb : timer_cb t = CbReconnect).
  { destruct (reachable_recorded_ok P w1 Hreach1) as [_ [_ Hrec]].
    apply Hrec; [exact Hin | now rewrite Hid]. }
  pose proof (reconnect_fired P w1 (next_timer w) t Hfind Hcb Hok) as Hstep2.
  set (w0 := set_console (console w1 ++ [attempting_entry])
               (set_timers (without_timer (Some (next_timer w)) (timers w1)) w1)) in *.
  set (w2 := next P e2 w1).
  assert (Hw2 : w2 = connecting P w0) by (unfold w2, next, e2; now rewrite Hstep2).
  assert (Hreach2 : reachable P w2) by (now apply reachable_next).
  assert (Hnew : sockets w2 !! n =
                 Some {| ws_url := wsUrl P; ws_readyState := CONNECTING;
                         ws_handlers := Some (S (next_timer w)); ws_sent := [] |}).
  { rewrite Hw2, <- Hlen1. change (sockets w1) with (sockets w0).
    rewrite (connecting_new_socket P w0). unfold fresh_socket.
    change (next_timer w0) with (next_timer w1). now rewrite Hn1. }
  assert (Hso2 : socket w2 = Some n).
  { rewrite Hw2. cbn [connecting socket]. change (sockets w0) with (sockets w1).
    now rewrite Hlen1. }
  (* the open *)
  set (e3 := SockOpen n).
  assert (Hen3 : enabled e3 w2 = true) by (cbn; now rewrite Hnew).
  pose proof (step_open P w2 n _ (S (next_timer w)) Hnew eq_refl) as Hstep3.
  set (wo := update_socket n (set_ws_readyState OPEN) w2) in *.
  set (w3 := next P e3 w2).
  assert (Hw3 : w3 = opened (S (next_timer w)) wo) by (unfold w3, next, e3; now rewrite Hstep3).
  assert (Hreach3 : reachable P w3) by (now apply reachable_next).
  assert (Hplay : w' = w3) by reflexivity.
  destruct (update_socket_fields n (set_ws_readyState OPEN) w2) as (Hso_o & _).
  fold wo in Hso_o.
  assert (Hso3 : socket w3 = Some n).
  { rewrite Hw3. cbn [opened socket]. now rewrite Hso_o. }
  assert (Hnew3 : sockets w3 !! n =
                  Some {| ws_url := wsUrl P; ws_readyState := OPEN;
                          ws_handlers := Some (S (next_timer w)); ws_sent := [] |}).
  { rewrite Hw3. cbn [opened sockets]. unfold wo.
    rewrite update_socket_lookup, Nat.eqb_refl, Hnew. reflexivity. }
  rewrite Hplay.
  split.
  { unfold es. cbn [run]. fold e1 e2 e3. rewrite Hen1. fold w1.
    assert (Hen2 : enabled e2 w1 = true) by exact Hp1.
    rewrite Hen2. fold w2. rewrite Hen3. reflexivity. }
  split; [exact Hso3|]. split; [exact Hnew3|].
  split.
  { intros i Hi. destruct (reachable_registry P w3 Hreach3) as [_ Honly].
    specialize (Honly i Hi). rewrite Hso3 in Honly. now injection Honly. }
  split. { unfold socket_is_open, readyState_of. now rewrite Hso3, Hnew3. }
  rewrite Hw3.
  cbn [opened reconnectAttempts isReconnecting reconnectTimer].
  split; [reflexivity|]. split; [reflexivity|]. split; [reflexivity|].
  split.
  { rewrite <- Hw3. destruct (reachable_one_reconnect_timer P w3 Hreach3) as [Htr _].
    apply filter_none. intros r Hr.
    destruct (is_reconnect r) eqn:E; [|reflexivity].
    apply is_reconnect_true in E. specialize (Htr r Hr E).
    rewrite Hw3 in Htr. discriminate Htr. }
  unfold timer_pending. cbn [opened timers].
  apply (pending_subset _ (without_timer (Some (S (next_timer w))) (timers wo)));
    [apply without_timer_subset | apply pending_after_clear].
Qed.

(** The connected socket of the reference run drops and comes back. *)
Lemma drop_then_recover_witness :
  let w' := play reference [SockClose 0 1006 EmptyString; TimerFire 1; SockOpen 1]
              connected in
  socket w' = Some 1%nat /\
  socket_is_open w' = true /\
  reconnectAttempts w' = 0%nat /\
  pending_reconnects w' = [].
Proof.
  intros w'.
  assert (Hreach : reachable reference connected).
  { apply (run_reachable reference [CallConnect false; SockOpen 0] initial);
      [apply reachable_initial | vm_compute; reflexivity]. }
  destruct (drop_then_recover reference connected 0 0
              {| ws_url := "wss://everdice.example/ws"; ws_readyState := OPEN;
                 ws_handlers := Some 0%nat; ws_sent := [] |}
              1006 EmptyString Hreach eq_refl eq_refl eq_refl ltac:(discriminate)
              ltac:(vm_compute; repeat constructor) eq_refl)
    as (_ & Hso & _ & _ & Hopen & Ha & _ & _ & Hp & _).
  split; [exact Hso|]. split; [exact Hopen|]. split; [exact Ha | exact Hp].
Defined.
